(** * The PDF-to-Markdown converter of [garakPDFparser.py]

    A shallow embedding of [PDFToMarkdownConverter] and of the few Python
    builtins it relies on, followed by the properties of its heading
    classifier, block and line groupers, font profile, table renderer and
    document assembler. The simple converter of the same file and the
    functions of [main.py] that split the Markdown into nodes and chunks
    come with them.

    Conventions of the embedding:
    - a Python [float] is a binary64 value ([PrimFloat.float]); arithmetic and
      comparisons are the IEEE ones, so [nan] compares false with everything;
    - a Python [str] is the list of its code points;
    - a [Counter] is the list of its [(key, count)] items in insertion order,
      keys compared with [==];
    - [sorted] is a stable insertion sort that compares keys with [<];
    - a loop over a list is a [fold_left] of its body over the loop state;
    - an exception that escapes a method is the result [None];
    - [str(uuid.uuid4())] is the next value of a sequence [uuid4], the
      number of values drawn being part of the state. *)

Set Warnings "-inexact-float".
From Stdlib Require Uint63.
From Stdlib Require Import Floats Ascii String.
From Stdlib Require Import ZArith NArith Arith Bool Lia.
From Stdlib Require Import List Permutation Sorted.
Import ListNotations.
Local Open Scope list_scope.

(* ================================================================= *)
(** ** Python builtins used by the converter *)

Module Py.

(** *** Strings *)

Definition str := list N.

(** A literal, given by its (ASCII) characters. *)
Definition lit (s : string) : str :=
  map N_of_ascii (list_ascii_of_string s).

(** The line break ['\n']. *)
Definition newline : str := [10%N].

(** [c.isspace()] for one code point, which is also what [\s] matches in a
    [str] pattern of [re]. *)
Definition isspace (c : N) : bool :=
  ((9 <=? c) && (c <=? 13) || (28 <=? c) && (c <=? 32)
   || (c =? 133) || (c =? 160) || (c =? 5760)
   || (8192 <=? c) && (c <=? 8202)
   || (c =? 8232) || (c =? 8233) || (c =? 8239) || (c =? 8287)
   || (c =? 12288))%N.

Fixpoint lstrip (s : str) : str :=
  match s with
  | [] => []
  | c :: r => if isspace c then lstrip r else s
  end.

Fixpoint rstrip (s : str) : str :=
  match s with
  | [] => []
  | c :: r =>
      match rstrip r with
      | [] => if isspace c then [] else [c]
      | r' => c :: r'
      end
  end.

(** [s.strip()] *)
Definition strip (s : str) : str := rstrip (lstrip s).

(** [s.startswith(p)] *)
Fixpoint startswith (s p : str) : bool :=
  match p, s with
  | [], _ => true
  | _ :: _, [] => false
  | a :: p', b :: s' => (a =? b)%N && startswith s' p'
  end.

(** [s.endswith(p)] *)
Definition endswith (s p : str) : bool := startswith (rev s) (rev p).

(** [sep.join(parts)] *)
Fixpoint join (sep : str) (parts : list str) : str :=
  match parts with
  | [] => []
  | [p] => p
  | p :: rest => p ++ sep ++ join sep rest
  end.

(** [re.sub(r'\s+', ' ', s)]: every maximal run of whitespace becomes one
    space; [in_run] tells that the previous character was whitespace. *)
Fixpoint sub_spaces (in_run : bool) (s : str) : str :=
  match s with
  | [] => []
  | c :: r =>
      if isspace c
      then (if in_run then sub_spaces true r else 32%N :: sub_spaces true r)
      else c :: sub_spaces false r
  end.

(** Truth value of a string: non-empty. *)
Definition truthy_str (s : str) : bool :=
  match s with [] => false | _ => true end.

(** *** Floats *)

Local Open Scope float_scope.

(** Conversion of a (small) [int], as in [x / (2 * len(l))]. *)
Definition float_of_nat (n : nat) : float :=
  of_uint63 (Uint63.of_Z (Z.of_nat n)).

(** Truth value of a float: anything but zero ([nan] is true). *)
Definition truthy (x : float) : bool := negb (x =? 0).

(** [min(a, b)] and [max(a, b)]: the first argument unless the second is
    strictly better. *)
Definition min2 (a b : float) : float := if b <? a then b else a.
Definition max2 (a b : float) : float := if a <? b then b else a.

(** [min(iterable)] and [max(iterable)]; [None] is the [ValueError] of an
    empty iterable. *)
Definition min (l : list float) : option float :=
  match l with
  | [] => None
  | x :: r => Some (fold_left min2 r x)
  end.

Definition max (l : list float) : option float :=
  match l with
  | [] => None
  | x :: r => Some (fold_left max2 r x)
  end.

(** [sum(l)]: the additions are made left to right from [0] (the plain
    summation; the grouping of characters into lines does not depend on how
    the sum is rounded). *)
Definition sum (l : list float) : float := fold_left PrimFloat.add l 0.

(** Nearest integer to [a / b] ([b > 0]), ties to the even one. *)
Definition round_half_even (a b : Z) : Z :=
  let q := (a / b)%Z in
  let r := (a mod b)%Z in
  match (2 * r ?= b)%Z with
  | Lt => q
  | Gt => (q + 1)%Z
  | Eq => if Z.even q then q else (q + 1)%Z
  end.

(** [round(x, 1)]: the exact value of [x] is rounded to one decimal, ties
    to even, and the double nearest to that decimal is returned; an
    integral value, an infinity and [nan] are returned unchanged. *)
Definition round1 (x : float) : float :=
  match Prim2SF x with
  | S754_finite s m e =>
      if (0 <=? e)%Z then x
      else
        match round_half_even (10 * Z.pos m) (2 ^ (- e)) with
        | Zpos n =>
            SF2Prim (SFdiv prec emax (S754_finite s n 0)
                                     (S754_finite false 10 0))
        | _ => if s then - 0 else 0
        end
  | _ => x
  end.

(** Comparison of the tuples [(a1, a2) < (b1, b2)]: decided by the first
    components that are not equal. *)
Definition lt_pair (a b : float * float) : bool :=
  if fst a =? fst b
  then (if snd a =? snd b then false else snd a <? snd b)
  else fst a <? fst b.

(** *** Sorting *)

Section Sorted.
Context {A K : Type}.
Variable lt : K -> K -> bool.
Variable key : A -> K.

(** [x] goes before the first element that is not strictly below it, so
    that equal keys keep their order. *)
Fixpoint insert (x : A) (l : list A) : list A :=
  match l with
  | [] => [x]
  | y :: r => if lt (key y) (key x) then y :: insert x r else x :: l
  end.

(** [sorted(l, key=key)]: a stable sort that only uses [<] on keys. When [<]
    orders the keys, as it does numbers, every stable sort returns this
    list. *)
Definition sorted (l : list A) : list A := fold_right insert [] l.

(** [a] may stand before [b]: the key of [b] is not strictly below the
    key of [a]. *)
Definition not_after (a b : A) : Prop := lt (key b) (key a) = false.
End Sorted.

(** *** Indexing *)

(** [l[i]], where a negative [i] counts from the end; [None] is the
    [IndexError]. *)
Definition index {A} (l : list A) (i : Z) : option A :=
  if (i <? 0)%Z
  then (if (0 <=? Z.of_nat (length l) + i)%Z
        then nth_error l (Z.to_nat (Z.of_nat (length l) + i))
        else None)
  else nth_error l (Z.to_nat i).

(** *** Counter *)

Definition Counter := list (float * nat).

(** [c[k] += 1] *)
Fixpoint incr (k : float) (c : Counter) : Counter :=
  match c with
  | [] => [(k, 1%nat)]
  | (k', n) :: r =>
      if k' =? k then (k', S n) :: r else (k', n) :: incr k r
  end.

(** [c[k]], which is [0] for a missing key. *)
Fixpoint get (c : Counter) (k : float) : nat :=
  match c with
  | [] => 0%nat
  | (k', n) :: r => if k' =? k then n else get r k
  end.

(** [Counter(l)] *)
Definition count_all (l : list float) : Counter :=
  fold_left (fun c k => incr k c) l [].

(** [c.most_common(1)]: the first item of maximal count, in a list. *)
Definition most_common1 (c : Counter) : list (float * nat) :=
  match c with
  | [] => []
  | e :: r =>
      [fold_left
         (fun best it => if (snd best <? snd it)%nat then it else best) r e]
  end.

End Py.

(* ================================================================= *)
(** ** What pdfplumber hands to the converter *)

Local Open Scope float_scope.

(** A character of a page: the dictionary [{text, size, x0, x1, top, bottom}],
    where [size] may be missing. *)
Record char := {
  text : Py.str;
  size : option float;
  x0 : float;
  x1 : float;
  top : float;
  bottom : float
}.

(** [char.get('size')] read as a condition: present and not zero. *)
Definition has_size (c : char) : bool :=
  match size c with
  | Some s => Py.truthy s
  | None => false
  end.

(** [char.get('size', 0)] *)
Definition get_size (c : char) : float :=
  match size c with
  | Some s => s
  | None => 0
  end.

Definition Line := list char.
Definition Block := list Line.

(** A bounding box [(x0, top, x1, bottom)]. *)
Definition BBox := (float * float * float * float)%type.

(** What a call that may raise gives back. *)
Inductive outcome (A : Type) : Type :=
| Raised : outcome A
| Returned : A -> outcome A.
Arguments Raised {A}.
Arguments Returned {A} _.

(** The grid of a table: rows of cells, a cell being a string or [None]. *)
Definition Grid := list (list (option Py.str)).

(** A table object: its [bbox] and what [table.extract()] does, which is to
    raise or to return a grid or [None]. *)
Record table := {
  bbox : BBox;
  extract : outcome (option Grid)
}.

(** A page: [page.chars] and [page.find_tables()]. *)
Record page := {
  chars : list char;
  find_tables : list table
}.

(** An opened document: [pdf.pages]. *)
Record Pdf := { pages : list page }.

(** An item of [page_elements]: the dictionary [{type, content, bbox}]. *)
Inductive element : Type :=
| text_element (content : Block) (box : BBox)
| table_element (content : table) (box : BBox).

Definition element_bbox (e : element) : BBox :=
  match e with
  | text_element _ b => b
  | table_element _ b => b
  end.

(** The converter object: its only attribute is [font_sizes]. *)
Record PDFToMarkdownConverter := { font_sizes : Py.Counter }.

(** [__init__] *)
Definition init : PDFToMarkdownConverter := {| font_sizes := [] |}.

(* ================================================================= *)
(** ** The methods of [PDFToMarkdownConverter] *)

(** The body of the inner loop of [_analyze_document_structure]. *)
Definition analyze_char (fs : Py.Counter) (c : char) : Py.Counter :=
  if has_size c then Py.incr (Py.round1 (get_size c)) fs else fs.

(** [_analyze_document_structure]: the counter is cleared, then every sized
    character of every page is counted under its size rounded to 1 decimal. *)
Definition _analyze_document_structure
    (self : PDFToMarkdownConverter) (pdf : Pdf) : PDFToMarkdownConverter :=
  {| font_sizes :=
       fold_left (fun fs pg => fold_left analyze_char (chars pg) fs)
                 (pages pdf) [] |}.

(** *** Lines *)

Definition y_tolerance : float := 3.

(** [sorted(current_line, key=lambda c: c['x0'])] *)
Definition sort_by_x0 (l : Line) : Line := Py.sorted PrimFloat.ltb x0 l.

(** State of the loop of [_group_chars_into_lines]. The variable
    [current_y_range] is assigned there and never read: it is left out. *)
Record line_state := {
  lines : list Line;
  current_line : Line
}.

(** One iteration of the loop of [_group_chars_into_lines]. *)
Definition line_step (st : line_state) (c : char) : line_state :=
  let char_top := top c in
  let char_bottom := bottom c in
  match current_line st with
  | [] => {| lines := lines st; current_line := [c] |}
  | _ :: _ =>
      let current_line_avg_y :=
        Py.sum (map (fun c => top c + bottom c) (current_line st))
        / Py.float_of_nat (2 * length (current_line st)) in
      let char_avg_y := (char_top + char_bottom) / 2 in
      if abs (char_avg_y - current_line_avg_y) <=? y_tolerance
      then {| lines := lines st; current_line := current_line st ++ [c] |}
      else {| lines := lines st ++ [sort_by_x0 (current_line st)];
              current_line := [c] |}
  end.

Definition _group_chars_into_lines (cs : list char) : list Line :=
  match cs with
  | [] => []
  | _ :: _ =>
      let sorted_chars :=
        Py.sorted Py.lt_pair (fun c => (top c, x0 c)) cs in
      let st :=
        fold_left line_step sorted_chars {| lines := []; current_line := [] |} in
      match current_line st with
      | [] => lines st
      | _ :: _ => lines st ++ [sort_by_x0 (current_line st)]
      end
  end.

(** *** Blocks *)

(** [[char.get('size', 0) for char in line if char.get('size')]] *)
Definition line_font_sizes (line : Line) : list float :=
  map get_size (filter has_size line).

(** The loop of [_get_median_line_height]: the most common size of every
    line that has a sized character. The last case stands for the
    [IndexError] of [most_common(1)[0]]; it is never reached, the counter of
    a non-empty list having an item. *)
Definition line_heights (ls : list Line) : list float :=
  flat_map
    (fun line =>
       match line with
       | [] => []
       | _ :: _ =>
           match line_font_sizes line with
           | [] => []
           | _ :: _ =>
               match Py.most_common1 (Py.count_all (line_font_sizes line)) with
               | (most_common_size, _) :: _ => [most_common_size]
               | [] => []
               end
           end
       end)
    ls.

(** The last lines of [_get_median_line_height], on the heights found. *)
Definition median_of (heights : list float) : option float :=
  match heights with
  | [] => Some 12
  | _ :: _ =>
      let heights := Py.sorted PrimFloat.ltb (fun h => h) heights in
      let mid := (Z.of_nat (length heights) / 2)%Z in
      if (Z.of_nat (length heights) mod 2 =? 0)%Z
      then
        match Py.index heights mid, Py.index heights (Z.lnot mid) with
        | Some a, Some b => Some ((a + b) / 2)
        | _, _ => None
        end
      else Py.index heights mid
  end.

Definition _get_median_line_height (ls : list Line) : option float :=
  median_of (line_heights ls).

(** State of the loop of [_group_lines_into_blocks]. *)
Record block_state := {
  blocks : list Block;
  current_block : Block;
  prev_line_bottom : option float
}.

(** [min(char['top'] for char in line)] and
    [max(char['bottom'] for char in line)]. *)
Definition line_top (line : Line) : option float := Py.min (map top line).
Definition line_bottom (line : Line) : option float := Py.max (map bottom line).

(** One iteration of the loop of [_group_lines_into_blocks]; [None] when an
    exception escapes. *)
Definition block_step (paragraph_spacing_threshold : float)
    (st : block_state) (line : Line) : option block_state :=
  match line with
  | [] => Some st
  | _ :: _ =>
      match line_top line, line_bottom line with
      | Some line_top, Some line_bottom =>
          let '(blocks, current_block) :=
            match prev_line_bottom st with
            | Some prev_line_bottom =>
                let line_spacing := line_top - prev_line_bottom in
                if paragraph_spacing_threshold <? line_spacing
                then
                  (match current_block st with
                   | [] => blocks st
                   | _ :: _ => blocks st ++ [current_block st]
                   end, [])
                else (blocks st, current_block st)
            | None => (blocks st, current_block st)
            end in
          Some {| blocks := blocks;
                  current_block := current_block ++ [line];
                  prev_line_bottom := Some line_bottom |}
      | _, _ => None
      end
  end.

(** A loop whose body may raise. *)
Definition fold_opt {S A} (f : S -> A -> option S) (l : list A) (s : S)
    : option S :=
  fold_left (fun acc a => match acc with Some s => f s a | None => None end)
            l (Some s).

Definition _group_lines_into_blocks (ls : list Line) : option (list Block) :=
  match ls with
  | [] => Some []
  | _ :: _ =>
      match _get_median_line_height ls with
      | None => None
      | Some median =>
          let paragraph_spacing_threshold := 1.5 * median in
          match fold_opt (block_step paragraph_spacing_threshold) ls
                  {| blocks := []; current_block := [];
                     prev_line_bottom := None |} with
          | None => None
          | Some st =>
              Some match current_block st with
                   | [] => blocks st
                   | _ :: _ => blocks st ++ [current_block st]
                   end
          end
      end
  end.

(** *** Lines of text, headings and paragraphs *)

(** [_process_line]: the text of the line, its characters taken from left to
    right, and its dominant size ([0.0] when no character has a size). The
    last case of [dominant_size] stands for the [IndexError] of
    [most_common(1)[0]], which is never reached. *)
Definition _process_line (line : Line) : Py.str * float :=
  match line with
  | [] => ([], 0)
  | _ :: _ =>
      let sorted_line := sort_by_x0 line in
      let line_text := concat (map text sorted_line) in
      let font_sizes := map get_size (filter has_size sorted_line) in
      let dominant_size :=
        match font_sizes with
        | [] => 0
        | _ :: _ =>
            match Py.most_common1 (Py.count_all font_sizes) with
            | (s, _) :: _ => s
            | [] => 0
            end
        end in
      (line_text, dominant_size)
  end.

(** [_clean_text] *)
Definition _clean_text (text : Py.str) : Py.str :=
  let text := Py.sub_spaces false text in
  let text := Py.strip text in
  text.

(** [_is_heading] *)
Definition _is_heading (self : PDFToMarkdownConverter)
    (font_size : float) (text : Py.str) : bool :=
  match font_sizes self with
  | [] => false
  | _ :: _ =>
      match Py.most_common1 (font_sizes self) with
      | [] => false
      | (body_size, _) :: _ =>
          let size_threshold := body_size * 1.1 in
          let is_larger := size_threshold <=? font_size in
          let is_short := (length (Py.strip text) <? 100)%nat in
          let no_period :=
            negb (Py.endswith (Py.strip text) (Py.lit "."))
            && negb (Py.endswith (Py.strip text) (Py.lit ",")) in
          is_larger && (body_size <? font_size) && (is_short || no_period)
      end
  end.

(** [_format_as_heading] *)
Definition _format_as_heading (self : PDFToMarkdownConverter)
    (text : Py.str) (font_size : float) : Py.str :=
  match font_sizes self with
  | [] => Py.lit "## " ++ text
  | _ :: _ =>
      match Py.most_common1 (font_sizes self) with
      | [] => Py.lit "## " ++ text
      | (body_size, _) :: _ =>
          let size_ratio :=
            if 0 <? body_size then font_size / body_size else 1.0 in
          if 2.0 <=? size_ratio then Py.lit "# " ++ text
          else if 1.7 <=? size_ratio then Py.lit "## " ++ text
          else if 1.4 <=? size_ratio then Py.lit "### " ++ text
          else if 1.2 <=? size_ratio then Py.lit "#### " ++ text
          else Py.lit "##### " ++ text
      end
  end.

(** The body of the first loop of [_process_text_block]: what a line adds to
    [block_lines_md]. *)
Definition line_md (self : PDFToMarkdownConverter) (line : Line)
    : list Py.str :=
  match line with
  | [] => []
  | _ :: _ =>
      let '(line_text, line_size) := _process_line line in
      let cleaned_line_text := _clean_text line_text in
      if Py.truthy_str cleaned_line_text
      then
        if _is_heading self line_size cleaned_line_text
        then [_format_as_heading self cleaned_line_text line_size]
        else [cleaned_line_text]
      else []
  end.

(** State of the second loop of [_process_text_block]. *)
Record para_state := {
  final_block_content : list Py.str;
  current_paragraph : list Py.str
}.

(** [final_block_content.append(' '.join(current_paragraph))], made when
    [current_paragraph] is not empty. *)
Definition flush (st : para_state) : list Py.str :=
  match current_paragraph st with
  | [] => final_block_content st
  | _ :: _ =>
      final_block_content st ++ [Py.join (Py.lit " ") (current_paragraph st)]
  end.

(** One iteration of the second loop of [_process_text_block]. *)
Definition para_step (st : para_state) (item : Py.str) : para_state :=
  if Py.startswith item (Py.lit "#")
  then {| final_block_content := flush st ++ [item];
          current_paragraph := [] |}
  else {| final_block_content := final_block_content st;
          current_paragraph := current_paragraph st ++ [item] |}.

(** [_process_text_block] *)
Definition _process_text_block (self : PDFToMarkdownConverter)
    (block : Block) : Py.str :=
  match block with
  | [] => []
  | _ :: _ =>
      let block_lines_md := flat_map (line_md self) block in
      let st :=
        fold_left para_step block_lines_md
          {| final_block_content := []; current_paragraph := [] |} in
      Py.join (Py.newline) (flush st)
  end.

(** *** Tables *)

(** [str(cell).strip() if cell is not None else ""] *)
Definition cell_md (cell : option Py.str) : Py.str :=
  match cell with
  | Some s => Py.strip s
  | None => []
  end.

(** ["| " + " | ".join(... for cell in row) + " |"] *)
Definition row_md (row : list (option Py.str)) : Py.str :=
  Py.lit "| " ++ Py.join (Py.lit " | ") (map cell_md row) ++ Py.lit " |".

(** ["| " + " | ".join("---" for _ in headers) + " |"] *)
Definition separator_md (headers : list (option Py.str)) : Py.str :=
  Py.lit "| "
  ++ Py.join (Py.lit " | ") (map (fun _ => Py.lit "---") headers)
  ++ Py.lit " |".

(** The lines of the table once [data] has at least two rows. *)
Definition table_lines (data : Grid) : list Py.str :=
  match data with
  | [] => []
  | headers :: rest =>
      match headers with
      | [] => []
      | _ :: _ =>
          row_md headers :: separator_md headers
          :: flat_map (fun row => match row with
                                  | [] => []
                                  | _ :: _ => [row_md row]
                                  end) rest
      end
  end.

(** [_convert_table_to_markdown]; the [except] clause returns the empty
    string. *)
Definition _convert_table_to_markdown (self : PDFToMarkdownConverter)
    (t : table) : Py.str :=
  match extract t with
  | Raised => []
  | Returned None => []
  | Returned (Some data) =>
      match data with
      | [] => []
      | _ :: _ =>
          if (length data <? 2)%nat then []
          else Py.join (Py.newline) (table_lines data)
      end
  end.

(** *** Pages and the document *)

(** The bounding box of a block: the [min] and [max] taken over every
    character of every line; [None] is the [ValueError] of an empty one. *)
Definition block_bbox (block : Block) : option BBox :=
  let cs := concat block in
  match Py.min (map x0 cs), Py.max (map x1 cs),
        Py.min (map top cs), Py.max (map bottom cs) with
  | Some min_x0, Some max_x1, Some min_top, Some max_bottom =>
      Some (min_x0, min_top, max_x1, max_bottom)
  | _, _, _, _ => None
  end.

(** The body of the loop of [_process_page] over [text_blocks]. *)
Definition add_block (page_elements : list element) (block : Block)
    : option (list element) :=
  match block with
  | [] => Some page_elements
  | _ :: _ =>
      match block_bbox block with
      | Some box => Some (page_elements ++ [text_element block box])
      | None => None
      end
  end.

(** The key [(x['bbox'][1], x['bbox'][0])] of the sort of [page_elements]. *)
Definition reading_key (e : element) : float * float :=
  let '(bx0, btop, _, _) := element_bbox e in (btop, bx0).

(** The body of the last loop of [_process_page]. *)
Definition add_markdown (self : PDFToMarkdownConverter)
    (markdown_parts : list Py.str) (e : element) : list Py.str :=
  match e with
  | text_element content _ =>
      let block_md := _process_text_block self content in
      if Py.truthy_str (Py.strip block_md)
      then markdown_parts ++ [block_md] else markdown_parts
  | table_element content _ =>
      let table_md := _convert_table_to_markdown self content in
      if Py.truthy_str (Py.strip table_md)
      then markdown_parts ++ [table_md] else markdown_parts
  end.

(** [_process_page]; [None] when an exception escapes. *)
Definition _process_page (self : PDFToMarkdownConverter)
    (pg : page) (page_num : nat) : option Py.str :=
  let text_elements :=
    match chars pg with
    | [] => Some []
    | _ :: _ =>
        let lines := _group_chars_into_lines (chars pg) in
        match _group_lines_into_blocks lines with
        | Some text_blocks => fold_opt add_block text_blocks []
        | None => None
        end
    end in
  match text_elements with
  | None => None
  | Some page_elements =>
      let page_elements :=
        page_elements
        ++ map (fun t => table_element t (bbox t)) (find_tables pg) in
      let page_elements := Py.sorted Py.lt_pair reading_key page_elements in
      let markdown_parts := fold_left (add_markdown self) page_elements [] in
      Some (Py.join (Py.newline ++ Py.newline) markdown_parts)
  end.

(** The body of the loop of [extract_text_with_formatting] over the
    enumerated pages. *)
Definition add_page (self : PDFToMarkdownConverter)
    (markdown_content : list Py.str) (numbered : nat * page)
    : option (list Py.str) :=
  match _process_page self (snd numbered) (fst numbered) with
  | Some page_content =>
      if Py.truthy_str (Py.strip page_content)
      then Some (markdown_content ++ [page_content])
      else Some markdown_content
  | None => None
  end.

(** [enumerate(l)] *)
Definition enumerate {A} (l : list A) : list (nat * A) :=
  combine (seq 0 (length l)) l.

(** [extract_text_with_formatting], on the opened document: the converter
    after the call and the Markdown returned ([None] when an exception
    escapes). *)
Definition extract_text_with_formatting (self : PDFToMarkdownConverter)
    (pdf : Pdf) : PDFToMarkdownConverter * option Py.str :=
  let self := _analyze_document_structure self pdf in
  (self,
   match fold_opt (add_page self) (enumerate (pages pdf)) [] with
   | Some markdown_content =>
       Some (Py.join (Py.newline ++ Py.newline) markdown_content)
   | None => None
   end).

(** [to_markdown], on the opened document. *)
Definition to_markdown (pdf : Pdf) : option Py.str :=
  snd (extract_text_with_formatting init pdf).

(* ================================================================= *)
(** ** More of the Python library *)

(** *** More string methods *)

(** Puts [c] in front of the first piece. *)
Definition cons_head (c : N) (pieces : list Py.str) : list Py.str :=
  match pieces with
  | [] => [[c]]
  | p :: rest => (c :: p) :: rest
  end.

(** [s.split('\n\n')]: the pieces of [s] between the occurrences of two line
    breaks, found from left to right. *)
Fixpoint split_blank (s : Py.str) : list Py.str :=
  match s with
  | [] => [[]]
  | c :: r =>
      match r with
      | d :: r' =>
          if ((c =? 10) && (d =? 10))%N
          then [] :: split_blank r'
          else cons_head c (split_blank r)
      | [] => [[c]]
      end
  end.

(** [s.replace('\n', ' ')] *)
Definition replace_newlines (s : Py.str) : Py.str :=
  map (fun c => if (c =? 10)%N then 32%N else c) s.

(** *** Lines of a string, ranges and slices *)

(** The characters at which [str.splitlines] ends a line. *)
Definition is_linebreak (c : N) : bool :=
  ((10 <=? c) && (c <=? 13) || (28 <=? c) && (c <=? 30)
   || (c =? 133) || (c =? 8232) || (c =? 8233))%N.

(** Puts [c] in front of the first line. *)
Definition cons_line (c : N) (ls : list Py.str) : list Py.str :=
  match ls with
  | [] => [[c]]
  | l :: rest => (c :: l) :: rest
  end.

(** [s.splitlines()]: the lines of [s] without their line ends, a carriage
    return followed by a line feed being one line end; no empty line stands
    for the end of a string that ends with a line end. *)
Fixpoint splitlines (s : Py.str) : list Py.str :=
  match s with
  | [] => []
  | c :: r =>
      if is_linebreak c
      then
        [] :: match r with
              | d :: r' =>
                  if ((c =? 13) && (d =? 10))%N
                  then splitlines r'
                  else splitlines r
              | [] => []
              end
      else cons_line c (splitlines r)
  end.

(** [range(0, stop, step)] for a [step] of 1 or more. *)
Definition range_step (stop step : nat) : list nat :=
  map (fun j => (j * step)%nat) (seq 0 ((stop + step - 1) / step)%nat).

(** [l[i:j]] for [0 <= i <= j]. *)
Definition slice {A} (l : list A) (i j : nat) : list A :=
  firstn (j - i)%nat (skipn i l).

(** *** Regular expressions *)

Module Re.

(** The length of the match of [.*] at the head of [s]: [.] matches every
    character but the line feed. *)
Fixpoint dot_star (s : Py.str) : nat :=
  match s with
  | [] => 0%nat
  | c :: r => if (c =? 10)%N then 0%nat else S (dot_star r)
  end.

(** The number of '#' at the head of [s], which [#+] matches when there is
    one at least. *)
Fixpoint hash_plus (s : Py.str) : nat :=
  match s with
  | [] => 0%nat
  | c :: r => if (c =? 35)%N then S (hash_plus r) else 0%nat
  end.

(** The length of the match of [\s.*] at the head of [s]. *)
Definition space_dot_star (s : Py.str) : option nat :=
  match s with
  | [] => None
  | c :: r => if Py.isspace c then Some (S (dot_star r)) else None
  end.

(** The match of [(#+)\s.*] at the head of [s]: its group and its length.
    [#+] takes all the '#' at the head of [s]; with fewer of them [\s] meets
    a '#' and fails. *)
Definition heading (s : Py.str) : option (Py.str * nat) :=
  match hash_plus s with
  | O => None
  | S k =>
      match space_dot_star (skipn (S k) s) with
      | Some n => Some (firstn (S k) s, (S k + n)%nat)
      | None => None
      end
  end.

(** The match of ['#' * m + r'\s.*'] at the head of [s]: its length. *)
Definition target (m : nat) (s : Py.str) : option (unit * nat) :=
  if Py.startswith s (repeat 35%N m)
  then
    match space_dot_star (skipn m s) with
    | Some n => Some (tt, (m + n)%nat)
    | None => None
    end
  else None.

(** The search of [re.finditer] and [re.findall] for a pattern [^p] in the
    mode [re.MULTILINE], where [match_at] gives the match of [p] at the head
    of a string, which is never empty. The search goes through the string
    from left to right; [line_start] tells whether the position [pos] is the
    start of the string or follows a line feed, where [^] matches; [skip]
    is the number of characters of the last match that are still ahead: the
    next match is looked for after them. *)
Fixpoint scan {A} (match_at : Py.str -> option (A * nat))
    (line_start : bool) (skip pos : nat) (s : Py.str) : list (nat * A) :=
  match s with
  | [] => []
  | c :: r =>
      match skip with
      | S n => scan match_at (c =? 10)%N n (S pos) r
      | O =>
          match (if line_start then match_at s else None) with
          | Some (a, len) =>
              (pos, a) :: scan match_at (c =? 10)%N (len - 1)%nat (S pos) r
          | None => scan match_at (c =? 10)%N 0%nat (S pos) r
          end
      end
  end.

(** The matches of [^p] in [s]: the start and the value of each. *)
Definition finditer {A} (match_at : Py.str -> option (A * nat))
    (s : Py.str) : list (nat * A) :=
  scan match_at true 0%nat 0%nat s.

End Re.

(* ================================================================= *)
(** ** [to_markdown_simple] *)

(** The body of the loop of [to_markdown_simple] over the paragraphs of a
    page: what a paragraph adds to [page_content]. *)
Definition simple_paragraph (para : Py.str) : list Py.str :=
  let para := replace_newlines (Py.strip para) in
  match para with
  | [] => []
  | _ :: _ =>
      if (length para <? 80)%nat
         && negb (Py.endswith para (Py.lit "."))
         && negb (Py.endswith para (Py.lit ","))
      then [Py.lit "## " ++ para]
      else [para]
  end.

(** The body of the loop of [to_markdown_simple] over the pages: what the
    text of a page adds to [markdown_content]. *)
Definition simple_page (text : Py.str) : list Py.str :=
  if Py.truthy_str (Py.strip text)
  then
    let paragraphs := split_blank text in
    flat_map simple_paragraph paragraphs
  else [].

(** [to_markdown_simple], on the texts that [page.extract_text()] gives for
    the pages of the document. *)
Definition to_markdown_simple (page_texts : list Py.str) : Py.str :=
  Py.join (Py.newline ++ Py.newline) (flat_map simple_page page_texts).

(* ================================================================= *)
(** ** The functions of [main.py] on text *)

(** [split_text_into_lines] *)
Definition split_text_into_lines (text : Py.str) : list Py.str :=
  splitlines text.

(** The body of the loop of [split_text_into_chunks]: what the lines from
    [i] on add to [chunks]. *)
Definition add_chunk (lines : list Py.str) (chunk_size i : nat)
    : list Py.str :=
  let line_slice := slice lines i (i + chunk_size)%nat in
  let chunk_content := Py.join (Py.lit " ") line_slice in
  if Py.truthy_str chunk_content then [chunk_content] else [].

(** [split_text_into_chunks]; [None] is the [ValueError] raised for a chunk
    size below 1. *)
Definition split_text_into_chunks (text : Py.str) (chunk_size : Z)
    : option (list Py.str) :=
  if (chunk_size <? 1)%Z then None
  else
    let lines := split_text_into_lines text in
    let num_lines := length lines in
    Some (flat_map (add_chunk lines (Z.to_nat chunk_size))
            (range_step num_lines (Z.to_nat chunk_size))).

(** *** Document nodes *)

(** The dictionary [{"window", "filename", "fileindex"}] of a node. *)
Record Metadata := {
  window : Py.str;
  meta_filename : Py.str;
  fileindex : Z
}.

(** A [DocNode]. *)
Record DocNode := {
  uid : Py.str;
  content : Py.str;
  index : Z;
  filename : Py.str;
  metadata : Metadata;
  chunk : option Py.str
}.

(** [DocNode(content, index, filename, metadata, chunk)], [fresh] being what
    [str(uuid.uuid4())] returns for it. The metadata of the node is built
    from the other arguments: the argument [metadata] is not read. *)
Definition DocNode_init (fresh : Py.str) (content : Py.str) (index : Z)
    (filename : Py.str) (metadata : option Metadata) (chunk : option Py.str)
    : DocNode :=
  {| uid := fresh;
     content := content;
     index := index;
     filename := filename;
     metadata := {| window := content; meta_filename := filename;
                    fileindex := index |};
     chunk := chunk |}.

(** The state of a function that makes nodes: the nodes appended so far and
    the number of identifiers drawn. The identifiers are those of [uuid4],
    the sequence of the values that [str(uuid.uuid4())] returns. *)
Definition Nodes := (list DocNode * nat)%type.

(** [nodes.append(DocNode(...))] *)
Definition append_node (uuid4 : nat -> Py.str) (st : Nodes)
    (content : Py.str) (index : Z) (filename : Py.str)
    (metadata : option Metadata) (chunk : option Py.str) : Nodes :=
  (fst st ++ [DocNode_init (uuid4 (snd st)) content index filename
                metadata chunk],
   S (snd st)).

(** The body of the loop of [chunk_for_embedding] over the nodes; [None]
    when [split_text_into_chunks] raises. *)
Definition add_doc_chunks (uuid4 : nat -> Py.str) (st : Nodes)
    (doc_node : DocNode) : option Nodes :=
  match split_text_into_chunks (content doc_node) 2 with
  | None => None
  | Some lines =>
      Some (fold_left
              (fun st line =>
                 append_node uuid4 st (content doc_node) (index doc_node)
                   (filename doc_node) (Some (metadata doc_node))
                   (Some line))
              lines st)
  end.

(** [chunk_for_embedding], after [calls] identifiers have been drawn: the new
    nodes and the number of identifiers drawn then. *)
Definition chunk_for_embedding (uuid4 : nat -> Py.str) (calls : nat)
    (doc_nodes : list DocNode) : option Nodes :=
  fold_opt (add_doc_chunks uuid4) doc_nodes ([], calls).

(** *** Documents of a Markdown text *)

(** [re.findall(r'^(#+)\s.*', markdown_content, re.MULTILINE)]: the group
    of each match. *)
Definition heading_matches (markdown_content : Py.str) : list Py.str :=
  map snd (Re.finditer Re.heading markdown_content).

(** [min_heading_level] after the loop over the matches. *)
Definition min_heading_level (markdown_content : Py.str) : nat :=
  fold_left
    (fun min_heading_level match_ =>
       let level := length match_ in
       if (level <? min_heading_level)%nat then level else min_heading_level)
    (heading_matches markdown_content) 7%nat.

(** The start of each match of
    [re.finditer('^' + '#' * min_heading_level + r'\s.*', ...)]. *)
Definition target_heading_matches (markdown_content : Py.str) : list nat :=
  map fst
    (Re.finditer (Re.target (min_heading_level markdown_content))
       markdown_content).

(** [if content: base_doc_nodes.append(DocNode(content, index, filename));
    index += 1], on the nodes and the index. *)
Definition add_document (uuid4 : nat -> Py.str) (filename : Py.str)
    (st : Nodes * Z) (document_content : Py.str) : Nodes * Z :=
  if Py.truthy_str document_content
  then (append_node uuid4 (fst st) document_content (snd st) filename
          None None,
        (snd st + 1)%Z)
  else st.

(** The whole content as one document of index 0, when it is not blank. *)
Definition single_document (uuid4 : nat -> Py.str) (calls : nat)
    (markdown_content filename : Py.str) : Nodes :=
  if Py.truthy_str (Py.strip markdown_content)
  then append_node uuid4 ([], calls) (Py.strip markdown_content) 0%Z
         filename None None
  else ([], calls).

(** [split_markdown_by_heading], after [calls] identifiers have been drawn:
    the nodes and the number of identifiers drawn then. The indices [i] and
    [i + 1] of the matches are in range where they are read. *)
Definition split_markdown_by_heading (uuid4 : nat -> Py.str) (calls : nat)
    (markdown_content filename : Py.str) : Nodes :=
  if (min_heading_level markdown_content =? 7)%nat
  then single_document uuid4 calls markdown_content filename
  else
    let matches := target_heading_matches markdown_content in
    match matches with
    | first_heading_start :: _ =>
        let initial_content :=
          Py.strip (slice markdown_content 0 first_heading_start) in
        fst
          (fold_left
             (fun st i =>
                let start_index := nth i matches 0%nat in
                let end_index :=
                  if (i + 1 <? length matches)%nat
                  then nth (i + 1) matches 0%nat
                  else length markdown_content in
                add_document uuid4 filename st
                  (Py.strip (slice markdown_content start_index end_index)))
             (seq 0 (length matches))
             (add_document uuid4 filename (([], calls), 0%Z)
                initial_content))
    | [] => single_document uuid4 calls markdown_content filename
    end.

(* ================================================================= *)
(** ** Notions used to state the properties *)

(** *** Floats *)

(** The order of binary64 values, read off their decoding [Prim2SF]. *)
Module FloatOrder.
Local Open Scope Z_scope.

(** A triple that orders the decoded values as [SFcompare] does: the class
    of the value, then its exponent and mantissa (negated below zero). *)
Definition rank (f : spec_float) : Z * Z * Z :=
  match f with
  | S754_nan => (0, 0, 0)
  | S754_zero _ => (0, 0, 0)
  | S754_infinity s => (if s then -2 else 2, 0, 0)
  | S754_finite s m e =>
      if s then (-1, - e, - Z.pos m) else (1, e, Z.pos m)
  end.

(** Lexicographic comparison of triples. *)
Definition lex (a b : Z * Z * Z) : comparison :=
  let '(a1, a2, a3) := a in
  let '(b1, b2, b3) := b in
  match a1 ?= b1 with
  | Eq => match a2 ?= b2 with Eq => a3 ?= b3 | c => c end
  | c => c
  end.

Definition sf_is_nan (f : spec_float) : bool :=
  match f with S754_nan => true | _ => false end.
End FloatOrder.

(** *** The font profile and headings *)

(** The character stream of a document: the characters of its pages, in
    page order. *)
Definition stream (pdf : Pdf) : list char := flat_map chars (pages pdf).

(** The character passes the test [char.get('size')], that is, it has a size
    other than zero, and that size rounded to 1 decimal is [k]. *)
Definition in_bucket (k : float) (c : char) : bool :=
  has_size c && (Py.round1 (get_size c) =? k).

(** The body size: the key of [font_sizes.most_common(1)], when there is
    one. *)
Definition body_size (self : PDFToMarkdownConverter) : option float :=
  match Py.most_common1 (font_sizes self) with
  | (b, _) :: _ => Some b
  | [] => None
  end.

(** The heading depth of a size ratio. *)
Definition depth_of_ratio (r : float) : nat :=
  if 2.0 <=? r then 1
  else if 1.7 <=? r then 2
  else if 1.4 <=? r then 3
  else if 1.2 <=? r then 4
  else 5.

(** ['#' * depth] *)
Definition hashes (depth : nat) : Py.str := repeat 35%N depth.

(** *** Blocks *)

(** A list that is not empty. *)
Definition nonempty {A} (l : list A) : bool :=
  match l with [] => false | _ :: _ => true end.

(** The dominant size of a line: the most common of the sizes of its sized
    characters, first seen first; none when no character has a size. *)
Definition dominant_size (line : Line) : option float :=
  match Py.most_common1 (Py.count_all (line_font_sizes line)) with
  | (s, _) :: _ => Some s
  | [] => None
  end.

(** The dominant sizes of the lines that have one. *)
Definition dominant_sizes (ls : list Line) : list float :=
  flat_map (fun line => match dominant_size line with
                        | Some s => [s]
                        | None => []
                        end) ls.

(** The median as the specification words it: 12.0 for no value, the middle
    value of the sorted values when their number is odd, and the average of
    the two middle values when it is even. *)
Definition spec_median (values : list float) : float :=
  let ordered := Py.sorted PrimFloat.ltb (fun h => h) values in
  let n := length ordered in
  match n with
  | O => 12
  | S _ =>
      if Nat.even n
      then (nth (n / 2) ordered 0 + nth (n / 2 - 1) ordered 0) / 2
      else nth (n / 2) ordered 0
  end.

(** The vertical gap between two lines exceeds the threshold: the least
    [top] of [next] minus the greatest [bottom] of [prev]. *)
Definition exceeds (threshold : float) (prev next : Line) : bool :=
  match line_top next, line_bottom prev with
  | Some t, Some b => threshold <? t - b
  | _, _ => false
  end.

(** Between two consecutive blocks the gap exceeds the threshold. *)
Definition breaks (threshold : float) (b1 b2 : Block) : Prop :=
  exceeds threshold (last b1 []) (hd [] b2) = true.

(** The cutting of a sequence of lines at the gaps that exceed the
    threshold: what follows [prev] in its block, and the later blocks. *)
Fixpoint split_after (threshold : float) (prev : Line) (ls : list Line)
    : Block * list Block :=
  match ls with
  | [] => ([], [])
  | l :: r =>
      let '(cur, bs) := split_after threshold l r in
      if exceeds threshold prev l
      then ([], (l :: cur) :: bs)
      else (l :: cur, bs)
  end.

Definition split_blocks (threshold : float) (ls : list Line) : list Block :=
  match ls with
  | [] => []
  | l :: r =>
      let '(cur, bs) := split_after threshold l r in (l :: cur) :: bs
  end.

(** What the loop of [_group_lines_into_blocks] returns once its last block
    is closed. *)
Definition closed (st : block_state) : list Block :=
  match current_block st with
  | [] => blocks st
  | _ :: _ => blocks st ++ [current_block st]
  end.

(** *** Paragraphs *)

(** What a line of a block contributes to its rendering: nothing when the
    line or its normalized text is empty, else whether it is a heading,
    together with its heading line or its normalized text. *)
Definition line_item (self : PDFToMarkdownConverter) (line : Line)
    : list (bool * Py.str) :=
  match line with
  | [] => []
  | _ :: _ =>
      let cleaned := _clean_text (fst (_process_line line)) in
      let line_size := snd (_process_line line) in
      if Py.truthy_str cleaned
      then
        if _is_heading self line_size cleaned
        then [(true, _format_as_heading self cleaned line_size)]
        else [(false, cleaned)]
      else []
  end.

(** The paragraph buffer as one line, when it is not empty. *)
Definition flushed (buffer : list Py.str) : list Py.str :=
  match buffer with
  | [] => []
  | _ :: _ => [Py.join (Py.lit " ") buffer]
  end.

(** The rendering of a block as the specification words it: a line that is
    not a heading joins the paragraph buffer; a heading flushes the buffer
    and stands on a line of its own; the buffer is flushed at the end. *)
Fixpoint paragraphs (buffer : list Py.str) (items : list (bool * Py.str))
    : list Py.str :=
  match items with
  | [] => flushed buffer
  | (true, heading) :: rest => flushed buffer ++ heading :: paragraphs [] rest
  | (false, line) :: rest => paragraphs (buffer ++ [line]) rest
  end.

(** *** Tables and pages *)

(** A well-formed grid: a header row and at least one data row, and no row
    without cells. *)
Definition well_formed (data : Grid) : Prop :=
  2 <= length data /\ Forall (fun row => row <> []) data.

(** A table whose extraction returns [data]. *)
Definition table_of (data : Grid) : table :=
  {| bbox := (0, 0, 0, 0); extract := Returned (Some data) |}.

(** A rendered page that is kept: not empty once stripped. *)
Definition nonblank (s : Py.str) : bool := Py.truthy_str (Py.strip s).

(** What [_process_page] gives for each page of the document, in page
    order. *)
Definition page_outputs (self : PDFToMarkdownConverter) (pdf : Pdf)
    : list (option Py.str) :=
  map (fun numbered => _process_page self (snd numbered) (fst numbered))
      (enumerate (pages pdf)).

(** *** Sample documents *)

(** The characters of [s] set on one line at size [sz], from abscissa [x]
    on, each one code point wide, with the top of the line at [y]. *)
Fixpoint typeset (s : Py.str) (sz : option float) (h x y : float) : Line :=
  match s with
  | [] => []
  | c :: r =>
      {| text := [c]; size := sz; x0 := x; x1 := x + 1;
         top := y; bottom := y + h |}
      :: typeset r sz h (x + 1) y
  end.

(** A page whose first line is "Annual Report" in size 24, above a line of
    body text in size 12. *)
Definition annual_report_pdf : Pdf :=
  {| pages := [ {| chars := typeset (Py.lit "Annual Report") (Some 24) 24 0 0
                            ++ typeset (Py.lit "Revenue grew in every quarter.")
                                 (Some 12) 12 0 30;
                   find_tables := [] |} ] |}.

(** Two characters of sizes [11.98] and [12.04], in both orders. *)
Definition two_sizes_pdf : Pdf :=
  {| pages := [ {| chars := typeset (Py.lit "a") (Some 11.98) 12 0 0
                            ++ typeset (Py.lit "b") (Some 12.04) 12 1 0;
                   find_tables := [] |} ] |}.

Definition two_sizes_swapped_pdf : Pdf :=
  {| pages := [ {| chars := typeset (Py.lit "b") (Some 12.04) 12 1 0
                            ++ typeset (Py.lit "a") (Some 11.98) 12 0 0;
                   find_tables := [] |} ] |}.

(** Two lines without any sized character. *)
Definition unsized_lines : list Line :=
  [ typeset (Py.lit "a") None 10 0 0; typeset (Py.lit "b") None 10 0 12 ].

(** A document without any sized character. *)
Definition unsized_pdf : Pdf :=
  {| pages := [ {| chars := concat unsized_lines; find_tables := [] |} ] |}.

(** A document where every sized character has the size [-5]; its second
    line has no sized character. *)
Definition negative_size_pdf : Pdf :=
  {| pages := [ {| chars := typeset (Py.lit "x") (Some (-5)) 5 0 0
                            ++ typeset (Py.lit "y") None 5 0 100;
                   find_tables := [] |} ] |}.

(** A document set in the size [0.04], which rounds to the bucket [0.0]. *)
Definition tiny_size_pdf : Pdf :=
  {| pages := [ {| chars := typeset (Py.lit "Hi") (Some 0.04) 0.04 0 0;
                   find_tables := [] |} ] |}.

(** A document of two characters, of sizes [0.0] and [0.04]: both sizes are
    present and round to the bucket [0.0]. *)
Definition zero_size_pdf : Pdf :=
  {| pages := [ {| chars := typeset (Py.lit "a") (Some 0) 1 0 0
                            ++ typeset (Py.lit "b") (Some 0.04) 1 1 0;
                   find_tables := [] |} ] |}.

(** Three lines of body text in one block; the second starts with '#'. *)
Definition hash_line_pdf : Pdf :=
  {| pages := [ {| chars := typeset (Py.lit "intro") (Some 12) 12 0 0
                            ++ typeset (Py.lit "#1 priority") (Some 12) 12 0 14
                            ++ typeset (Py.lit "more") (Some 12) 12 0 28;
                   find_tables := [] |} ] |}.

Definition hash_line_block : Block :=
  [ typeset (Py.lit "intro") (Some 12) 12 0 0;
    typeset (Py.lit "#1 priority") (Some 12) 12 0 14;
    typeset (Py.lit "more") (Some 12) 12 0 28 ].

(** The grid [[["A","B"],["1","2"],["3", None]]]. *)
Definition sample_grid : Grid :=
  [ [Some (Py.lit "A"); Some (Py.lit "B")];
    [Some (Py.lit "1"); Some (Py.lit "2")];
    [Some (Py.lit "3"); None] ].

(** A document of two pages, each with one line of text. *)
Definition two_pages_pdf : Pdf :=
  {| pages := [ {| chars := typeset (Py.lit "one") (Some 12) 12 0 0;
                   find_tables := [] |};
                {| chars := typeset (Py.lit "two") (Some 12) 12 0 0;
                   find_tables := [] |} ] |}.

(** A document of two pages without content: no character, and a table
    whose extraction raises. *)
Definition blank_pages_pdf : Pdf :=
  {| pages := [ {| chars := []; find_tables := [] |};
                {| chars := [];
                   find_tables := [ {| bbox := (0, 0, 10, 10);
                                       extract := Raised |} ] |} ] |}.

(** *** Normalized text *)

(** Two characters that are not both whitespace. *)
Definition not_both_space (a b : N) : Prop :=
  Py.isspace a && Py.isspace b = false.

(** A text in normal form: its whitespace is made of single spaces, none of
    them at either end. *)
Definition normalized (s : Py.str) : Prop :=
  Forall (fun c => Py.isspace c = true -> c = 32%N) s
  /\ Sorted not_both_space s
  /\ Py.strip s = s.

(** The characters of a text that are not whitespace. *)
Definition visible (s : Py.str) : Py.str :=
  filter (fun c => negb (Py.isspace c)) s.

(** *** Heading levels *)

(** The number of '#' a line of Markdown starts with. *)
Fixpoint leading_hashes (s : Py.str) : nat :=
  match s with
  | 35%N :: r => S (leading_hashes r)
  | _ => 0
  end.

(** *** Counters *)

(** The keys of a counter are pairwise different for [==]. *)
Fixpoint distinct_keys (c : Py.Counter) : Prop :=
  match c with
  | [] => True
  | (k, _) :: r => Forall (fun e => (k =? fst e) = false) r /\ distinct_keys r
  end.

(** The number of characters of the document counted in the bucket [k]. *)
Definition bucket_size (pdf : Pdf) (k : float) : nat :=
  length (filter (in_bucket k) (stream pdf)).

(** *** Sizes in a line *)

(** The number of characters of a line whose size is present, not zero, and
    equal to [k]. *)
Definition size_count (line : Line) (k : float) : nat :=
  length (filter (fun c => has_size c && (get_size c =? k)) line).

(** *** Bounding boxes *)

(** The coordinates of the character are numbers. *)
Definition placed (c : char) : Prop :=
  PrimFloat.is_nan (x0 c) = false /\ PrimFloat.is_nan (x1 c) = false
  /\ PrimFloat.is_nan (top c) = false /\ PrimFloat.is_nan (bottom c) = false.

(** The character lies within the box. *)
Definition inside (box : BBox) (c : char) : Prop :=
  let '(bx0, btop, bx1, bbottom) := box in
  (bx0 <=? x0 c) = true /\ (x1 c <=? bx1) = true
  /\ (btop <=? top c) = true /\ (bottom c <=? bbottom) = true.

(** *** The elements of a page *)

(** The Markdown of an element of a page. *)
Definition render (self : PDFToMarkdownConverter) (e : element) : Py.str :=
  match e with
  | text_element content _ => _process_text_block self content
  | table_element content _ => _convert_table_to_markdown self content
  end.

(** The text elements of blocks: each block with its bounding box. *)
Definition block_elements (bs : list Block) : list element :=
  flat_map (fun b => match block_bbox b with
                     | Some box => [text_element b box]
                     | None => []
                     end) bs.

(** The blocks of a page: those of the lines of its characters. *)
Definition page_blocks (pg : page) : option (list Block) :=
  match chars pg with
  | [] => Some []
  | _ :: _ => _group_lines_into_blocks (_group_chars_into_lines (chars pg))
  end.

(** [e1] may come before [e2] in reading order: the key [(top, x0)] of [e2]
    is not strictly below the key of [e1]. *)
Definition reads_before (e1 e2 : element) : Prop :=
  Py.lt_pair (reading_key e2) (reading_key e1) = false.

(** *** The order of lines *)

(** No character of [l2] has its top above the top of a character of
    [l1]. *)
Definition not_above (l1 l2 : Line) : Prop :=
  forall a b, In a l1 -> In b l2 -> (top a <=? top b) = true.

(** *** Lines of Markdown *)

(** A non-empty text in normal form, told by its ends: it starts and ends
    with a character that is not whitespace. *)
Definition tight (s : Py.str) : Prop :=
  s <> []
  /\ Py.isspace (hd 32%N s) = false
  /\ Py.isspace (last s 32%N) = false
  /\ Forall (fun c => Py.isspace c = true -> c = 32%N) s
  /\ Sorted not_both_space s.

(** *** The paragraphs of the simple conversion *)

(** An item of the simple conversion made from the paragraph [p]: a heading
    of level 2 when [p] is shorter than 80 characters and ends neither with
    a period nor with a comma, and [p] itself otherwise. *)
Definition simple_item (p item : Py.str) : Prop :=
  p <> [] /\ Py.strip p = p /\ ~ In 10%N p
  /\ ((item = Py.lit "## " ++ p /\ length p < 80
       /\ Py.endswith p (Py.lit ".") = false
       /\ Py.endswith p (Py.lit ",") = false)
      \/ (item = p
          /\ (80 <= length p \/ Py.endswith p (Py.lit ".") = true
              \/ Py.endswith p (Py.lit ",") = true))).

(** *** Chunks of nodes *)

(** The chunks of two lines of the content of a node. *)
Definition chunks_of (d : DocNode) : list Py.str :=
  match split_text_into_chunks (content d) 2 with
  | Some chunks => chunks
  | None => []
  end.

(** What a node made for a chunk holds, its identifier apart. *)
Definition chunk_fields (d : DocNode)
    : Py.str * Z * Py.str * Metadata * option Py.str :=
  (content d, index d, filename d, metadata d, chunk d).

(** *** Documents of a Markdown text *)

(** Whether [^] matches at the position [i] of [s], [flag] telling it for
    the position 0. *)
Definition line_start_at (flag : bool) (s : Py.str) (i : nat) : bool :=
  match i with
  | O => flag
  | S j =>
      match nth_error s j with
      | Some c => (c =? 10)%N
      | None => false
      end
  end.

(** Matches that follow one another in [s] from the position [lo] on: each
    is a match at its start, and the next one starts after it. *)
Fixpoint chain {A} (match_at : Py.str -> option (A * nat)) (s : Py.str)
    (lo : nat) (l : list (nat * A)) : Prop :=
  match l with
  | [] => True
  | (p, a) :: r =>
      (lo <= p)%nat /\ (p < length s)%nat
      /\ exists len,
           match_at (skipn p s) = Some (a, len)
           /\ chain match_at s (S (p + (len - 1))) r
  end.

(** The slices of [s] that start at the positions [starts], each one going
    to the start of the next and the last one to the end of [s]. *)
Fixpoint pieces (s : Py.str) (starts : list nat) : list Py.str :=
  match starts with
  | [] => []
  | a :: rest =>
      slice s a (match rest with b :: _ => b | [] => length s end)
      :: pieces s rest
  end.

(** The nodes of the documents [contents], with the indices from [i] on and
    the identifiers that follow the first [calls]. *)
Fixpoint nodes_of (uuid4 : nat -> Py.str) (filename : Py.str) (calls : nat)
    (i : Z) (contents : list Py.str) : list DocNode :=
  match contents with
  | [] => []
  | c :: r =>
      DocNode_init (uuid4 calls) c i filename None None
      :: nodes_of uuid4 filename (S calls) (i + 1)%Z r
  end.

(** The documents that [split_markdown_by_heading] cuts, empty ones
    included, when a heading is found: the text before the first heading of
    the least level, then the text from each such heading to the next. *)
Definition cut_documents (s : Py.str) (starts : list nat) : list Py.str :=
  Py.strip (slice s 0 (hd 0%nat starts)) :: map Py.strip (pieces s starts).

(** The documents that [split_markdown_by_heading] cuts, empty ones
    included. *)
Definition documents (s : Py.str) : list Py.str :=
  if (min_heading_level s =? 7)%nat then [Py.strip s]
  else
    match target_heading_matches s with
    | [] => [Py.strip s]
    | starts => cut_documents s starts
    end.

(* ================================================================= *)
(** * Properties *)

(** ** Order and equality of floats *)

Module FloatFacts.
Import FloatOrder.
Local Open Scope Z_scope.

Lemma SFcompare_rank f g :
  SFcompare f g =
  if sf_is_nan f || sf_is_nan g then None else Some (lex (rank f) (rank g)).
Proof.
  destruct f as [s1|s1| |s1 m1 e1], g as [s2|s2| |s2 m2 e2]; simpl;
    try reflexivity;
    try (destruct s1; reflexivity);
    try (destruct s2; reflexivity);
    try (destruct s1, s2; reflexivity).
  destruct s1, s2; simpl; try reflexivity.
  rewrite Z.compare_opp, (Z.compare_antisym e2 e1).
  destruct (e2 ?= e1); reflexivity.
Qed.

Ltac lex_cases :=
  repeat match goal with
    | p : (Z * Z * Z)%type |- _ => destruct p as [[? ?] ?]
    end;
  unfold lex in *;
  repeat match goal with
    | H : context [?x ?= ?y] |- _ => destruct (Z.compare_spec x y)
    | |- context [?x ?= ?y] => destruct (Z.compare_spec x y)
    end;
  simpl in *; try congruence; try lia.

Lemma lex_refl a : lex a a = Eq.
Proof. lex_cases. Qed.

Lemma lex_antisym a b : lex b a = CompOpp (lex a b).
Proof. lex_cases. Qed.

Lemma lex_eq_trans a b c : lex a b = Eq -> lex b c = Eq -> lex a c = Eq.
Proof. intros H1 H2. lex_cases. Qed.

Lemma lex_le_trans a b c : lex a b <> Gt -> lex b c <> Gt -> lex a c <> Gt.
Proof. intros H1 H2. lex_cases. Qed.

Local Open Scope float_scope.

Lemma is_nan_spec x : PrimFloat.is_nan x = sf_is_nan (Prim2SF x).
Proof.
  unfold PrimFloat.is_nan. rewrite FloatAxioms.eqb_spec. unfold SFeqb.
  rewrite SFcompare_rank, orb_diag.
  destruct (sf_is_nan (Prim2SF x)); [reflexivity|].
  rewrite lex_refl. reflexivity.
Qed.

Ltac to_rank :=
  rewrite ?FloatAxioms.eqb_spec, ?FloatAxioms.ltb_spec,
    ?FloatAxioms.leb_spec in *;
  unfold SFeqb, SFltb, SFleb in *;
  rewrite ?SFcompare_rank in *.

(** [==] on floats is symmetric and transitive ([nan] equals nothing). *)
Lemma eqb_sym x y : (x =? y) = (y =? x).
Proof.
  to_rank. rewrite (orb_comm (sf_is_nan (Prim2SF y))).
  destruct (_ || _); [reflexivity|].
  rewrite (lex_antisym (rank (Prim2SF x))).
  destruct (lex _ _); reflexivity.
Qed.

Lemma eqb_trans x y z :
  (x =? y) = true -> (y =? z) = true -> (x =? z) = true.
Proof.
  to_rank.
  destruct (sf_is_nan (Prim2SF x)), (sf_is_nan (Prim2SF y)),
    (sf_is_nan (Prim2SF z)); simpl; try discriminate.
  intros H1 H2.
  rewrite (lex_eq_trans _ (rank (Prim2SF y))); [reflexivity| |].
  - destruct (lex (rank (Prim2SF x)) _); congruence.
  - destruct (lex (rank (Prim2SF y)) _); congruence.
Qed.

(** [<] is asymmetric. *)
Lemma ltb_asym x y : (x <? y) = true -> (y <? x) = false.
Proof.
  to_rank. rewrite (orb_comm (sf_is_nan (Prim2SF y))).
  destruct (_ || _); [discriminate|].
  rewrite (lex_antisym (rank (Prim2SF x))).
  destruct (lex _ _); simpl; congruence.
Qed.

(** Equal values are not strictly ordered. *)
Lemma eqb_not_ltb x y : (x =? y) = true -> (y <? x) = false.
Proof.
  to_rank. rewrite (orb_comm (sf_is_nan (Prim2SF y))).
  destruct (_ || _); [discriminate|].
  rewrite (lex_antisym (rank (Prim2SF x))).
  destruct (lex _ _); simpl; congruence.
Qed.

(** [<=] is transitive, and total on numbers. *)
Lemma leb_trans x y z :
  (x <=? y) = true -> (y <=? z) = true -> (x <=? z) = true.
Proof.
  to_rank.
  destruct (sf_is_nan (Prim2SF x)), (sf_is_nan (Prim2SF y)),
    (sf_is_nan (Prim2SF z)); simpl; try discriminate.
  intros H1 H2.
  assert (H : lex (rank (Prim2SF x)) (rank (Prim2SF z)) <> Gt).
  { apply (lex_le_trans _ (rank (Prim2SF y))).
    - destruct (lex (rank (Prim2SF x)) _); congruence.
    - destruct (lex (rank (Prim2SF y)) _); congruence. }
  destruct (lex (rank (Prim2SF x)) (rank (Prim2SF z))); congruence.
Qed.

Lemma not_ltb_leb x y :
  PrimFloat.is_nan x = false -> PrimFloat.is_nan y = false ->
  (y <? x) = false -> (x <=? y) = true.
Proof.
  rewrite !is_nan_spec. to_rank. intros Hx Hy. rewrite Hx, Hy. simpl.
  rewrite (lex_antisym (rank (Prim2SF x))).
  destruct (lex _ _); simpl; congruence.
Qed.
End FloatFacts.

(** ** Strings *)

Module StrFacts.
Import Py.

Lemma lstrip_length s : length (lstrip s) <= length s.
Proof.
  induction s as [|c r IH]; simpl; [lia|].
  destruct (isspace c); simpl; lia.
Qed.

(** A string that [lstrip] leaves alone does not start with whitespace. *)
Lemma lstrip_fixed_head c r : lstrip (c :: r) = c :: r -> isspace c = false.
Proof.
  simpl. destruct (isspace c); [|reflexivity].
  intros E. pose proof (lstrip_length r) as L. rewrite E in L.
  simpl in L. lia.
Qed.

Lemma lstrip_idem s : lstrip (lstrip s) = lstrip s.
Proof.
  induction s as [|c r IH]; simpl; [reflexivity|].
  destruct (isspace c) eqn:E; [exact IH|]. simpl. now rewrite E.
Qed.

Lemma rstrip_idem s : rstrip (rstrip s) = rstrip s.
Proof.
  induction s as [|c r IH]; simpl; [reflexivity|].
  destruct (rstrip r) as [|d r'] eqn:E.
  - destruct (isspace c) eqn:Ec; simpl; [reflexivity|]. now rewrite Ec.
  - change (rstrip (c :: d :: r')) with
      (match rstrip (d :: r') with
       | [] => if isspace c then [] else [c]
       | x :: l => c :: x :: l
       end).
    now rewrite IH.
Qed.

(** [rstrip] keeps a first character that is not whitespace. *)
Lemma lstrip_rstrip s : lstrip s = s -> lstrip (rstrip s) = rstrip s.
Proof.
  destruct s as [|c r]; [reflexivity|].
  intros E. apply lstrip_fixed_head in E.
  simpl. destruct (rstrip r); rewrite ?E; simpl; now rewrite E.
Qed.

Lemma strip_idem s : strip (strip s) = strip s.
Proof.
  unfold strip.
  rewrite (lstrip_rstrip (lstrip s)) by apply lstrip_idem.
  apply rstrip_idem.
Qed.
End StrFacts.

(** [_clean_text] returns a string that [strip] leaves unchanged. *)
Lemma clean_text_stripped raw : Py.strip (_clean_text raw) = _clean_text raw.
Proof. unfold _clean_text. apply StrFacts.strip_idem. Qed.

(** ** Sorting *)

Module SortFacts.
Import Py.

Section Generic.
Context {A K : Type}.
Variable lt : K -> K -> bool.
Variable key : A -> K.

Lemma insert_perm x l : Permutation (insert lt key x l) (x :: l).
Proof.
  induction l as [|y r IH]; simpl; [reflexivity|].
  destruct (lt (key y) (key x)); [|reflexivity].
  rewrite IH. apply perm_swap.
Qed.

(** A sort returns the elements it was given. *)
Lemma sorted_perm l : Permutation (sorted lt key l) l.
Proof.
  induction l as [|x r IH]; simpl; [reflexivity|].
  rewrite insert_perm. now constructor.
Qed.

Lemma sorted_Forall (P : A -> Prop) l :
  Forall P l -> Forall P (sorted lt key l).
Proof.
  intros H. eapply Permutation_Forall; [|exact H].
  symmetry. apply sorted_perm.
Qed.

Lemma sorted_not_nil l : l <> [] -> sorted lt key l <> [].
Proof.
  intros H E. apply H. apply Permutation_nil.
  rewrite <- E. apply sorted_perm.
Qed.

(** Sorting a list that is in order leaves it as it is. *)
Lemma sorted_fixed l : Sorted (not_after lt key) l -> sorted lt key l = l.
Proof.
  induction 1 as [|a r Hr IH Ha]; [reflexivity|].
  simpl. rewrite IH. destruct Ha as [|b r' Hab]; [reflexivity|].
  simpl. unfold not_after in Hab. now rewrite Hab.
Qed.

Hypothesis lt_asym : forall a b, lt a b = true -> lt b a = false.

Lemma insert_HdRel a x l :
  not_after lt key a x -> HdRel (not_after lt key) a l ->
  HdRel (not_after lt key) a (insert lt key x l).
Proof.
  intros Hx Hl. destruct l as [|y r]; simpl; [now constructor|].
  inversion Hl; subst.
  destruct (lt (key y) (key x)); now constructor.
Qed.

Lemma insert_Sorted x l :
  Sorted (not_after lt key) l -> Sorted (not_after lt key) (insert lt key x l).
Proof.
  induction 1 as [|y r Hr IH Hy]; simpl; [repeat constructor|].
  destruct (lt (key y) (key x)) eqn:E.
  - constructor; [exact IH|].
    apply insert_HdRel; [|exact Hy].
    unfold not_after. now apply lt_asym.
  - constructor; [now constructor|]. constructor. exact E.
Qed.

(** In a sorted list no element is strictly below the one before it. *)
Lemma sorted_Sorted l : Sorted (not_after lt key) (sorted lt key l).
Proof.
  induction l as [|x r IH]; simpl; [constructor|].
  now apply insert_Sorted.
Qed.
End Generic.

Local Open Scope float_scope.

(** With keys that are numbers, the keys of a sorted list never decrease. *)
Lemma Sorted_leb {A} (key : A -> float) l :
  Forall (fun a => PrimFloat.is_nan (key a) = false) l ->
  Sorted (not_after PrimFloat.ltb key) l ->
  StronglySorted (fun a b => (key a <=? key b) = true) l.
Proof.
  intros Hn Hs. induction Hs as [|a r Hr IH Ha]; [constructor|].
  inversion Hn as [|? ? Hna Hnr]; subst.
  specialize (IH Hnr). constructor; [exact IH|].
  destruct r as [|b r']; [constructor|].
  inversion Ha as [|? ? Hab]; subst.
  inversion Hnr as [|? ? Hnb _]; subst.
  assert (Lab : (key a <=? key b) = true)
    by (apply FloatFacts.not_ltb_leb; assumption).
  constructor; [exact Lab|].
  inversion IH as [|? ? _ Hb]; subst.
  eapply Forall_impl; [|exact Hb].
  intros c Hc. simpl in Hc. eapply FloatFacts.leb_trans; eassumption.
Qed.
End SortFacts.

(** ** The font profile *)

Module CounterFacts.
Import Py.
Local Open Scope float_scope.

(** Reading a key after an increment: one more when the keys are equal. *)
Lemma get_incr k c k' :
  get (incr k c) k' = (get c k' + if (k =? k')%float then 1 else 0)%nat.
Proof.
  induction c as [|[k0 n] r IH]; simpl.
  - destruct (k =? k'); reflexivity.
  - destruct (k0 =? k) eqn:E0; simpl; destruct (k0 =? k') eqn:E1.
    + rewrite (FloatFacts.eqb_trans k k0 k'); [lia| |exact E1].
      now rewrite FloatFacts.eqb_sym.
    + destruct (k =? k') eqn:E2; [|lia].
      rewrite (FloatFacts.eqb_trans k0 k k') in E1; [discriminate|exact E0|exact E2].
    + destruct (k =? k') eqn:E2; [|lia].
      rewrite (FloatFacts.eqb_trans k0 k' k) in E0;
        [discriminate|exact E1|now rewrite FloatFacts.eqb_sym].
    + exact IH.
Qed.

Lemma incr_not_nil k c : incr k c <> [].
Proof. destruct c as [|[k0 n] r]; simpl; [|destruct (k0 =? k)]; discriminate. Qed.

Lemma count_all_not_nil l : l <> [] -> count_all l <> [].
Proof.
  unfold count_all. intros H.
  assert (G : forall l c, c <> [] -> fold_left (fun c k => incr k c) l c <> []).
  { clear. induction l as [|x r IH]; simpl; intros c Hc; [exact Hc|].
    apply IH, incr_not_nil. }
  destruct l as [|x r]; [congruence|].
  apply (G r (incr x [])), incr_not_nil.
Qed.
End CounterFacts.

Lemma analyze_stream self pdf :
  font_sizes (_analyze_document_structure self pdf)
  = fold_left analyze_char (stream pdf) [].
Proof.
  unfold _analyze_document_structure, stream. simpl.
  generalize (@nil (float * nat)) as fs.
  induction (pages pdf) as [|pg r IH]; intros fs; simpl; [reflexivity|].
  rewrite fold_left_app. apply IH.
Qed.

Lemma get_analyze k cs fs :
  Py.get (fold_left analyze_char cs fs) k
  = (Py.get fs k + length (filter (in_bucket k) cs))%nat.
Proof.
  revert fs. induction cs as [|c r IH]; intros fs; simpl; [lia|].
  rewrite IH. unfold analyze_char, in_bucket.
  destruct (has_size c); simpl; [|lia].
  rewrite CounterFacts.get_incr.
  destruct (Py.round1 (get_size c) =? k); simpl; lia.
Qed.

Lemma filter_length_perm {A} (f : A -> bool) l l' :
  Permutation l l' -> length (filter f l) = length (filter f l').
Proof.
  induction 1 as [|x l l' _ IH|x y l|l l' l'' _ IH1 _ IH2]; simpl.
  - reflexivity.
  - destruct (f x); simpl; now rewrite IH.
  - destruct (f x), (f y); reflexivity.
  - now rewrite IH1.
Qed.

(** C6 (amended). The count that the font profile holds for a bucket is the
    number of characters of the document that have a size other than zero
    and whose size, rounded to 1 decimal, is that bucket; documents whose
    character streams are permutations of one another have the same count
    for every bucket; the sizes 11.98 and 12.04 both round to the bucket
    12.0. *)
Theorem font_profile_counts :
  (forall self pdf k,
      Py.get (font_sizes (_analyze_document_structure self pdf)) k
      = length (filter (in_bucket k) (stream pdf)))
  /\ (forall k c,
         in_bucket k c = true <->
         exists s, size c = Some s /\ (s =? 0) = false
                   /\ (Py.round1 s =? k) = true)
  /\ (forall self pdf pdf',
      Permutation (stream pdf) (stream pdf') ->
      forall k,
        Py.get (font_sizes (_analyze_document_structure self pdf)) k
        = Py.get (font_sizes (_analyze_document_structure self pdf')) k)
  /\ Py.round1 11.98 = 12 /\ Py.round1 12.04 = 12
  /\ font_sizes (_analyze_document_structure init two_sizes_pdf)
     = [(12, 2%nat)].
Proof.
  assert (G : forall self pdf k,
      Py.get (font_sizes (_analyze_document_structure self pdf)) k
      = length (filter (in_bucket k) (stream pdf))).
  { intros. rewrite analyze_stream, get_analyze. reflexivity. }
  split; [exact G|]. split; [|split].
  - intros k c. unfold in_bucket, has_size, get_size, Py.truthy.
    destruct (size c) as [s|].
    + rewrite andb_true_iff, negb_true_iff. split.
      * intros [H1 H2]. exists s. auto.
      * intros (s' & E & H1 & H2). injection E as <-. auto.
    + split; [discriminate|]. intros (s & E & _). discriminate.
  - intros self pdf pdf' P k. rewrite !G. now apply filter_length_perm.
  - repeat split; vm_compute; reflexivity.
Qed.

Lemma font_profile_counts_witness :
  Py.get (font_sizes (_analyze_document_structure init two_sizes_pdf)) 12
  = Py.get
      (font_sizes (_analyze_document_structure init two_sizes_swapped_pdf)) 12.
Proof.
  apply (proj1 (proj2 (proj2 font_profile_counts)) init two_sizes_pdf
           two_sizes_swapped_pdf).
  apply perm_swap.
Defined.

(** C6, as stated, fails: of two characters whose sizes, 0.0 and 0.04, are
    present and round to the bucket 0.0, the font profile counts one. *)
Lemma zero_size_not_counted :
  length (filter (fun c => match size c with
                           | Some s => Py.round1 s =? 0
                           | None => false
                           end) (stream zero_size_pdf)) = 2%nat
  /\ Py.get (font_sizes (_analyze_document_structure init zero_size_pdf)) 0
     = 1%nat.
Proof. split; vm_compute; reflexivity. Qed.

(** ** The heading classifier and the heading renderer *)

Lemma most_common1_cons e r :
  exists b n, Py.most_common1 (e :: r) = [(b, n)].
Proof.
  simpl.
  destruct (fold_left
              (fun best it => if (snd best <? snd it)%nat then it else best)
              r e) as [b n].
  now exists b, n.
Qed.

(** The counter of a non-empty list has a most common item: the
    [IndexError] of [most_common(1)[0]] does not occur. *)
Lemma most_common1_count_all l :
  l <> [] -> exists s n, Py.most_common1 (Py.count_all l) = [(s, n)].
Proof.
  intros H. apply CounterFacts.count_all_not_nil in H.
  destruct (Py.count_all l) as [|e r]; [congruence|].
  apply most_common1_cons.
Qed.

(** The classifier on any text: the decision of [_is_heading]. *)
Lemma is_heading_spec self s t :
  _is_heading self s t = true <->
  exists b,
    body_size self = Some b
    /\ (b * 1.1 <=? s) = true
    /\ (b <? s) = true
    /\ ((length (Py.strip t) < 100)%nat
        \/ (Py.endswith (Py.strip t) (Py.lit ".") = false
            /\ Py.endswith (Py.strip t) (Py.lit ",") = false)).
Proof.
  unfold _is_heading, body_size.
  destruct (font_sizes self) as [|e r].
  - simpl. split; [discriminate|]. intros (b & E & _). discriminate.
  - destruct (most_common1_cons e r) as (b & n & ->).
    rewrite !andb_true_iff, orb_true_iff, andb_true_iff, !negb_true_iff,
      Nat.ltb_lt.
    split.
    + intros [[H1 H2] H3]. exists b. auto.
    + intros (b' & E & H1 & H2 & H3). injection E as <-. auto.
Qed.

Lemma no_sized_char_no_profile cs :
  Forall (fun c => has_size c = false) cs ->
  fold_left analyze_char cs [] = [].
Proof.
  generalize (@nil (float * nat)) as fs.
  induction cs as [|c r IH]; intros fs H; simpl; [reflexivity|].
  inversion H as [|? ? Hc Hr]; subst.
  unfold analyze_char at 2. rewrite Hc. now apply IH.
Qed.

Lemma filter_none {A} (f : A -> bool) l :
  Forall (fun a => f a = false) l -> filter f l = [].
Proof.
  induction 1 as [|a r Ha _ IH]; simpl; [reflexivity|]. now rewrite Ha.
Qed.

(** A line without any sized character has the dominant size [0.0]. *)
Lemma process_line_unsized line :
  Forall (fun c => has_size c = false) line -> snd (_process_line line) = 0.
Proof.
  intros H. destruct line as [|c r]; [reflexivity|].
  unfold _process_line.
  rewrite (filter_none has_size (sort_by_x0 (c :: r))); [reflexivity|].
  apply SortFacts.sorted_Forall. exact H.
Qed.

(** C1 (amended). On a whitespace-normalized text [t] and a dominant size
    [s], the classifier answers true exactly when the font profile has a
    body size [b], [s >= 1.1 * b], [s > b] and [t] is shorter than 100 or
    ends neither with a period nor with a comma. In a document without any
    sized character no line is a heading. A line without any sized
    character is no heading as soon as the body size is not negative. *)
Theorem heading_classifier :
  (forall self s raw,
      _is_heading self s (_clean_text raw) = true <->
      exists b,
        body_size self = Some b
        /\ (b * 1.1 <=? s) = true
        /\ (b <? s) = true
        /\ ((length (_clean_text raw) < 100)%nat
            \/ (Py.endswith (_clean_text raw) (Py.lit ".") = false
                /\ Py.endswith (_clean_text raw) (Py.lit ",") = false)))
  /\ (forall self pdf,
         Forall (fun c => has_size c = false) (stream pdf) ->
         forall s t,
           _is_heading (_analyze_document_structure self pdf) s t = false)
  /\ (forall self line b,
         Forall (fun c => has_size c = false) line ->
         body_size self = Some b ->
         (b <? 0) = false ->
         forall t, _is_heading self (snd (_process_line line)) t = false).
Proof.
  split; [|split].
  - intros self s raw. rewrite is_heading_spec, clean_text_stripped.
    reflexivity.
  - intros self pdf H s t. unfold _is_heading.
    rewrite analyze_stream, no_sized_char_no_profile; [reflexivity|exact H].
  - intros self line b H Eb Hb t.
    destruct (_is_heading self (snd (_process_line line)) t) eqn:E;
      [|reflexivity].
    apply is_heading_spec in E. destruct E as (b' & Eb' & _ & Hlt & _).
    rewrite Eb in Eb'. injection Eb' as <-.
    rewrite process_line_unsized in Hlt by exact H. congruence.
Qed.

Lemma heading_classifier_witness :
  _is_heading (_analyze_document_structure init unsized_pdf) 24
    (Py.lit "Annual Report") = false
  /\ _is_heading (_analyze_document_structure init annual_report_pdf) 0
       (_clean_text (Py.lit "Annual Report")) = false.
Proof.
  split.
  - apply (proj1 (proj2 heading_classifier) init unsized_pdf).
    repeat constructor.
  - apply (proj2 (proj2 heading_classifier)
             (_analyze_document_structure init annual_report_pdf)
             (typeset (Py.lit "y") None 5 0 100) 12).
    + repeat constructor.
    + reflexivity.
    + reflexivity.
Defined.

(** C1, as stated, fails: in a document whose sized characters all have the
    size -5, the line "y", which has no sized character, is classified as a
    heading and rendered as one. *)
Lemma unsized_line_is_heading :
  Forall (fun c => size c = None) (typeset (Py.lit "y") None 5 0 100)
  /\ _is_heading (_analyze_document_structure init negative_size_pdf)
       (snd (_process_line (typeset (Py.lit "y") None 5 0 100)))
       (_clean_text (fst (_process_line (typeset (Py.lit "y") None 5 0 100))))
     = true
  /\ to_markdown negative_size_pdf
     = Some (Py.lit "x" ++ Py.newline ++ Py.newline ++ Py.lit "##### y").
Proof.
  split; [repeat constructor|]. split; vm_compute; reflexivity.
Qed.

(** C2. With a body size [b > 0], a heading of dominant size [s] and text
    [t] is rendered as ['#' * depth + ' ' + t], the depth being 1, 2, 3, 4
    or 5 as the ratio [s / b] is at least 2.0, 1.7, 1.4, 1.2 or below; a
    line "Annual Report" in size 24 with body size 12 is rendered as
    "# Annual Report", alone and within its page. *)
Theorem heading_rendering :
  (forall self s t b,
      body_size self = Some b ->
      (0 <? b) = true ->
      _is_heading self s t = true ->
      _format_as_heading self t s
      = hashes (depth_of_ratio (s / b)) ++ Py.lit " " ++ t)
  /\ body_size (_analyze_document_structure init annual_report_pdf) = Some 12
  /\ _process_text_block (_analyze_document_structure init annual_report_pdf)
       [typeset (Py.lit "Annual Report") (Some 24) 24 0 0]
     = Py.lit "# Annual Report"
  /\ to_markdown annual_report_pdf
     = Some (Py.lit "# Annual Report" ++ Py.newline
             ++ Py.lit "Revenue grew in every quarter.").
Proof.
  split.
  - intros self s t b Eb Hb _. unfold body_size in Eb.
    unfold _format_as_heading, depth_of_ratio.
    destruct (font_sizes self) as [|e r]; [discriminate|].
    destruct (most_common1_cons e r) as (b' & n & E).
    rewrite E in Eb |- *. injection Eb as ->. rewrite Hb.
    destruct (2.0 <=? s / b); [reflexivity|].
    destruct (1.7 <=? s / b); [reflexivity|].
    destruct (1.4 <=? s / b); [reflexivity|].
    destruct (1.2 <=? s / b); reflexivity.
  - repeat split; vm_compute; reflexivity.
Qed.

Lemma heading_rendering_witness :
  _format_as_heading (_analyze_document_structure init annual_report_pdf)
    (Py.lit "Annual Report") 24
  = hashes (depth_of_ratio (24 / 12)) ++ Py.lit " " ++ Py.lit "Annual Report".
Proof.
  apply (proj1 heading_rendering
           (_analyze_document_structure init annual_report_pdf)
           24 (Py.lit "Annual Report") 12);
    vm_compute; reflexivity.
Defined.

(** C3 (amended). When the body size is zero, the size ratio is taken to be
    1.0 and a heading is rendered at depth 5, with the prefix "##### ". *)
Theorem zero_body_size_rendering :
  forall self s t b,
    body_size self = Some b ->
    (b =? 0) = true ->
    _is_heading self s t = true ->
    _format_as_heading self t s = Py.lit "##### " ++ t.
Proof.
  intros self s t b Eb Hb _. unfold body_size in Eb.
  unfold _format_as_heading.
  destruct (font_sizes self) as [|e r]; [discriminate|].
  destruct (most_common1_cons e r) as (b' & n & E).
  rewrite E in Eb |- *. injection Eb as ->.
  rewrite (FloatFacts.eqb_not_ltb b 0 Hb).
  vm_compute. reflexivity.
Qed.

Lemma zero_body_size_rendering_witness :
  _format_as_heading (_analyze_document_structure init tiny_size_pdf)
    (Py.lit "Hi") 0.04
  = Py.lit "##### " ++ Py.lit "Hi".
Proof.
  apply (zero_body_size_rendering
           (_analyze_document_structure init tiny_size_pdf)
           0.04 (Py.lit "Hi") 0);
    vm_compute; reflexivity.
Defined.

(** C3, as stated, fails: in a document set in the size 0.04 the body size
    is the bucket 0.0, the line "Hi" is a heading, and it is rendered at
    depth 5, not 2. *)
Lemma zero_body_size_depth_five :
  body_size (_analyze_document_structure init tiny_size_pdf) = Some 0
  /\ _is_heading (_analyze_document_structure init tiny_size_pdf) 0.04
       (Py.lit "Hi") = true
  /\ _format_as_heading (_analyze_document_structure init tiny_size_pdf)
       (Py.lit "Hi") 0.04 = Py.lit "##### Hi"
  /\ to_markdown tiny_size_pdf = Some (Py.lit "##### Hi").
Proof.
  repeat split; vm_compute; reflexivity.
Qed.

(** ** The rendering of a block *)

Lemma line_md_items self line :
  line_md self line = map snd (line_item self line).
Proof.
  destruct line as [|c r]; [reflexivity|].
  unfold line_md, line_item.
  destruct (_process_line (c :: r)) as [line_text line_size]. simpl.
  destruct (Py.truthy_str (_clean_text line_text)); [|reflexivity].
  destruct (_is_heading self line_size (_clean_text line_text)); reflexivity.
Qed.

Lemma block_lines_md_items self block :
  flat_map (line_md self) block
  = map snd (flat_map (line_item self) block).
Proof.
  induction block as [|l r IH]; simpl; [reflexivity|].
  now rewrite map_app, line_md_items, IH.
Qed.

(** A heading line starts with '#'. *)
Lemma format_startswith_hash self t s :
  Py.startswith (_format_as_heading self t s) (Py.lit "#") = true.
Proof.
  unfold _format_as_heading.
  destruct (font_sizes self) as [|e r]; [reflexivity|].
  destruct (Py.most_common1 (e :: r)) as [|[b n] ?]; [reflexivity|].
  destruct (0 <? b);
    repeat match goal with
      | |- context [if ?c then _ else _] => destruct c
      end; reflexivity.
Qed.

(** The second loop of [_process_text_block], when '#' starts the heading
    lines and no other. *)
Lemma para_loop_paragraphs items :
  Forall (fun it => Py.startswith (snd it) (Py.lit "#") = fst it) items ->
  forall st,
    flush (fold_left para_step (map snd items) st)
    = final_block_content st ++ paragraphs (current_paragraph st) items.
Proof.
  induction 1 as [|[h t] r Ht _ IH]; intros st; simpl.
  - unfold flush, flushed. destruct (current_paragraph st);
      [now rewrite app_nil_r|reflexivity].
  - rewrite IH. unfold para_step. simpl in Ht. rewrite Ht.
    destruct h; simpl; [|reflexivity].
    unfold flush, flushed. destruct (current_paragraph st); simpl;
      now rewrite <- ?app_assoc.
Qed.

(** When no line that is not a heading starts with '#', a block is rendered
    as the specification words it. *)
Lemma process_text_block_paragraphs self block :
  Forall (fun it => fst it = false ->
                    Py.startswith (snd it) (Py.lit "#") = false)
         (flat_map (line_item self) block) ->
  _process_text_block self block
  = Py.join Py.newline (paragraphs [] (flat_map (line_item self) block)).
Proof.
  intros H. destruct block as [|l r]; [reflexivity|].
  unfold _process_text_block.
  rewrite block_lines_md_items, para_loop_paragraphs; [reflexivity|].
  clear - H.
  assert (G : forall line,
             Forall (fun it => fst it = true ->
                               Py.startswith (snd it) (Py.lit "#") = true)
                    (line_item self line)).
  { intros [|c q]; [constructor|]. unfold line_item.
    destruct (Py.truthy_str _); [|constructor].
    destruct (_is_heading _ _ _); repeat constructor; simpl;
      [intros _; apply format_startswith_hash|discriminate]. }
  assert (G' : Forall (fun it => fst it = true ->
                                 Py.startswith (snd it) (Py.lit "#") = true)
                      (flat_map (line_item self) (l :: r))).
  { apply Forall_flat_map. apply Forall_forall. intros x _. apply G. }
  rewrite Forall_forall in *. intros [h t] Hin.
  specialize (H _ Hin). specialize (G' _ Hin). simpl in *.
  destruct h; auto.
Qed.

(** C4 fails on a line that is no heading and starts with '#'. In a page of
    three lines of body text, "intro", "#1 priority" and "more", in one
    block, no line is a heading; the specified rendering is the single
    paragraph "intro #1 priority more", and the code returns three lines. *)
Theorem hash_line_splits_paragraph :
  flat_map (line_item (_analyze_document_structure init hash_line_pdf))
    hash_line_block
  = [(false, Py.lit "intro"); (false, Py.lit "#1 priority");
     (false, Py.lit "more")]
  /\ Py.join Py.newline
       (paragraphs []
          (flat_map
             (line_item (_analyze_document_structure init hash_line_pdf))
             hash_line_block))
     = Py.lit "intro #1 priority more"
  /\ _process_text_block (_analyze_document_structure init hash_line_pdf)
       hash_line_block
     = Py.lit "intro" ++ Py.newline ++ Py.lit "#1 priority" ++ Py.newline
       ++ Py.lit "more"
  /\ to_markdown hash_line_pdf
     = Some (Py.lit "intro" ++ Py.newline ++ Py.lit "#1 priority"
             ++ Py.newline ++ Py.lit "more").
Proof.
  repeat split; vm_compute; reflexivity.
Qed.

(** ** The line grouper *)

(** The loop of [_group_chars_into_lines] cuts the characters it scans into
    consecutive groups; every group it closes is not empty and is appended,
    sorted, to the lines. *)
Lemma line_loop_groups cs :
  forall st,
  exists groups,
    lines (fold_left line_step cs st)
    = lines st ++ map sort_by_x0 groups
    /\ concat groups ++ current_line (fold_left line_step cs st)
       = current_line st ++ cs
    /\ Forall (fun g => g <> []) groups.
Proof.
  induction cs as [|c r IH]; intros st; simpl.
  - exists []. simpl. now rewrite !app_nil_r.
  - unfold line_step at 2 4.
    destruct (current_line st) as [|d cur] eqn:Ecur.
    + destruct (IH {| lines := lines st; current_line := [c] |})
        as (groups & E1 & E2 & E3).
      exists groups. simpl in *. auto.
    + match goal with
      | |- context [if ?b then _ else _] => destruct b
      end.
      * destruct (IH {| lines := lines st;
                        current_line := (d :: cur) ++ [c] |})
          as (groups & E1 & E2 & E3).
        exists groups. simpl in *. rewrite <- app_assoc in E2. auto.
      * destruct (IH {| lines := lines st ++ [sort_by_x0 (d :: cur)];
                        current_line := [c] |})
          as (groups & E1 & E2 & E3).
        exists ((d :: cur) :: groups). simpl in *.
        rewrite <- app_assoc in E1. simpl in E1.
        repeat split.
        -- exact E1.
        -- rewrite <- app_assoc. now rewrite E2.
        -- constructor; [discriminate|exact E3].
Qed.

(** The lines returned are the groups of a cutting of the characters sorted
    by [(top, x0)], each group sorted by [x0]. *)
Lemma group_chars_structure cs :
  exists groups,
    _group_chars_into_lines cs = map sort_by_x0 groups
    /\ concat groups = Py.sorted Py.lt_pair (fun c => (top c, x0 c)) cs
    /\ Forall (fun g => g <> []) groups.
Proof.
  destruct cs as [|c0 r0]; [exists []; repeat split; constructor|].
  unfold _group_chars_into_lines.
  set (sorted_chars := Py.sorted _ _ _).
  destruct (line_loop_groups sorted_chars
              {| lines := []; current_line := [] |})
    as (groups & E1 & E2 & E3).
  simpl in E1, E2.
  destruct (current_line (fold_left line_step sorted_chars _))
    as [|d cur] eqn:Ecur.
  - exists groups. rewrite app_nil_r in E2. auto.
  - exists (groups ++ [d :: cur]). repeat split.
    + now rewrite E1, map_app.
    + rewrite concat_app. simpl. now rewrite app_nil_r.
    + apply Forall_app. split; [exact E3|]. repeat constructor. discriminate.
Qed.

Lemma concat_map_perm {A} (f : list A -> list A) groups :
  (forall l, Permutation (f l) l) ->
  Permutation (concat (map f groups)) (concat groups).
Proof.
  intros Hf. induction groups as [|g r IH]; simpl; [reflexivity|].
  now apply Permutation_app.
Qed.

Lemma group_chars_perm cs :
  Permutation (concat (_group_chars_into_lines cs)) cs.
Proof.
  destruct (group_chars_structure cs) as (groups & -> & E & _).
  rewrite concat_map_perm by (intros; apply SortFacts.sorted_perm).
  rewrite E. apply SortFacts.sorted_perm.
Qed.

Lemma group_chars_not_nil cs :
  Forall (fun l => l <> []) (_group_chars_into_lines cs).
Proof.
  destruct (group_chars_structure cs) as (groups & -> & _ & H).
  rewrite Forall_map. eapply Forall_impl; [|exact H].
  intros g Hg. now apply SortFacts.sorted_not_nil.
Qed.

(** C10. The lines returned for a list of characters hold exactly the
    characters given, each once (their concatenation is a permutation of the
    input); no line is empty; in a line no character has an [x0] strictly
    below the [x0] of the character before it, and when the [x0] are numbers
    they never decrease along the line; no character gives no line. *)
Theorem line_grouper_partition :
  (forall cs, Permutation (concat (_group_chars_into_lines cs)) cs)
  /\ (forall cs, Forall (fun l => l <> []) (_group_chars_into_lines cs))
  /\ (forall cs,
         Forall (fun l => Sorted (fun a b => (x0 b <? x0 a) = false) l)
                (_group_chars_into_lines cs))
  /\ (forall cs,
         Forall (fun c => PrimFloat.is_nan (x0 c) = false) cs ->
         Forall (fun l => StronglySorted
                            (fun a b => (x0 a <=? x0 b) = true) l)
                (_group_chars_into_lines cs))
  /\ _group_chars_into_lines [] = [].
Proof.
  assert (S : forall cs,
             Forall (fun l => Sorted (Py.not_after PrimFloat.ltb x0) l)
                    (_group_chars_into_lines cs)).
  { intros cs. destruct (group_chars_structure cs) as (groups & -> & _ & _).
    rewrite Forall_map. apply Forall_forall. intros g _.
    apply SortFacts.sorted_Sorted. exact FloatFacts.ltb_asym. }
  split; [exact group_chars_perm|].
  split; [exact group_chars_not_nil|].
  split; [exact S|].
  split; [|reflexivity].
  intros cs Hn.
  assert (Hn' : Forall (fun c => PrimFloat.is_nan (x0 c) = false)
                       (concat (_group_chars_into_lines cs))).
  { eapply Permutation_Forall; [|exact Hn].
    symmetry. apply group_chars_perm. }
  rewrite Forall_concat in Hn'.
  specialize (S cs). rewrite Forall_forall in *.
  intros l Hl. apply SortFacts.Sorted_leb; auto.
Qed.

Lemma line_grouper_partition_witness :
  Forall (fun l => StronglySorted (fun a b => (x0 a <=? x0 b) = true) l)
         (_group_chars_into_lines
            (typeset (Py.lit "b") (Some 12) 12 1 0
             ++ typeset (Py.lit "a") (Some 12) 12 0 0)).
Proof.
  apply (proj1 (proj2 (proj2 (proj2 line_grouper_partition)))).
  repeat constructor.
Defined.

(** ** The block grouper *)

Lemma index_nat {A} (l : list A) (i : nat) :
  Py.index l (Z.of_nat i) = nth_error l i.
Proof.
  unfold Py.index. destruct (Z.of_nat i <? 0)%Z eqn:E.
  - apply Z.ltb_lt in E. lia.
  - now rewrite Nat2Z.id.
Qed.

Lemma index_from_end {A} (l : list A) (i : nat) :
  (i < length l)%nat ->
  Py.index l (Z.lnot (Z.of_nat i)) = nth_error l (length l - i - 1).
Proof.
  intros H. unfold Py.index, Z.lnot.
  destruct (Z.pred (- Z.of_nat i) <? 0)%Z eqn:E.
  - destruct (0 <=? Z.of_nat (length l) + Z.pred (- Z.of_nat i))%Z eqn:E';
      [|apply Z.leb_gt in E'; lia].
    f_equal. lia.
  - apply Z.ltb_ge in E. lia.
Qed.

Lemma median_of_spec hs : median_of hs = Some (spec_median hs).
Proof.
  destruct hs as [|h r]; [reflexivity|].
  unfold median_of, spec_median.
  set (o := Py.sorted PrimFloat.ltb (fun h => h) (h :: r)).
  assert (Hn : length o = S (length r)).
  { unfold o. rewrite (Permutation_length (SortFacts.sorted_perm _ _ _)).
    reflexivity. }
  rewrite Hn. rewrite <- Hn.
  assert (Hdiv : (Z.of_nat (length o) / 2)%Z = Z.of_nat (length o / 2)).
  { now rewrite (Nat2Z.inj_div _ 2). }
  assert (Hmod : (Z.of_nat (length o) mod 2)%Z = Z.of_nat (length o mod 2)).
  { now rewrite (Nat2Z.inj_mod _ 2). }
  rewrite Hdiv, Hmod.
  assert (Hlt : (length o / 2 < length o)%nat).
  { apply Nat.div_lt; lia. }
  rewrite index_nat, (nth_error_nth' o 0 Hlt).
  destruct (Nat.even (length o)) eqn:Ev.
  - apply Nat.even_spec in Ev. destruct Ev as [k Ek].
    assert (Hm : (length o mod 2 = 0)%nat).
    { rewrite Ek. rewrite Nat.mul_comm. apply Nat.Div0.mod_mul. }
    rewrite Hm. simpl (Z.of_nat 0 =? 0)%Z. cbv iota.
    rewrite index_from_end by exact Hlt.
    assert (Hk : (length o - length o / 2 - 1 = length o / 2 - 1)%nat).
    { rewrite Ek. rewrite (Nat.mul_comm 2 k), Nat.div_mul by lia.
      lia. }
    rewrite Hk.
    rewrite (nth_error_nth' o 0) by lia. reflexivity.
  - assert (Hm : (length o mod 2 = 1)%nat).
    { rewrite <- Nat.negb_odd in Ev. apply negb_false_iff in Ev.
      apply Nat.odd_spec in Ev. destruct Ev as [k Ek]. rewrite Ek.
      rewrite Nat.add_comm, Nat.mul_comm. rewrite Nat.Div0.mod_add. reflexivity. }
    rewrite Hm. reflexivity.
Qed.

Lemma fold_opt_none {S A} (f : S -> A -> option S) l :
  fold_left (fun acc a => match acc with Some s => f s a | None => None end)
            l None = None.
Proof. induction l as [|a r IH]; simpl; [reflexivity|exact IH]. Qed.

Lemma fold_opt_cons {S A} (f : S -> A -> option S) a l s :
  fold_opt f (a :: l) s
  = match f s a with Some s' => fold_opt f l s' | None => None end.
Proof.
  unfold fold_opt. simpl. destruct (f s a); [reflexivity|apply fold_opt_none].
Qed.

Lemma line_top_some c r : exists t, line_top (c :: r) = Some t.
Proof. unfold line_top. simpl. eauto. Qed.

Lemma line_bottom_some c r : exists b, line_bottom (c :: r) = Some b.
Proof. unfold line_bottom. simpl. eauto. Qed.

Lemma block_loop_split thr ls :
  Forall (fun l => l <> []) ls ->
  forall B C p,
    p <> [] ->
    exists st,
      fold_opt (block_step thr) ls
        {| blocks := B; current_block := C ++ [p];
           prev_line_bottom := line_bottom p |} = Some st
      /\ closed st
         = B ++ (C ++ p :: fst (split_after thr p ls))
                :: snd (split_after thr p ls).
Proof.
  induction 1 as [|l r Hl _ IH]; intros B C p Hp.
  - eexists. split; [reflexivity|]. unfold closed. simpl.
    destruct (C ++ [p]) eqn:E; [now destruct C|]. rewrite <- E. reflexivity.
  - rewrite fold_opt_cons. simpl split_after.
    destruct (split_after thr l r) as [cur bs] eqn:Es.
    destruct l as [|c q]; [congruence|].
    destruct p as [|pc pq]; [congruence|].
    unfold block_step, exceeds.
    destruct (line_top_some c q) as [t ->].
    destruct (line_bottom_some c q) as [b Eb]. rewrite Eb.
    destruct (line_bottom_some pc pq) as [pb ->].
    cbn [prev_line_bottom blocks current_block].
    destruct (thr <? t - pb).
    + destruct (C ++ [pc :: pq]) as [|x y] eqn:E; [now destruct C|].
      rewrite <- E.
      destruct (IH (B ++ [C ++ [pc :: pq]]) [] (c :: q)) as (st & E1 & E2);
        [discriminate|].
      rewrite Es in E2. simpl in E2. rewrite Eb in E1.
      exists st. split; [exact E1|]. rewrite E2, <- app_assoc. reflexivity.
    + destruct (IH B (C ++ [pc :: pq]) (c :: q)) as (st & E1 & E2);
        [discriminate|].
      rewrite Es in E2. simpl in E2. rewrite Eb in E1.
      exists st. split; [exact E1|]. rewrite E2, <- app_assoc. reflexivity.
Qed.

Lemma block_loop_filter thr ls st :
  fold_opt (block_step thr) ls st
  = fold_opt (block_step thr) (filter nonempty ls) st.
Proof.
  revert st. induction ls as [|l r IH]; intros st; [reflexivity|].
  destruct l as [|c q]; simpl filter.
  - rewrite fold_opt_cons. simpl. apply IH.
  - rewrite !fold_opt_cons. destruct (block_step thr st (c :: q)); [apply IH|].
    reflexivity.
Qed.

Lemma filter_nonempty_not_nil {A} (ls : list (list A)) :
  Forall (fun l => l <> []) (filter nonempty ls).
Proof.
  apply Forall_forall. intros l Hl. apply filter_In in Hl.
  destruct Hl as [_ Hl]. now destruct l.
Qed.

Lemma line_heights_dominant ls : line_heights ls = dominant_sizes ls.
Proof.
  unfold line_heights, dominant_sizes, dominant_size.
  apply flat_map_ext. intros [|c q]; [reflexivity|].
  destruct (line_font_sizes (c :: q)); [reflexivity|].
  destruct (Py.most_common1 _) as [|[s n] ?]; reflexivity.
Qed.

(** On a line whose characters are in the order of their [x0], as the lines
    of the line grouper are, [_process_line] finds the dominant size. *)
Lemma process_line_dominant line :
  Sorted (Py.not_after PrimFloat.ltb x0) line ->
  snd (_process_line line)
  = match dominant_size line with Some s => s | None => 0 end.
Proof.
  intros H. destruct line as [|c q]; [reflexivity|].
  unfold _process_line, sort_by_x0.
  rewrite (SortFacts.sorted_fixed _ _ _ H).
  unfold dominant_size, line_font_sizes. cbn [snd].
  generalize (map get_size (filter has_size (c :: q))). intros [|f l];
    [reflexivity|].
  destruct (most_common1_count_all (f :: l)) as (s & n & ->);
    [discriminate|reflexivity].
Qed.

(** [_group_lines_into_blocks] never raises, and cuts the non-empty lines at
    the gaps that exceed 1.5 times the median of the dominant sizes. *)
Lemma group_lines_refines ls :
  _group_lines_into_blocks ls
  = Some (split_blocks (1.5 * spec_median (dominant_sizes ls))
            (filter nonempty ls)).
Proof.
  destruct ls as [|l0 r0]; [reflexivity|].
  unfold _group_lines_into_blocks, _get_median_line_height.
  rewrite median_of_spec, line_heights_dominant.
  set (thr := 1.5 * spec_median (dominant_sizes (l0 :: r0))).
  rewrite block_loop_filter.
  pose proof (filter_nonempty_not_nil (l0 :: r0)) as Hne.
  destruct (filter nonempty (l0 :: r0)) as [|l r]; [reflexivity|].
  inversion Hne as [|? ? Hl Hr]; subst.
  rewrite fold_opt_cons.
  destruct l as [|c q]; [congruence|].
  unfold block_step at 1.
  destruct (line_top_some c q) as [t ->].
  destruct (line_bottom_some c q) as [b Eb]. rewrite Eb.
  cbn [prev_line_bottom blocks current_block].
  destruct (block_loop_split thr r Hr [] [] (c :: q)) as (st & E1 & E2);
    [discriminate|].
  rewrite Eb in E1. cbn [app] in E1 |- *.
  match goal with
  | |- match ?x with Some _ => _ | None => _ end = _ =>
      replace x with (Some st) by (symmetry; exact E1)
  end.
  unfold closed in E2. rewrite E2. unfold split_blocks.
  destruct (split_after thr (c :: q) r). reflexivity.
Qed.

Section Split.
Variable thr : float.

Lemma split_after_concat p ls :
  fst (split_after thr p ls) ++ concat (snd (split_after thr p ls)) = ls.
Proof.
  revert p. induction ls as [|l r IH]; intros p; [reflexivity|].
  simpl. specialize (IH l). destruct (split_after thr l r) as [cur bs].
  simpl in IH. destruct (exceeds thr p l); simpl; now rewrite IH.
Qed.

Lemma split_after_not_nil p ls :
  Forall (fun b => b <> []) (snd (split_after thr p ls)).
Proof.
  revert p. induction ls as [|l r IH]; intros p; [constructor|].
  simpl. specialize (IH l). destruct (split_after thr l r) as [cur bs].
  simpl in IH. destruct (exceeds thr p l); simpl; [|exact IH].
  constructor; [discriminate|exact IH].
Qed.

Lemma split_after_within p ls :
  Sorted (fun l1 l2 => exceeds thr l1 l2 = false)
         (p :: fst (split_after thr p ls))
  /\ Forall (Sorted (fun l1 l2 => exceeds thr l1 l2 = false))
            (snd (split_after thr p ls)).
Proof.
  revert p. induction ls as [|l r IH]; intros p.
  - simpl. repeat constructor.
  - simpl. specialize (IH l). destruct (split_after thr l r) as [cur bs].
    simpl in IH. destruct IH as [IH1 IH2].
    destruct (exceeds thr p l) eqn:E; simpl.
    + split; [repeat constructor|]. now constructor.
    + split; [|exact IH2]. constructor; [exact IH1|]. now constructor.
Qed.

Lemma last_app_cons {A} (C : list A) p cur d :
  last (C ++ p :: cur) d = last (p :: cur) d.
Proof.
  induction C as [|x C IH]; [reflexivity|].
  simpl app. rewrite <- IH. simpl. now destruct (C ++ p :: cur) eqn:E;
    [destruct C; discriminate|].
Qed.

Lemma split_after_breaks p ls :
  Sorted (breaks thr) (snd (split_after thr p ls))
  /\ forall C,
      HdRel (breaks thr) (C ++ p :: fst (split_after thr p ls))
            (snd (split_after thr p ls)).
Proof.
  revert p. induction ls as [|l r IH]; intros p.
  - simpl. repeat constructor.
  - simpl. specialize (IH l). destruct (split_after thr l r) as [cur bs].
    simpl in IH. destruct IH as [IH1 IH2].
    destruct (exceeds thr p l) eqn:E; simpl.
    + split.
      * constructor; [exact IH1|]. apply (IH2 []).
      * intros C. constructor. unfold breaks.
        now rewrite last_app_cons.
    + split; [exact IH1|]. intros C.
      specialize (IH2 (C ++ [p])). now rewrite <- app_assoc in IH2.
Qed.
End Split.

Lemma split_blocks_concat thr ls : concat (split_blocks thr ls) = ls.
Proof.
  destruct ls as [|l r]; [reflexivity|]. unfold split_blocks.
  pose proof (split_after_concat thr l r) as H.
  destruct (split_after thr l r) as [cur bs]. simpl in *. now rewrite H.
Qed.

Lemma split_blocks_not_nil thr ls :
  Forall (fun b => b <> []) (split_blocks thr ls).
Proof.
  destruct ls as [|l r]; [constructor|]. unfold split_blocks.
  pose proof (split_after_not_nil thr l r) as H.
  destruct (split_after thr l r) as [cur bs]. simpl in *.
  constructor; [discriminate|exact H].
Qed.

Lemma split_blocks_within thr ls :
  Forall (Sorted (fun l1 l2 => exceeds thr l1 l2 = false))
         (split_blocks thr ls).
Proof.
  destruct ls as [|l r]; [constructor|]. unfold split_blocks.
  pose proof (split_after_within thr l r) as [H1 H2].
  destruct (split_after thr l r) as [cur bs]. simpl in *.
  now constructor.
Qed.

Lemma split_blocks_breaks thr ls : Sorted (breaks thr) (split_blocks thr ls).
Proof.
  destruct ls as [|l r]; [constructor|]. unfold split_blocks.
  pose proof (split_after_breaks thr l r) as [H1 H2].
  destruct (split_after thr l r) as [cur bs]. simpl in *.
  constructor; [exact H1|apply (H2 [])].
Qed.

Lemma unsized_no_dominant ls :
  Forall (Forall (fun c => has_size c = false)) ls -> dominant_sizes ls = [].
Proof.
  induction 1 as [|l r Hl _ IH]; [reflexivity|].
  unfold dominant_sizes in *. simpl. rewrite IH.
  unfold dominant_size, line_font_sizes.
  now rewrite (filter_none has_size l Hl).
Qed.

(** C5. The block grouper returns blocks for every sequence of lines; their
    concatenation is the sequence of the non-empty lines, in order, and no
    block is empty; the threshold being 1.5 times the median of the
    dominant sizes of the lines (the middle value, the average of the two
    middle values for an even count, 12.0 when no line has a sized
    character), within a block the gap between a line and the next one, the
    least [top] of the next minus the greatest [bottom] of the line, never
    exceeds the threshold, and between the last line of a block and the
    first line of the next block it does. *)
Theorem block_grouper_partition :
  (forall ls,
      exists bs,
        _group_lines_into_blocks ls = Some bs
        /\ concat bs = filter nonempty ls
        /\ Forall (fun b => b <> []) bs
        /\ Forall (Sorted (fun l1 l2 =>
                     exceeds (1.5 * spec_median (dominant_sizes ls)) l1 l2
                     = false)) bs
        /\ Sorted (breaks (1.5 * spec_median (dominant_sizes ls))) bs)
  /\ (forall ls,
         _get_median_line_height ls = Some (spec_median (dominant_sizes ls)))
  /\ (forall ls,
         Forall (Forall (fun c => has_size c = false)) ls ->
         spec_median (dominant_sizes ls) = 12).
Proof.
  split; [|split].
  - intros ls. eexists. split; [apply group_lines_refines|].
    split; [apply split_blocks_concat|].
    split; [apply split_blocks_not_nil|].
    split; [apply split_blocks_within|apply split_blocks_breaks].
  - intros ls. unfold _get_median_line_height.
    now rewrite median_of_spec, line_heights_dominant.
  - intros ls H. now rewrite unsized_no_dominant.
Qed.

Lemma block_grouper_partition_witness :
  spec_median (dominant_sizes unsized_lines) = 12.
Proof.
  apply (proj2 (proj2 block_grouper_partition)).
  repeat constructor.
Defined.

(** ** Pages *)

Lemma min_some (l : list float) : l <> [] -> exists m, Py.min l = Some m.
Proof. destruct l; [congruence|]. simpl. eauto. Qed.

Lemma max_some (l : list float) : l <> [] -> exists m, Py.max l = Some m.
Proof. destruct l; [congruence|]. simpl. eauto. Qed.

(** The bounding box of a block of non-empty lines is defined. *)
Lemma block_bbox_some block :
  block <> [] -> Forall (fun l => l <> []) block ->
  exists box, block_bbox block = Some box.
Proof.
  intros Hb Hl. unfold block_bbox.
  assert (Hc : concat block <> []).
  { destruct block as [|l r]; [congruence|].
    inversion Hl as [|? ? Hl0 _]; subst. destruct l; [congruence|].
    discriminate. }
  destruct (concat block) as [|c cs]; [congruence|].
  simpl. eauto.
Qed.

Lemma add_blocks_some bs :
  Forall (fun b => Forall (fun l => l <> []) b) bs ->
  forall els, exists els', fold_opt add_block bs els = Some els'.
Proof.
  induction 1 as [|b r Hb _ IH]; intros els.
  - eexists. reflexivity.
  - rewrite fold_opt_cons. unfold add_block.
    destruct b as [|l q]; [apply IH|].
    destruct (block_bbox_some (l :: q)) as [box ->];
      [discriminate|exact Hb|].
    apply IH.
Qed.

(** [_process_page] never raises. *)
Lemma process_page_total self pg n :
  exists md, _process_page self pg n = Some md.
Proof.
  unfold _process_page.
  destruct (chars pg) as [|c cs]; [eexists; reflexivity|].
  rewrite group_lines_refines.
  set (ls := _group_chars_into_lines (c :: cs)).
  set (thr := 1.5 * spec_median (dominant_sizes ls)).
  destruct (add_blocks_some (split_blocks thr (filter nonempty ls)))
    with (els := @nil element) as [els ->]; [|eexists; reflexivity].
  rewrite <- Forall_concat, split_blocks_concat.
  apply filter_nonempty_not_nil.
Qed.
(** ** The table renderer *)

(** C7. Table rendering returns the empty string when the extraction
    raises, when it returns nothing, and when the grid it returns is empty
    or has fewer than 2 rows; no exception leaves it, and the processing of
    a page returns its Markdown whatever the tables of the page do. *)
Theorem table_rendering_degrades :
  (forall self t, extract t = Raised -> _convert_table_to_markdown self t = [])
  /\ (forall self t,
         extract t = Returned None -> _convert_table_to_markdown self t = [])
  /\ (forall self t data,
         extract t = Returned (Some data) ->
         data = [] \/ length data < 2 ->
         _convert_table_to_markdown self t = [])
  /\ (forall self pg n, exists md, _process_page self pg n = Some md).
Proof.
  repeat split.
  - intros self t E. unfold _convert_table_to_markdown. now rewrite E.
  - intros self t E. unfold _convert_table_to_markdown. now rewrite E.
  - intros self t data E H. unfold _convert_table_to_markdown. rewrite E.
    destruct data as [|h r]; [reflexivity|].
    destruct H as [H|H]; [discriminate|].
    apply Nat.ltb_lt in H. now rewrite H.
  - intros self pg n. apply process_page_total.
Qed.

Lemma table_rendering_degrades_witness :
  _convert_table_to_markdown init
    {| bbox := (0, 0, 0, 0); extract := Raised |} = []
  /\ _convert_table_to_markdown init
       {| bbox := (0, 0, 0, 0); extract := Returned None |} = []
  /\ _convert_table_to_markdown init
       (table_of [[Some (Py.lit "A"); Some (Py.lit "B")]]) = [].
Proof.
  split; [|split].
  - apply (proj1 table_rendering_degrades). reflexivity.
  - apply (proj1 (proj2 table_rendering_degrades)). reflexivity.
  - apply (proj1 (proj2 (proj2 table_rendering_degrades)) init
             (table_of [[Some (Py.lit "A"); Some (Py.lit "B")]])
             [[Some (Py.lit "A"); Some (Py.lit "B")]]).
    + reflexivity.
    + right. simpl. lia.
Defined.

Lemma flat_map_rows (rest : Grid) :
  Forall (fun row => row <> []) rest ->
  flat_map (fun row : list (option Py.str) =>
              match row with
              | [] => []
              | _ :: _ => [row_md row]
              end) rest
  = map row_md rest.
Proof.
  induction 1 as [|row r Hrow _ IH]; simpl; [reflexivity|].
  rewrite IH. destruct row; [congruence|reflexivity].
Qed.

Lemma map_const_repeat {A B} (l : list A) (b : B) :
  map (fun _ => b) l = repeat b (length l).
Proof. induction l as [|x l IH]; simpl; [reflexivity|now rewrite IH]. Qed.

(** C8. A well-formed grid is rendered as its header row, a separator row
    with one "---" per header cell, and one row per data row, the lines
    being joined by line breaks; a row is "| ", its cells joined by " | ",
    and " |", a cell being its string stripped, or the empty string when
    it is absent. The grid [[["A","B"],["1","2"],["3", None]]] gives the
    four lines "| A | B |", "| --- | --- |", "| 1 | 2 |" and "| 3 |  |". *)
Theorem table_rendering :
  (forall self headers rest,
      well_formed (headers :: rest) ->
      _convert_table_to_markdown self (table_of (headers :: rest))
      = Py.join Py.newline
          ((Py.lit "| "
            ++ Py.join (Py.lit " | ")
                 (map (fun cell => match cell with
                                   | Some s => Py.strip s
                                   | None => []
                                   end) headers)
            ++ Py.lit " |")
           :: (Py.lit "| "
               ++ Py.join (Py.lit " | ")
                    (repeat (Py.lit "---") (length headers))
               ++ Py.lit " |")
           :: map (fun row =>
                     Py.lit "| "
                     ++ Py.join (Py.lit " | ")
                          (map (fun cell => match cell with
                                            | Some s => Py.strip s
                                            | None => []
                                            end) row)
                     ++ Py.lit " |") rest))
  /\ _convert_table_to_markdown init (table_of sample_grid)
     = Py.join Py.newline
         [Py.lit "| A | B |"; Py.lit "| --- | --- |";
          Py.lit "| 1 | 2 |"; Py.lit "| 3 |  |"].
Proof.
  split; [|vm_compute; reflexivity].
  intros self headers rest [Hlen Hrows].
  unfold _convert_table_to_markdown, table_of, extract.
  destruct (length (headers :: rest) <? 2)%nat eqn:E;
    [apply Nat.ltb_lt in E; lia|].
  inversion Hrows as [|? ? Hh Hrest]; subst.
  unfold table_lines. destruct headers as [|c hs]; [congruence|].
  rewrite flat_map_rows by exact Hrest.
  unfold separator_md. rewrite (map_const_repeat (c :: hs)).
  reflexivity.
Qed.

Lemma table_rendering_witness :
  _convert_table_to_markdown init (table_of sample_grid)
  = Py.join Py.newline
      [Py.lit "| A | B |"; Py.lit "| --- | --- |";
       Py.lit "| 1 | 2 |"; Py.lit "| 3 |  |"].
Proof.
  unfold sample_grid.
  rewrite (proj1 table_rendering init
             [Some (Py.lit "A"); Some (Py.lit "B")]
             [[Some (Py.lit "1"); Some (Py.lit "2")];
              [Some (Py.lit "3"); None]]).
  - vm_compute. reflexivity.
  - split; [simpl; lia|]. repeat constructor; discriminate.
Defined.


(** ** The document *)

Lemma page_outputs_some self pdf :
  exists outs, page_outputs self pdf = map Some outs.
Proof.
  unfold page_outputs.
  induction (enumerate (pages pdf)) as [|np r [outs IH]]; simpl.
  - now exists [].
  - destruct (process_page_total self (snd np) (fst np)) as [md E].
    exists (md :: outs). simpl. now rewrite E, IH.
Qed.

(** The loop of [extract_text_with_formatting] keeps, in order, the page
    outputs that are not blank. *)
Lemma add_pages_filter self nps :
  forall outs acc,
    map (fun np => _process_page self (snd np) (fst np)) nps = map Some outs ->
    fold_opt (add_page self) nps acc = Some (acc ++ filter nonblank outs).
Proof.
  induction nps as [|np r IH]; intros outs acc E.
  - destruct outs; [|discriminate]. simpl. now rewrite app_nil_r.
  - destruct outs as [|o outs]; [discriminate|].
    simpl in E. injection E as E1 E2.
    rewrite fold_opt_cons. unfold add_page at 1. rewrite E1.
    simpl filter. unfold nonblank at 1.
    destruct (Py.truthy_str (Py.strip o)).
    + rewrite (IH outs _ E2), <- app_assoc. reflexivity.
    + exact (IH outs _ E2).
Qed.

(** C9. The conversion returns the Markdown of the pages that is not blank
    (empty or made of whitespace), in page order, with a blank line, that
    is two line breaks, between one page and the next; a document without
    pages, and a document whose pages are all blank, convert to the empty
    string, without an error. *)
Theorem document_assembly :
  (forall self pdf,
      exists outs,
        page_outputs (_analyze_document_structure self pdf) pdf
        = map Some outs
        /\ snd (extract_text_with_formatting self pdf)
           = Some (Py.join (Py.newline ++ Py.newline)
                     (filter nonblank outs)))
  /\ (forall self,
         snd (extract_text_with_formatting self {| pages := [] |}) = Some [])
  /\ (forall self pdf,
         Forall (fun o => exists md, o = Some md /\ nonblank md = false)
                (page_outputs (_analyze_document_structure self pdf) pdf) ->
         snd (extract_text_with_formatting self pdf) = Some []).
Proof.
  assert (G : forall self pdf outs,
             page_outputs (_analyze_document_structure self pdf) pdf
             = map Some outs ->
             snd (extract_text_with_formatting self pdf)
             = Some (Py.join (Py.newline ++ Py.newline)
                       (filter nonblank outs))).
  { intros self pdf outs E. unfold extract_text_with_formatting. simpl snd.
    now rewrite (add_pages_filter _ _ outs [] E). }
  split; [|split].
  - intros self pdf.
    destruct (page_outputs_some (_analyze_document_structure self pdf) pdf)
      as [outs E].
    exists outs. split; [exact E|]. now apply G.
  - intros self. reflexivity.
  - intros self pdf H.
    destruct (page_outputs_some (_analyze_document_structure self pdf) pdf)
      as [outs E].
    rewrite (G self pdf outs E). rewrite E in H.
    assert (F : filter nonblank outs = []).
    { apply filter_none. rewrite Forall_map in H.
      eapply Forall_impl; [|exact H].
      intros o (md & Eo & Hmd). now injection Eo as ->. }
    now rewrite F.
Qed.

Lemma document_assembly_witness :
  snd (extract_text_with_formatting init blank_pages_pdf) = Some []
  /\ to_markdown two_pages_pdf
     = Some (Py.lit "one" ++ Py.newline ++ Py.newline ++ Py.lit "two").
Proof.
  split.
  - apply (proj2 (proj2 document_assembly) init blank_pages_pdf).
    repeat constructor; eexists; split; reflexivity.
  - vm_compute. reflexivity.
Defined.

(* ================================================================= *)
(** * Further properties *)

(** ** Normalized text *)

Module CleanFacts.
Import Py.

Lemma sub_spaces_spaces b s :
  Forall (fun c => isspace c = true -> c = 32%N) (sub_spaces b s).
Proof.
  revert b. induction s as [|c r IH]; intros b; simpl; [constructor|].
  destruct (isspace c) eqn:E.
  - destruct b; [apply IH|]. constructor; [reflexivity|apply IH].
  - constructor; [congruence|apply IH].
Qed.

Lemma sub_spaces_true_head s :
  HdRel not_both_space 32%N (sub_spaces true s).
Proof.
  induction s as [|c r IH]; simpl; [constructor|].
  destruct (isspace c) eqn:E; [exact IH|].
  constructor. unfold not_both_space. rewrite E. apply andb_false_r.
Qed.

Lemma sub_spaces_single b s : Sorted not_both_space (sub_spaces b s).
Proof.
  revert b. induction s as [|c r IH]; intros b; simpl; [constructor|].
  destruct (isspace c) eqn:E.
  - destruct b; [apply IH|].
    constructor; [apply IH|apply sub_spaces_true_head].
  - constructor; [apply IH|].
    destruct (sub_spaces false r); constructor.
    unfold not_both_space. now rewrite E.
Qed.

Lemma lstrip_suffix s : exists p, s = p ++ lstrip s /\ Forall (fun c => isspace c = true) p.
Proof.
  induction s as [|c r (p & E & H)]; simpl.
  - exists []. split; [reflexivity|constructor].
  - destruct (isspace c) eqn:Ec.
    + exists (c :: p). split; [simpl; now rewrite <- E|now constructor].
    + exists []. split; [reflexivity|constructor].
Qed.

Lemma rstrip_prefix s : exists q, s = rstrip s ++ q /\ Forall (fun c => isspace c = true) q.
Proof.
  induction s as [|c r (q & E & H)]; simpl.
  - exists []. split; [reflexivity|constructor].
  - destruct (rstrip r) as [|d r'] eqn:Er.
    + destruct (isspace c) eqn:Ec.
      * exists (c :: q). simpl in E. split; [now rewrite <- E|now constructor].
      * exists q. simpl in *. split; [now rewrite <- E|exact H].
    + exists q. split; [|exact H]. simpl in *. congruence.
Qed.

Lemma Sorted_app_l {A} (R : A -> A -> Prop) l1 l2 :
  Sorted R (l1 ++ l2) -> Sorted R l1.
Proof.
  induction l1 as [|a l1 IH]; simpl; intros H; [constructor|].
  inversion H as [|? ? Hs Hh]; subst. constructor; [now apply IH|].
  destruct l1; [constructor|]. inversion Hh; subst. now constructor.
Qed.

Lemma Sorted_app_r {A} (R : A -> A -> Prop) l1 l2 :
  Sorted R (l1 ++ l2) -> Sorted R l2.
Proof.
  induction l1 as [|a l1 IH]; simpl; intros H; [exact H|].
  inversion H; subst. now apply IH.
Qed.

Lemma strip_parts s :
  exists p q, s = p ++ strip s ++ q
              /\ Forall (fun c => isspace c = true) p
              /\ Forall (fun c => isspace c = true) q.
Proof.
  unfold strip. destruct (lstrip_suffix s) as (p & E1 & H1).
  destruct (rstrip_prefix (lstrip s)) as (q & E2 & H2).
  exists p, q. split; [|split; assumption]. now rewrite <- E2.
Qed.

Lemma visible_spaces p :
  Forall (fun c => isspace c = true) p -> visible p = [].
Proof.
  induction 1 as [|c r Hc _ IH]; simpl; [reflexivity|]. now rewrite Hc.
Qed.

Lemma visible_nil s :
  visible s = [] -> Forall (fun c => isspace c = true) s.
Proof.
  unfold visible. induction s as [|c r IH]; simpl; intros H; [constructor|].
  destruct (isspace c) eqn:Ec; simpl in H; [|discriminate].
  constructor; [exact Ec|now apply IH].
Qed.

Lemma visible_strip s : visible (strip s) = visible s.
Proof.
  destruct (strip_parts s) as (p & q & E & Hp & Hq).
  rewrite E at 2. unfold visible in *. rewrite !filter_app.
  fold (visible p) (visible q). rewrite (visible_spaces p Hp), (visible_spaces q Hq).
  simpl. now rewrite app_nil_r.
Qed.

Lemma visible_sub_spaces b s : visible (sub_spaces b s) = visible s.
Proof.
  revert b. induction s as [|c r IH]; intros b; simpl; [reflexivity|].
  destruct (isspace c) eqn:E; simpl.
  - destruct b; simpl; apply IH.
  - rewrite E. simpl. now rewrite IH.
Qed.

(** A text whose whitespace is made of single spaces is left as it is. *)
Lemma sub_spaces_fixed s :
  Forall (fun c => isspace c = true -> c = 32%N) s ->
  Sorted not_both_space s ->
  sub_spaces false s = s
  /\ (forall c, isspace c = true -> HdRel not_both_space c s ->
                sub_spaces true s = s).
Proof.
  induction s as [|c r IH]; intros H1 H2; simpl; [split; reflexivity|].
  inversion H1 as [|? ? Hc Hr]; subst. inversion H2 as [|? ? Sr Hh]; subst.
  destruct (IH Hr Sr) as [IHf IHt].
  destruct (isspace c) eqn:E.
  - split.
    + rewrite <- (Hc eq_refl) at 1. f_equal. now apply (IHt c).
    + intros d Hd Hdc. inversion Hdc as [|? ? Hbad]; subst.
      unfold not_both_space in Hbad. now rewrite Hd, E in Hbad.
  - split; [now rewrite IHf|]. intros _ _ _. now rewrite IHf.
Qed.

Lemma strip_nil_iff s : strip s = [] <-> Forall (fun c => isspace c = true) s.
Proof.
  split.
  - intros E. destruct (strip_parts s) as (p & q & Es & Hp & Hq).
    rewrite E in Es. rewrite Es. simpl. now apply Forall_app.
  - intros H. destruct (strip_parts s) as (p & q & Es & Hp & Hq).
    destruct (strip s) as [|c r] eqn:E; [reflexivity|].
    assert (Hv : visible (strip s) = []) by (rewrite visible_strip; now apply visible_spaces).
    pose proof (StrFacts.strip_idem s) as Hi. rewrite E in Hi.
    unfold strip in Hi.
    assert (Hc : isspace c = false).
    { destruct (lstrip (c :: r)) eqn:El.
      - simpl in Hi. discriminate.
      - apply (StrFacts.lstrip_fixed_head c r).
        assert (L : lstrip (strip s) = strip s).
        { unfold strip. apply StrFacts.lstrip_rstrip, StrFacts.lstrip_idem. }
        now rewrite E in L. }
    rewrite E in Hv. simpl in Hv. rewrite Hc in Hv. discriminate.
Qed.
End CleanFacts.

(** A cleaned text is in normal form. *)
Lemma clean_text_normalized raw : normalized (_clean_text raw).
Proof.
  unfold normalized, _clean_text.
  destruct (CleanFacts.strip_parts (Py.sub_spaces false raw))
    as (p & q & E & _ & _).
  pose proof (CleanFacts.sub_spaces_spaces false raw) as H1.
  pose proof (CleanFacts.sub_spaces_single false raw) as H2.
  rewrite E in H1, H2. split; [|split].
  - apply Forall_app in H1. destruct H1 as [_ H1].
    apply Forall_app in H1. tauto.
  - apply CleanFacts.Sorted_app_r in H2.
    now apply CleanFacts.Sorted_app_l in H2.
  - apply StrFacts.strip_idem.
Qed.

(** X1. [_clean_text] returns a text in normal form: every whitespace
    character of it is a space, no two of them are adjacent and none stands
    at either end; cleaning a cleaned text changes nothing. *)
Theorem clean_text_normal_form :
  forall raw,
    normalized (_clean_text raw)
    /\ _clean_text (_clean_text raw) = _clean_text raw.
Proof.
  intros raw. pose proof (clean_text_normalized raw) as N.
  split; [exact N|].
  destruct N as (H1 & H2 & H3).
  unfold _clean_text at 1.
  rewrite (proj1 (CleanFacts.sub_spaces_fixed _ H1 H2)). exact H3.
Qed.

(** X2. [_clean_text] keeps the characters that are not whitespace, in their
    order, and returns the empty string exactly for a text made of
    whitespace only. *)
Theorem clean_text_keeps_visible :
  forall raw,
    visible (_clean_text raw) = visible raw
    /\ (_clean_text raw = [] <-> Forall (fun c => Py.isspace c = true) raw).
Proof.
  intros raw. unfold _clean_text.
  assert (V : visible (Py.strip (Py.sub_spaces false raw)) = visible raw).
  { now rewrite CleanFacts.visible_strip, CleanFacts.visible_sub_spaces. }
  split; [exact V|]. split.
  - intros E. rewrite E in V. apply CleanFacts.visible_nil. now rewrite <- V.
  - intros H. apply CleanFacts.strip_nil_iff, CleanFacts.visible_nil.
    rewrite CleanFacts.visible_sub_spaces. now apply CleanFacts.visible_spaces.
Qed.

(** ** More on the order of floats *)

Module FloatMore.
Import FloatOrder FloatFacts.
Local Open Scope Z_scope.

Lemma lex_lt_le a b c : lex a b = Lt -> lex b c <> Gt -> lex a c = Lt.
Proof. intros H1 H2. lex_cases. Qed.

Lemma lex_le_lt a b c : lex a b <> Gt -> lex b c = Lt -> lex a c = Lt.
Proof. intros H1 H2. lex_cases. Qed.

Local Open Scope float_scope.

Ltac nan_cases x y z :=
  destruct (sf_is_nan (Prim2SF x)), (sf_is_nan (Prim2SF y)),
    (sf_is_nan (Prim2SF z)); simpl; try discriminate.

Lemma ltb_leb x y : (x <? y) = true -> (x <=? y) = true.
Proof.
  to_rank. destruct (_ || _); [discriminate|].
  destruct (lex _ _); congruence.
Qed.

Lemma eqb_leb x y : (x =? y) = true -> (x <=? y) = true.
Proof.
  to_rank. destruct (_ || _); [discriminate|].
  destruct (lex _ _); congruence.
Qed.

Lemma leb_not_ltb x y : (x <=? y) = true -> (y <? x) = false.
Proof.
  to_rank. rewrite (orb_comm (sf_is_nan (Prim2SF y))).
  destruct (_ || _); [discriminate|].
  rewrite (lex_antisym (rank (Prim2SF x))).
  destruct (lex _ _); simpl; congruence.
Qed.

Lemma ltb_leb_trans x y z :
  (x <? y) = true -> (y <=? z) = true -> (x <? z) = true.
Proof.
  to_rank. nan_cases x y z. intros H1 H2.
  rewrite (lex_lt_le _ (rank (Prim2SF y))); [reflexivity| |].
  - destruct (lex (rank (Prim2SF x)) _); congruence.
  - destruct (lex (rank (Prim2SF y)) _); congruence.
Qed.

Lemma leb_ltb_trans x y z :
  (x <=? y) = true -> (y <? z) = true -> (x <? z) = true.
Proof.
  to_rank. nan_cases x y z. intros H1 H2.
  rewrite (lex_le_lt _ (rank (Prim2SF y))); [reflexivity| |].
  - destruct (lex (rank (Prim2SF x)) _); congruence.
  - destruct (lex (rank (Prim2SF y)) _); congruence.
Qed.

Lemma leb_refl x : PrimFloat.is_nan x = false -> (x <=? x) = true.
Proof.
  rewrite is_nan_spec. to_rank. intros ->. simpl. now rewrite lex_refl.
Qed.

Lemma leb_is_number x y :
  (x <=? y) = true -> PrimFloat.is_nan x = false /\ PrimFloat.is_nan y = false.
Proof.
  rewrite !is_nan_spec. to_rank.
  destruct (sf_is_nan (Prim2SF x)), (sf_is_nan (Prim2SF y)); simpl;
    try discriminate. auto.
Qed.
End FloatMore.

(** ** Headings and font sizes *)

(** X3. The heading test is monotone in the font size: a text that is a
    heading in one size is a heading in every larger size. *)
Theorem is_heading_monotone :
  forall self s s' t,
    (s <=? s') = true ->
    _is_heading self s t = true ->
    _is_heading self s' t = true.
Proof.
  intros self s s' t Hs H. apply is_heading_spec in H.
  destruct H as (b & Eb & H1 & H2 & H3).
  apply is_heading_spec. exists b. repeat split; try assumption.
  - eapply FloatFacts.leb_trans; eassumption.
  - eapply FloatMore.ltb_leb_trans; eassumption.
Qed.

Lemma is_heading_monotone_witness :
  _is_heading (_analyze_document_structure init annual_report_pdf) 36
    (Py.lit "Annual Report") = true.
Proof.
  apply (is_heading_monotone
           (_analyze_document_structure init annual_report_pdf) 24 36);
    vm_compute; reflexivity.
Defined.

(** X4. A text whose size is at most the body size is never a heading,
    however short it is. *)
Theorem body_size_text_no_heading :
  forall self s t b,
    body_size self = Some b ->
    (s <=? b) = true ->
    _is_heading self s t = false.
Proof.
  intros self s t b Eb Hs.
  destruct (_is_heading self s t) eqn:E; [|reflexivity].
  apply is_heading_spec in E. destruct E as (b' & Eb' & _ & H2 & _).
  rewrite Eb in Eb'. injection Eb' as <-.
  rewrite (FloatMore.leb_not_ltb _ _ Hs) in H2. discriminate.
Qed.

Lemma body_size_text_no_heading_witness :
  _is_heading (_analyze_document_structure init annual_report_pdf) 12
    (Py.lit "Title") = false.
Proof.
  apply (body_size_text_no_heading
           (_analyze_document_structure init annual_report_pdf)
           12 (Py.lit "Title") 12);
    vm_compute; reflexivity.
Defined.

Lemma leading_hashes_prefix d t :
  leading_hashes (hashes d ++ Py.lit " " ++ t) = d.
Proof.
  induction d as [|d IH]; [reflexivity|].
  change (S (leading_hashes (hashes d ++ Py.lit " " ++ t)) = S d).
  now rewrite IH.
Qed.

Lemma format_depth self t s :
  exists d,
    1 <= d <= 5
    /\ _format_as_heading self t s = hashes d ++ Py.lit " " ++ t
    /\ (forall b, body_size self = Some b -> (0 <? b) = true ->
                  d = depth_of_ratio (s / b)).
Proof.
  unfold _format_as_heading, body_size.
  destruct (font_sizes self) as [|e r].
  - exists 2%nat. split; [lia|]. split; [reflexivity|]. discriminate.
  - destruct (most_common1_cons e r) as (b & n & ->).
    set (ratio := if 0 <? b then s / b else 1.0).
    exists (depth_of_ratio ratio). unfold depth_of_ratio.
    split; [|split].
    + repeat match goal with
        | |- context [if ?c then _ else _] => destruct c
        end; lia.
    + repeat match goal with
        | |- context [if ?c then _ else _] => destruct c
        end; reflexivity.
    + intros b' E Hb. injection E as <-. unfold ratio. now rewrite Hb.
Qed.

Lemma depth_of_ratio_antitone r r' :
  (r <=? r') = true -> depth_of_ratio r' <= depth_of_ratio r.
Proof.
  intros H. unfold depth_of_ratio.
  assert (G : forall c, (c <=? r) = true -> (c <=? r') = true).
  { intros c Hc. eapply FloatFacts.leb_trans; eassumption. }
  destruct (2.0 <=? r) eqn:E1; [rewrite (G _ E1); lia|].
  destruct (1.7 <=? r) eqn:E2;
    [rewrite (G _ E2); destruct (2.0 <=? r'); lia|].
  destruct (1.4 <=? r) eqn:E3;
    [rewrite (G _ E3); destruct (2.0 <=? r'), (1.7 <=? r'); lia|].
  destruct (1.2 <=? r) eqn:E4;
    [rewrite (G _ E4);
     destruct (2.0 <=? r'), (1.7 <=? r'), (1.4 <=? r'); lia|].
  destruct (2.0 <=? r'), (1.7 <=? r'), (1.4 <=? r'), (1.2 <=? r'); lia.
Qed.

(** X5. A formatted heading is between 1 and 5 '#', a space and the text
    unchanged, whatever the font profile; with a positive body size, a
    larger size ratio never gives more '#'. *)
Theorem heading_level_range_and_order :
  (forall self t s,
      1 <= leading_hashes (_format_as_heading self t s) <= 5
      /\ _format_as_heading self t s
         = hashes (leading_hashes (_format_as_heading self t s))
           ++ Py.lit " " ++ t)
  /\ (forall self t s s' b,
         body_size self = Some b ->
         (0 <? b) = true ->
         (s / b <=? s' / b) = true ->
         leading_hashes (_format_as_heading self t s')
         <= leading_hashes (_format_as_heading self t s)).
Proof.
  split.
  - intros self t s. destruct (format_depth self t s) as (d & Hd & E & _).
    rewrite E, leading_hashes_prefix. split; [exact Hd|reflexivity].
  - intros self t s s' b Eb Hb Hr.
    destruct (format_depth self t s) as (d & _ & E & Hd).
    destruct (format_depth self t s') as (d' & _ & E' & Hd').
    rewrite E, E', !leading_hashes_prefix.
    rewrite (Hd b Eb Hb), (Hd' b Eb Hb).
    now apply depth_of_ratio_antitone.
Qed.

Lemma heading_level_range_and_order_witness :
  leading_hashes
    (_format_as_heading (_analyze_document_structure init annual_report_pdf)
       (Py.lit "Annual Report") 24)
  <= leading_hashes
       (_format_as_heading (_analyze_document_structure init annual_report_pdf)
          (Py.lit "Annual Report") 18).
Proof.
  apply (proj2 heading_level_range_and_order
           (_analyze_document_structure init annual_report_pdf)
           (Py.lit "Annual Report") 18 24 12);
    vm_compute; reflexivity.
Defined.

(** ** The most common key of a counter *)

Module CounterMore.
Import Py.

Lemma incr_keys k c :
  (exists pre k0 n post,
      c = pre ++ (k0, n) :: post /\ (k0 =? k) = true
      /\ Forall (fun e => (fst e =? k) = false) pre
      /\ incr k c = pre ++ (k0, S n) :: post)
  \/ (Forall (fun e => (fst e =? k) = false) c /\ incr k c = c ++ [(k, 1%nat)]).
Proof.
  induction c as [|[k1 n1] r IH]; simpl.
  - right. split; [constructor|reflexivity].
  - destruct (k1 =? k) eqn:E.
    + left. exists [], k1, n1, r. repeat split; auto.
    + destruct IH as [(pre & k0 & n & post & E1 & E2 & E3 & E4)|[H1 H2]].
      * left. exists ((k1, n1) :: pre), k0, n, post. subst r. simpl.
        rewrite E4. repeat split; auto.
      * right. split; [constructor; [exact E|exact H1]|now rewrite H2].
Qed.

Lemma distinct_keys_app c1 c2 :
  distinct_keys (c1 ++ c2) <->
  distinct_keys c1 /\ distinct_keys c2
  /\ Forall (fun e1 => Forall (fun e2 => (fst e1 =? fst e2) = false) c2) c1.
Proof.
  induction c1 as [|[k n] r IH]; simpl.
  - split; [intros H; repeat split; auto|tauto].
  - rewrite Forall_app, IH. split.
    + intros [[H1 H2] (H3 & H4 & H5)]. repeat split; auto.
    + intros ([H1 H3] & H4 & H5). inversion H5; subst. simpl in *.
      repeat split; auto.
Qed.

Lemma incr_distinct k c : distinct_keys c -> distinct_keys (incr k c).
Proof.
  intros H.
  destruct (incr_keys k c) as [(pre & k0 & n & post & E1 & E2 & E3 & ->)|[H1 ->]].
  - rewrite E1 in H. apply distinct_keys_app in H.
    apply distinct_keys_app. simpl in *. destruct H as (H1 & H2 & H3).
    split; [exact H1|]. split; [exact H2|].
    eapply Forall_impl; [|exact H3]. intros e He.
    inversion He; subst. now constructor.
  - apply distinct_keys_app. repeat split; auto; simpl; auto.
    eapply Forall_impl; [|exact H1]. intros e He. now repeat constructor.
Qed.

(** With distinct keys, reading a key that is a number gives the count
    stored with it. *)
Lemma get_In c s n :
  distinct_keys c -> In (s, n) c -> (s =? s) = true -> get c s = n.
Proof.
  induction c as [|[k m] r IH]; simpl; intros H Hin Hs; [contradiction|].
  destruct H as [H1 H2]. destruct Hin as [E|Hin].
  - injection E as -> ->. now rewrite Hs.
  - destruct (k =? s) eqn:Ek; [|now apply IH].
    rewrite Forall_forall in H1. specialize (H1 _ Hin). simpl in H1. congruence.
Qed.

(** Reading any key gives zero or a count that the counter stores. *)
Lemma get_stored c k : get c k = 0%nat \/ exists k', In (k', get c k) c.
Proof.
  induction c as [|[k1 n1] r IH]; simpl; [now left|].
  destruct (k1 =? k).
  - right. exists k1. now left.
  - destruct IH as [E|[k' H]]; [now left|]. right. exists k'. now right.
Qed.

(** [most_common(1)] gives the first of the items of greatest count. *)
Lemma most_common1_first_max c e :
  most_common1 c = [e] ->
  exists pre post,
    c = pre ++ e :: post
    /\ Forall (fun x => snd x < snd e) pre
    /\ Forall (fun x => snd x <= snd e) post.
Proof.
  destruct c as [|e0 r]; [discriminate|]. simpl. intros E. injection E as E.
  revert e E. induction r as [|x r IH] using rev_ind; intros e E.
  - simpl in E. subst. exists [], []. repeat split; constructor.
  - rewrite fold_left_app in E. simpl in E.
    destruct (IH _ eq_refl) as (pre & post & E1 & H1 & H2).
    set (best := fold_left _ r e0) in *.
    destruct (snd best <? snd x)%nat eqn:Lt.
    + apply Nat.ltb_lt in Lt. subst e.
      exists (pre ++ best :: post), []. split; [|split].
      * rewrite app_comm_cons, E1. reflexivity.
      * apply Forall_app. split.
        -- eapply Forall_impl; [|exact H1]. simpl. intros; lia.
        -- constructor; [exact Lt|].
           eapply Forall_impl; [|exact H2]. simpl. intros; lia.
      * constructor.
    + apply Nat.ltb_ge in Lt. subst e.
      exists pre, (post ++ [x]). split; [|split].
      * rewrite app_comm_cons, E1, <- app_assoc. reflexivity.
      * exact H1.
      * apply Forall_app. split; [exact H2|]. now repeat constructor.
Qed.

Lemma most_common1_max c s n :
  most_common1 c = [(s, n)] ->
  In (s, n) c /\ forall k, get c k <= n.
Proof.
  intros E. destruct (most_common1_first_max c _ E) as (pre & post & -> & H1 & H2).
  split; [apply in_elt|]. intros k.
  destruct (get_stored (pre ++ (s, n) :: post) k) as [->|[k' H]]; [lia|].
  apply in_app_or in H. rewrite Forall_forall in H1, H2.
  destruct H as [H|[H|H]].
  - specialize (H1 _ H). simpl in H1. lia.
  - injection H as _ <-. lia.
  - specialize (H2 _ H). simpl in H2. lia.
Qed.
End CounterMore.

Lemma analyze_distinct cs :
  forall fs, distinct_keys fs -> distinct_keys (fold_left analyze_char cs fs).
Proof.
  induction cs as [|c r IH]; intros fs H; simpl; [exact H|].
  apply IH. unfold analyze_char. destruct (has_size c); [|exact H].
  now apply CounterMore.incr_distinct.
Qed.

Lemma bucket_size_get self pdf k :
  bucket_size pdf k
  = Py.get (font_sizes (_analyze_document_structure self pdf)) k.
Proof. unfold bucket_size. now rewrite analyze_stream, get_analyze. Qed.

(** The body size is the key of an entry of the font profile, whose count
    is the size of its bucket and is the greatest count. *)
Lemma body_size_entry self pdf b :
  body_size (_analyze_document_structure self pdf) = Some b ->
  PrimFloat.is_nan b = false ->
  In (b, bucket_size pdf b)
     (font_sizes (_analyze_document_structure self pdf))
  /\ forall k, bucket_size pdf k <= bucket_size pdf b.
Proof.
  intros Eb Hb. unfold body_size in Eb.
  destruct (Py.most_common1 _) as [|[b' n] l] eqn:E; [discriminate|].
  injection Eb as ->.
  assert (El : l = []).
  { destruct (font_sizes (_analyze_document_structure self pdf)); [discriminate|].
    simpl in E. now injection E. }
  subst l. destruct (CounterMore.most_common1_max _ _ _ E) as [Hin Hmax].
  assert (Hn : bucket_size pdf b = n).
  { rewrite (bucket_size_get self). apply CounterMore.get_In; [|exact Hin|].
    - rewrite analyze_stream. now apply analyze_distinct.
    - unfold PrimFloat.is_nan in Hb. now apply negb_false_iff in Hb. }
  rewrite Hn. split; [exact Hin|].
  intros k. rewrite (bucket_size_get self). apply Hmax.
Qed.

(** No entry of the font profile has the count 0. *)
Lemma analyze_counts_positive b :
  forall cs fs,
    In (b, 0%nat) (fold_left analyze_char cs fs) -> In (b, 0%nat) fs.
Proof.
  induction cs as [|c r IH]; intros fs H; [exact H|].
  simpl in H. apply IH in H. unfold analyze_char in H.
  destruct (has_size c); [|exact H].
  destruct (CounterMore.incr_keys (Py.round1 (get_size c)) fs)
    as [(pre & k0 & m & post & E1 & E2 & E3 & E4)|[H1 E4]];
    rewrite E4 in H; apply in_app_or in H.
  - rewrite E1. apply in_or_app. destruct H as [H|[H|H]];
      [now left|discriminate|right; now right].
  - destruct H as [H|[H|[]]]; [exact H|discriminate].
Qed.

(** The bucket of the body size is not empty. *)
Lemma body_size_bucket_inhabited self pdf b :
  body_size (_analyze_document_structure self pdf) = Some b ->
  PrimFloat.is_nan b = false ->
  1 <= bucket_size pdf b.
Proof.
  intros Eb Hb. destruct (body_size_entry self pdf b Eb Hb) as [Hin _].
  destruct (bucket_size pdf b) eqn:E0; [|lia]. exfalso.
  rewrite analyze_stream in Hin. apply analyze_counts_positive in Hin.
  contradiction.
Qed.

(** X6. The body size is a most frequent rounded size: when it is a number,
    its bucket holds at least one character, and no bucket holds more
    characters than it does. *)
Theorem body_size_most_frequent :
  forall self pdf b,
    body_size (_analyze_document_structure self pdf) = Some b ->
    PrimFloat.is_nan b = false ->
    1 <= bucket_size pdf b
    /\ forall k, bucket_size pdf k <= bucket_size pdf b.
Proof.
  intros self pdf b Eb Hb. split.
  - now apply (body_size_bucket_inhabited self).
  - now apply (body_size_entry self).
Qed.

Lemma body_size_most_frequent_witness :
  1 <= bucket_size annual_report_pdf 12
  /\ forall k, bucket_size annual_report_pdf k
               <= bucket_size annual_report_pdf 12.
Proof.
  apply (body_size_most_frequent init annual_report_pdf 12);
    vm_compute; reflexivity.
Defined.

Module CounterOrder.
Import Py.

(** With distinct keys, reading a key gives the count stored with the key
    that equals it. *)
Lemma get_In_eq c k0 m k :
  distinct_keys c -> In (k0, m) c -> (k0 =? k) = true -> get c k = m.
Proof.
  induction c as [|[k1 n1] r IH]; simpl; intros H Hin Hk; [contradiction|].
  destruct H as [H1 H2]. destruct Hin as [E|Hin].
  - injection E as -> ->. now rewrite Hk.
  - destruct (k1 =? k) eqn:Ek; [|now apply IH].
    rewrite Forall_forall in H1. specialize (H1 _ Hin). simpl in H1.
    rewrite (FloatFacts.eqb_trans k1 k k0) in H1;
      [discriminate|exact Ek|now rewrite FloatFacts.eqb_sym].
Qed.

(** An increment keeps the keys of the counter, in their order, and may add
    one key after them. *)
Lemma incr_prefix k c :
  exists c' extra, incr k c = c' ++ extra /\ map fst c' = map fst c.
Proof.
  destruct (CounterMore.incr_keys k c)
    as [(pre & k0 & n & post & -> & _ & _ & ->)|[_ ->]].
  - exists (pre ++ (k0, S n) :: post), []. rewrite app_nil_r.
    split; [reflexivity|]. now rewrite !map_app.
  - now exists c, [(k, 1%nat)].
Qed.

Lemma app_prefix {A} (l1 l2 p q : list A) x :
  l1 ++ l2 = p ++ x :: q -> ~ In x l1 -> exists r, p = l1 ++ r.
Proof.
  revert p. induction l1 as [|a l1 IH]; intros p E H; [now exists p|].
  destruct p as [|a' p]; simpl in E.
  - injection E as -> _. exfalso. apply H. now left.
  - injection E as -> E. destruct (IH p E) as [r ->].
    + intros Hx. apply H. now right.
    + now exists r.
Qed.
End CounterOrder.

Lemma analyze_prefix cs :
  forall fs,
  exists fs' extra,
    fold_left analyze_char cs fs = fs' ++ extra
    /\ map fst fs' = map fst fs.
Proof.
  induction cs as [|c r IH]; intros fs; simpl.
  - exists fs, []. now rewrite app_nil_r.
  - assert (H : exists fs1 e1, analyze_char fs c = fs1 ++ e1
                               /\ map fst fs1 = map fst fs).
    { unfold analyze_char. destruct (has_size c).
      - apply CounterOrder.incr_prefix.
      - exists fs, []. now rewrite app_nil_r. }
    destruct H as (fs1 & e1 & E1 & K1). rewrite E1.
    destruct (IH (fs1 ++ e1)) as (fs2 & e2 & E2 & K2). rewrite E2.
    exists (firstn (length fs1) fs2), (skipn (length fs1) fs2 ++ e2).
    split.
    + now rewrite app_assoc, firstn_skipn.
    + rewrite <- firstn_map, K2, map_app, <- K1.
      rewrite <- (length_map fst fs1), firstn_app, Nat.sub_diag, firstn_all.
      simpl. now rewrite app_nil_r.
Qed.

Lemma analyze_keys cs :
  forall fs e,
    In e (fold_left analyze_char cs fs) ->
    In (fst e) (map fst fs)
    \/ exists c, In c cs /\ has_size c = true
                 /\ fst e = Py.round1 (get_size c).
Proof.
  induction cs as [|c r IH]; intros fs e H; simpl in H.
  - left. now apply in_map.
  - destruct (IH _ _ H) as [Hk|(c' & Hc & Hs & Ek)].
    + unfold analyze_char in Hk. destruct (has_size c) eqn:Es; [|now left].
      destruct (CounterMore.incr_keys (Py.round1 (get_size c)) fs)
        as [(pre & k0 & n & post & -> & _ & _ & E)|[_ E]];
        rewrite E in Hk.
      * left. rewrite !map_app in *. exact Hk.
      * rewrite map_app in Hk. apply in_app_or in Hk.
        destruct Hk as [Hk|[Hk|[]]]; [now left|].
        right. exists c. repeat split; auto. now left.
    + right. exists c'. repeat split; auto. now right.
Qed.

(** X7. Among the most frequent rounded sizes the body size is the first
    seen: a sized character that comes before every character of the body
    size's bucket is in a bucket with strictly fewer characters. *)
Theorem body_size_first_seen :
  forall self pdf b before c after,
    body_size (_analyze_document_structure self pdf) = Some b ->
    PrimFloat.is_nan b = false ->
    stream pdf = before ++ c :: after ->
    has_size c = true ->
    Forall (fun c' => in_bucket b c' = false) (before ++ [c]) ->
    bucket_size pdf (Py.round1 (get_size c)) < bucket_size pdf b.
Proof.
  intros self pdf b before c after Eb Hb Es Hc Hnot.
  pose proof (body_size_bucket_inhabited self pdf b Eb Hb) as Hone.
  set (k := Py.round1 (get_size c)).
  destruct (k =? k) eqn:Ekk.
  2:{ (* the bucket of a size that is not a number is empty *)
      assert (Z : bucket_size pdf k = 0%nat).
      { unfold bucket_size. apply length_zero_iff_nil, filter_none.
        apply Forall_forall. intros c' _. unfold in_bucket.
        destruct (has_size c'); [|reflexivity]. simpl.
        destruct (Py.round1 (get_size c') =? k) eqn:E; [|reflexivity].
        rewrite (FloatFacts.eqb_trans k (Py.round1 (get_size c')) k) in Ekk;
          [discriminate|now rewrite FloatFacts.eqb_sym|exact E]. }
      rewrite Z. lia. }
  assert (Bb : (b =? b) = true).
  { unfold PrimFloat.is_nan in Hb. now apply negb_false_iff in Hb. }
  unfold body_size in Eb.
  destruct (Py.most_common1 _) as [|[b' n] l] eqn:E; [discriminate|].
  injection Eb as ->.
  assert (El : l = []).
  { destruct (font_sizes (_analyze_document_structure self pdf));
      [discriminate|]. simpl in E. now injection E. }
  subst l. rewrite analyze_stream, Es in E.
  set (c1 := fold_left analyze_char (before ++ [c]) []).
  assert (Ecf : fold_left analyze_char (before ++ c :: after) []
                = fold_left analyze_char after c1).
  { unfold c1. now rewrite <- fold_left_app, <- app_assoc. }
  rewrite Ecf in E.
  assert (D : distinct_keys (fold_left analyze_char after c1)).
  { rewrite <- Ecf. now apply analyze_distinct. }
  destruct (CounterMore.most_common1_first_max _ _ E)
    as (pre & post & Ecut & Hpre & _).
  destruct (analyze_prefix after c1) as (c1' & extra & Ecf' & Keys).
  (* no key seen up to [c] equals the body size *)
  assert (N1 : Forall (fun key => (key =? b) = false) (map fst c1)).
  { apply Forall_forall. intros key Hkey. apply in_map_iff in Hkey.
    destruct Hkey as (e & <- & He).
    destruct (analyze_keys _ _ _ He) as [[]|(c' & Hc' & Hs' & ->)].
    rewrite Forall_forall in Hnot. specialize (Hnot _ Hc').
    unfold in_bucket in Hnot. now rewrite Hs' in Hnot. }
  assert (Hout : ~ In (b, n) c1').
  { intros Hin. apply (in_map fst) in Hin. rewrite Keys in Hin.
    rewrite Forall_forall in N1. specialize (N1 _ Hin). simpl in N1.
    congruence. }
  rewrite Ecf' in Ecut.
  destruct (CounterOrder.app_prefix _ _ _ _ _ Ecut Hout) as [rest Epre].
  (* the key of [c] is among the keys seen up to [c] *)
  assert (K0 : exists k0, In k0 (map fst c1) /\ (k0 =? k) = true).
  { unfold c1. rewrite fold_left_app. simpl. unfold analyze_char at 1.
    rewrite Hc. fold k.
    destruct (CounterMore.incr_keys k (fold_left analyze_char before []))
      as [(p & k0 & m & q & -> & Ek0 & _ & ->)|[_ ->]].
    - exists k0. split; [|exact Ek0]. rewrite map_app. apply in_or_app.
      right. now left.
    - exists k. split; [|exact Ekk]. rewrite map_app. apply in_or_app.
      right. now left. }
  destruct K0 as (k0 & Hk0 & Ek0). rewrite <- Keys in Hk0.
  apply in_map_iff in Hk0. destruct Hk0 as ([k0' m] & Ek & Hm).
  simpl in Ek. subst k0'.
  assert (Hlt : m < n).
  { rewrite Forall_forall in Hpre. apply (Hpre (k0, m)).
    rewrite Epre. apply in_or_app. now left. }
  assert (Gk : bucket_size pdf k = m).
  { rewrite (bucket_size_get self), analyze_stream, Es, Ecf.
    apply (CounterOrder.get_In_eq _ k0); [exact D| |exact Ek0].
    rewrite Ecf'. apply in_or_app. now left. }
  assert (Gb : bucket_size pdf b = n).
  { rewrite (bucket_size_get self), analyze_stream, Es, Ecf.
    apply CounterMore.get_In; [exact D| |exact Bb].
    rewrite Ecf', Ecut. apply in_elt. }
  rewrite Gk, Gb. exact Hlt.
Qed.

Lemma body_size_first_seen_witness :
  bucket_size annual_report_pdf (Py.round1 24) < bucket_size annual_report_pdf 12.
Proof.
  apply (body_size_first_seen init annual_report_pdf 12 []
           {| text := Py.lit "A"; size := Some 24; x0 := 0; x1 := 0 + 1;
              top := 0; bottom := 0 + 24 |}
           (typeset (Py.lit "nnual Report") (Some 24) 24 (0 + 1) 0
            ++ typeset (Py.lit "Revenue grew in every quarter.")
                 (Some 12) 12 0 30));
    try (vm_compute; reflexivity).
  repeat constructor.
Defined.

(** ** The text and the dominant size of a line *)

Module CountAllFacts.
Import Py.

Lemma fold_incr_get l :
  forall c k,
    get (fold_left (fun c k => incr k c) l c) k
    = (get c k + length (filter (fun x => (x =? k)%float) l))%nat.
Proof.
  induction l as [|x r IH]; intros c k; simpl; [lia|].
  rewrite IH, CounterFacts.get_incr. destruct (x =? k); simpl; lia.
Qed.

Lemma fold_incr_distinct l :
  forall c, distinct_keys c ->
            distinct_keys (fold_left (fun c k => incr k c) l c).
Proof.
  induction l as [|x r IH]; intros c H; simpl; [exact H|].
  now apply IH, CounterMore.incr_distinct.
Qed.

Lemma fold_incr_keys l :
  forall c e,
    In e (fold_left (fun c k => incr k c) l c) ->
    In (fst e) (map fst c) \/ In (fst e) l.
Proof.
  induction l as [|x r IH]; intros c e H; simpl in H.
  - left. now apply in_map.
  - destruct (IH _ _ H) as [Hk|Hk]; [|right; now right].
    destruct (CounterMore.incr_keys x c)
      as [(pre & k0 & n & post & -> & _ & _ & E)|[_ E]]; rewrite E in Hk.
    + left. rewrite !map_app in *. exact Hk.
    + rewrite map_app in Hk. apply in_app_or in Hk.
      destruct Hk as [Hk|[Hk|[]]]; [now left|]. right. now left.
Qed.

(** The most common element of a non-empty list is one of its elements, and
    no value has more elements equal to it. *)
Lemma most_common_mode l s n :
  most_common1 (count_all l) = [(s, n)] ->
  In s l
  /\ (forall k, length (filter (fun x => x =? k) l) <= n)
  /\ ((s =? s) = true -> length (filter (fun x => x =? s) l) = n).
Proof.
  intros E. destruct (CounterMore.most_common1_max _ _ _ E) as [Hin Hmax].
  unfold count_all in *. split; [|split].
  - destruct (fold_incr_keys _ _ _ Hin) as [[]|H]. exact H.
  - intros k. specialize (Hmax k). now rewrite fold_incr_get in Hmax.
  - intros Hs.
    rewrite <- (CounterMore.get_In _ s n (fold_incr_distinct l [] I) Hin Hs).
    now rewrite fold_incr_get.
Qed.
End CountAllFacts.

Lemma size_count_sizes line k :
  size_count line k
  = length (filter (fun x => x =? k) (map get_size (filter has_size line))).
Proof.
  unfold size_count. induction line as [|c r IH]; simpl; [reflexivity|].
  destruct (has_size c); simpl; [|exact IH].
  destruct (get_size c =? k); simpl; now rewrite IH.
Qed.

Lemma size_count_perm l l' k :
  Permutation l l' -> size_count l k = size_count l' k.
Proof. apply filter_length_perm. Qed.

(** X8. The text of a line is the concatenation of the texts of its
    characters taken in an order in which no [x0] is strictly below the one
    before it; for a line that is in such an order already, it is the
    concatenation of the texts in the order of the line. *)
Theorem process_line_text :
  (forall line,
      exists ordered,
        Permutation ordered line
        /\ Sorted (fun a b => (x0 b <? x0 a) = false) ordered
        /\ fst (_process_line line) = concat (map text ordered))
  /\ (forall line,
         Sorted (fun a b => (x0 b <? x0 a) = false) line ->
         fst (_process_line line) = concat (map text line)).
Proof.
  assert (G : forall line,
             fst (_process_line line) = concat (map text (sort_by_x0 line))).
  { intros [|c q]; reflexivity. }
  split.
  - intros line. exists (sort_by_x0 line). split; [|split].
    + apply SortFacts.sorted_perm.
    + apply (SortFacts.sorted_Sorted PrimFloat.ltb x0).
      exact FloatFacts.ltb_asym.
    + apply G.
  - intros line H. rewrite G. unfold sort_by_x0.
    now rewrite (SortFacts.sorted_fixed PrimFloat.ltb x0 line H).
Qed.

Lemma process_line_text_witness :
  fst (_process_line (typeset (Py.lit "Hi") (Some 12) 12 0 0))
  = concat (map text (typeset (Py.lit "Hi") (Some 12) 12 0 0)).
Proof.
  apply (proj2 process_line_text). repeat constructor.
Defined.

(** X9. The dominant size of a line that has a sized character is the size
    of one of its sized characters, and, when it is a number, no size is the
    size of more characters of the line. A line without sized character has
    the dominant size 0.0. *)
Theorem process_line_dominant_size :
  (forall line,
      Exists (fun c => has_size c = true) line ->
      exists c,
        In c line /\ has_size c = true
        /\ snd (_process_line line) = get_size c
        /\ (PrimFloat.is_nan (get_size c) = false ->
            forall k, size_count line k <= size_count line (get_size c)))
  /\ (forall line,
         Forall (fun c => has_size c = false) line ->
         snd (_process_line line) = 0).
Proof.
  split; [|exact process_line_unsized].
  intros line Hex.
  assert (P : Permutation (sort_by_x0 line) line)
    by apply SortFacts.sorted_perm.
  destruct line as [|c0 q]; [inversion Hex|].
  unfold _process_line. cbn [snd].
  set (sl := sort_by_x0 (c0 :: q)) in *.
  set (sizes := map get_size (filter has_size sl)).
  assert (Hne : sizes <> []).
  { apply Exists_exists in Hex. destruct Hex as (c & Hc & Hs).
    assert (Hin : In c (filter has_size sl)).
    { apply filter_In. split; [|exact Hs].
      eapply Permutation_in; [symmetry; exact P|exact Hc]. }
    unfold sizes. destruct (filter has_size sl); [contradiction|discriminate]. }
  destruct sizes as [|f l] eqn:Es; [congruence|]. rewrite <- Es.
  destruct (most_common1_count_all sizes) as (s & n & E);
    [now rewrite Es|].
  rewrite E.
  destruct (CountAllFacts.most_common_mode _ _ _ E) as (Hin & Hmax & Hn).
  unfold sizes in Hin. apply in_map_iff in Hin.
  destruct Hin as (c & Ec & Hc). apply filter_In in Hc.
  destruct Hc as [Hc Hs]. exists c. split; [|split; [|split]].
  - eapply Permutation_in; [exact P|exact Hc].
  - exact Hs.
  - now symmetry.
  - rewrite Ec. intros Hnan k.
    rewrite !(size_count_perm _ _ _ (Permutation_sym P)), !size_count_sizes.
    fold sizes. rewrite Hn; [apply Hmax|].
    unfold PrimFloat.is_nan in Hnan. now apply negb_false_iff in Hnan.
Qed.

Lemma process_line_dominant_size_witness :
  exists c,
    In c (typeset (Py.lit "Hi") (Some 12) 12 0 0) /\ has_size c = true
    /\ snd (_process_line (typeset (Py.lit "Hi") (Some 12) 12 0 0))
       = get_size c
    /\ (PrimFloat.is_nan (get_size c) = false ->
        forall k,
          size_count (typeset (Py.lit "Hi") (Some 12) 12 0 0) k
          <= size_count (typeset (Py.lit "Hi") (Some 12) 12 0 0) (get_size c)).
Proof.
  apply (proj1 process_line_dominant_size). left. reflexivity.
Defined.

(** ** Bounding boxes *)

Module MinMaxFacts.

Lemma min2_spec a b :
  PrimFloat.is_nan a = false -> PrimFloat.is_nan b = false ->
  (Py.min2 a b <=? a) = true /\ (Py.min2 a b <=? b) = true
  /\ (Py.min2 a b = a \/ Py.min2 a b = b).
Proof.
  intros Ha Hb. unfold Py.min2. destruct (b <? a) eqn:E.
  - repeat split; [now apply FloatMore.ltb_leb|now apply FloatMore.leb_refl|now right].
  - repeat split; [now apply FloatMore.leb_refl|now apply FloatFacts.not_ltb_leb|now left].
Qed.

Lemma max2_spec a b :
  PrimFloat.is_nan a = false -> PrimFloat.is_nan b = false ->
  (a <=? Py.max2 a b) = true /\ (b <=? Py.max2 a b) = true
  /\ (Py.max2 a b = a \/ Py.max2 a b = b).
Proof.
  intros Ha Hb. unfold Py.max2. destruct (a <? b) eqn:E.
  - repeat split; [now apply FloatMore.ltb_leb|now apply FloatMore.leb_refl|now right].
  - repeat split; [now apply FloatMore.leb_refl|now apply FloatFacts.not_ltb_leb|now left].
Qed.

(** On numbers, [min] returns an element that is below every element. *)
Lemma min_spec l m :
  Forall (fun x => PrimFloat.is_nan x = false) l ->
  Py.min l = Some m ->
  In m l /\ Forall (fun x => (m <=? x) = true) l.
Proof.
  destruct l as [|x r]; [discriminate|]. simpl. intros H E. injection E as <-.
  revert x H. induction r as [|y r IH]; intros x H.
  - simpl. split; [now left|]. constructor; [|constructor].
    inversion H; subst. now apply FloatMore.leb_refl.
  - inversion H as [|? ? Hx Hr]; subst. inversion Hr as [|? ? Hy Hr']; subst.
    destruct (min2_spec x y Hx Hy) as (L1 & L2 & Hor). simpl.
    assert (Hm : PrimFloat.is_nan (Py.min2 x y) = false)
      by (destruct Hor as [-> | ->]; assumption).
    destruct (IH (Py.min2 x y)) as [Hin Hall]; [now constructor|].
    inversion Hall as [|? ? Hhd Htl]; subst. split.
    + destruct Hin as [E|Hin]; [|right; now right].
      rewrite <- E. destruct Hor as [-> | ->]; [now left|right; now left].
    + constructor; [eapply FloatFacts.leb_trans; eassumption|].
      constructor; [eapply FloatFacts.leb_trans; eassumption|exact Htl].
Qed.

(** On numbers, [max] returns an element that is above every element. *)
Lemma max_spec l m :
  Forall (fun x => PrimFloat.is_nan x = false) l ->
  Py.max l = Some m ->
  In m l /\ Forall (fun x => (x <=? m) = true) l.
Proof.
  destruct l as [|x r]; [discriminate|]. simpl. intros H E. injection E as <-.
  revert x H. induction r as [|y r IH]; intros x H.
  - simpl. split; [now left|]. constructor; [|constructor].
    inversion H; subst. now apply FloatMore.leb_refl.
  - inversion H as [|? ? Hx Hr]; subst. inversion Hr as [|? ? Hy Hr']; subst.
    destruct (max2_spec x y Hx Hy) as (L1 & L2 & Hor). simpl.
    assert (Hm : PrimFloat.is_nan (Py.max2 x y) = false)
      by (destruct Hor as [-> | ->]; assumption).
    destruct (IH (Py.max2 x y)) as [Hin Hall]; [now constructor|].
    inversion Hall as [|? ? Hhd Htl]; subst. split.
    + destruct Hin as [E|Hin]; [|right; now right].
      rewrite <- E. destruct Hor as [-> | ->]; [now left|right; now left].
    + constructor; [eapply FloatFacts.leb_trans; eassumption|].
      constructor; [eapply FloatFacts.leb_trans; eassumption|exact Htl].
Qed.
End MinMaxFacts.

(** X10. When the coordinates are numbers, the bounding box computed for a
    block contains every character of the block, and each of its four
    sides is a coordinate of one of these characters. *)
Theorem block_bbox_bounds :
  forall block bx0 btop bx1 bbottom,
    Forall placed (concat block) ->
    block_bbox block = Some (bx0, btop, bx1, bbottom) ->
    Forall (inside (bx0, btop, bx1, bbottom)) (concat block)
    /\ In bx0 (map x0 (concat block)) /\ In btop (map top (concat block))
    /\ In bx1 (map x1 (concat block))
    /\ In bbottom (map bottom (concat block)).
Proof.
  intros block bx0 btop bx1 bbottom Hp E. unfold block_bbox in E.
  set (cs := concat block) in *.
  assert (N : forall f : char -> float,
             (forall c, placed c -> PrimFloat.is_nan (f c) = false) ->
             Forall (fun x => PrimFloat.is_nan x = false) (map f cs)).
  { intros f Hf. rewrite Forall_map. eapply Forall_impl; [|exact Hp].
    intros c Hc. now apply Hf. }
  destruct (Py.min (map x0 cs)) as [a|] eqn:E1; [|discriminate].
  destruct (Py.max (map x1 cs)) as [b|] eqn:E2; [|discriminate].
  destruct (Py.min (map top cs)) as [t|] eqn:E3; [|discriminate].
  destruct (Py.max (map bottom cs)) as [d|] eqn:E4; [|discriminate].
  injection E as -> -> -> ->.
  apply MinMaxFacts.min_spec in E1; [|apply N; unfold placed; tauto].
  apply MinMaxFacts.max_spec in E2; [|apply N; unfold placed; tauto].
  apply MinMaxFacts.min_spec in E3; [|apply N; unfold placed; tauto].
  apply MinMaxFacts.max_spec in E4; [|apply N; unfold placed; tauto].
  destruct E1 as [I1 F1], E2 as [I2 F2], E3 as [I3 F3], E4 as [I4 F4].
  repeat split; try assumption.
  rewrite Forall_map in F1, F2, F3, F4. rewrite Forall_forall in *.
  intros c Hc. unfold inside. auto.
Qed.

Lemma block_bbox_bounds_witness :
  Forall (inside (0, 0, 0 + 1 + 1, 0 + 12))
         (concat [typeset (Py.lit "Hi") (Some 12) 12 0 0]).
Proof.
  apply (block_bbox_bounds [typeset (Py.lit "Hi") (Some 12) 12 0 0]
           0 0 (0 + 1 + 1) (0 + 12)).
  - repeat constructor.
  - vm_compute. reflexivity.
Defined.

(** ** The reading order of a page *)

Lemma lt_pair_asym a b : Py.lt_pair a b = true -> Py.lt_pair b a = false.
Proof.
  unfold Py.lt_pair. rewrite (FloatFacts.eqb_sym (fst b)), (FloatFacts.eqb_sym (snd b)).
  destruct (fst a =? fst b).
  - destruct (snd a =? snd b); [discriminate|apply FloatFacts.ltb_asym].
  - apply FloatFacts.ltb_asym.
Qed.

Lemma add_blocks_elements bs :
  Forall (fun b => Forall (fun l : Line => l <> []) b) bs ->
  forall els, fold_opt add_block bs els = Some (els ++ block_elements bs).
Proof.
  induction 1 as [|b r Hb _ IH]; intros els.
  - simpl. now rewrite app_nil_r.
  - rewrite fold_opt_cons. unfold add_block, block_elements. simpl flat_map.
    destruct b as [|l q].
    + simpl. apply IH.
    + destruct (block_bbox_some (l :: q)) as [box E];
        [discriminate|exact Hb|].
      rewrite E, IH, <- app_assoc. reflexivity.
Qed.

Lemma add_markdown_filter self els :
  forall acc,
    fold_left (add_markdown self) els acc
    = acc ++ filter nonblank (map (render self) els).
Proof.
  induction els as [|e r IH]; intros acc; simpl; [now rewrite app_nil_r|].
  rewrite IH. unfold nonblank at 2.
  destruct e; simpl;
    match goal with
    | |- context [if ?b then _ else _] => destruct b
    end; now rewrite <- ?app_assoc.
Qed.

(** X11. A page is rendered without error: its blocks of text, each with its
    bounding box, and its tables are put in reading order, none having a
    key [(top, x0)] strictly below the key of the element before it, and
    the Markdown of the page is made of the Markdown of the elements that is
    not blank, in that order, joined by blank lines. *)
Theorem page_reading_order :
  forall self pg n,
  exists blocks elements,
    page_blocks pg = Some blocks
    /\ length (block_elements blocks) = length blocks
    /\ Permutation elements
         (block_elements blocks
          ++ map (fun t => table_element t (bbox t)) (find_tables pg))
    /\ Sorted reads_before elements
    /\ _process_page self pg n
       = Some (Py.join (Py.newline ++ Py.newline)
                 (filter nonblank (map (render self) elements))).
Proof.
  intros self pg n.
  assert (B : exists blocks,
             page_blocks pg = Some blocks
             /\ Forall (fun b => b <> [] /\ Forall (fun l : Line => l <> []) b)
                       blocks).
  { unfold page_blocks. destruct (chars pg) as [|c cs].
    - exists []. split; [reflexivity|constructor].
    - rewrite group_lines_refines. eexists. split; [reflexivity|].
      apply Forall_forall. intros b Hb. split.
      + pose proof (split_blocks_not_nil
                      (1.5 * spec_median
                               (dominant_sizes
                                  (_group_chars_into_lines (c :: cs))))
                      (filter nonempty (_group_chars_into_lines (c :: cs))))
          as H.
        rewrite Forall_forall in H. now apply H.
      + pose proof (filter_nonempty_not_nil (_group_chars_into_lines (c :: cs)))
          as H.
        rewrite <- (split_blocks_concat
                      (1.5 * spec_median
                               (dominant_sizes
                                  (_group_chars_into_lines (c :: cs))))) in H.
        rewrite Forall_concat in H. rewrite Forall_forall in H. now apply H. }
  destruct B as (blocks & Eb & Hb).
  set (all := block_elements blocks
              ++ map (fun t => table_element t (bbox t)) (find_tables pg)).
  exists blocks, (Py.sorted Py.lt_pair reading_key all).
  split; [exact Eb|]. split; [|split; [|split]].
  - clear Eb. induction Hb as [|b r [Hne Hl] _ IH]; [reflexivity|].
    unfold block_elements in *. simpl.
    destruct (block_bbox_some b Hne Hl) as [box ->]. simpl. now rewrite IH.
  - apply SortFacts.sorted_perm.
  - apply (SortFacts.sorted_Sorted Py.lt_pair reading_key). exact lt_pair_asym.
  - assert (T : (match chars pg with
                 | [] => Some []
                 | _ :: _ =>
                     match _group_lines_into_blocks
                             (_group_chars_into_lines (chars pg)) with
                     | Some text_blocks => fold_opt add_block text_blocks []
                     | None => None
                     end
                 end) = Some (block_elements blocks)).
    { unfold page_blocks in Eb. destruct (chars pg) as [|c cs].
      - now injection Eb as <-.
      - rewrite Eb. rewrite add_blocks_elements; [reflexivity|].
        eapply Forall_impl; [|exact Hb]. now intros b []. }
    unfold _process_page. rewrite T. fold all.
    now rewrite add_markdown_filter.
Qed.

(** ** The order of the lines of a page *)

Lemma StronglySorted_app_inv {A} (R : A -> A -> Prop) l1 l2 :
  StronglySorted R (l1 ++ l2) ->
  StronglySorted R l1 /\ StronglySorted R l2
  /\ forall a b, In a l1 -> In b l2 -> R a b.
Proof.
  induction l1 as [|x l1 IH]; simpl; intros H.
  - repeat split; [constructor|exact H|contradiction].
  - inversion H as [|? ? Hs Hf]; subst.
    destruct (IH Hs) as (H1 & H2 & H3). apply Forall_app in Hf.
    destruct Hf as [Hf1 Hf2]. repeat split; [now constructor|exact H2|].
    intros a b [<-|Ha] Hb; [|now apply H3].
    rewrite Forall_forall in Hf2. now apply Hf2.
Qed.

Lemma StronglySorted_concat {A} (R : A -> A -> Prop) groups :
  StronglySorted R (concat groups) ->
  StronglySorted (fun g1 g2 => forall a b, In a g1 -> In b g2 -> R a b) groups.
Proof.
  induction groups as [|g r IH]; simpl; intros H; [constructor|].
  destruct (StronglySorted_app_inv R _ _ H) as (_ & H2 & H3).
  constructor; [now apply IH|]. apply Forall_forall. intros g' Hg' a b Ha Hb.
  apply H3; [exact Ha|]. apply in_concat. now exists g'.
Qed.

Lemma sorted_by_top cs :
  Forall (fun c => PrimFloat.is_nan (top c) = false) cs ->
  StronglySorted (fun a b => (top a <=? top b) = true)
    (Py.sorted Py.lt_pair (fun c => (top c, x0 c)) cs).
Proof.
  intros Hn.
  pose proof (SortFacts.sorted_Sorted Py.lt_pair (fun c => (top c, x0 c))
                lt_pair_asym cs) as S.
  pose proof (SortFacts.sorted_Forall Py.lt_pair (fun c => (top c, x0 c))
                _ cs Hn) as N.
  apply Sorted_StronglySorted.
  - intros a b c. apply FloatFacts.leb_trans.
  - revert N. induction S as [|a r Sr IH Hh]; intros N; [constructor|].
    inversion N as [|? ? Na Nr]; subst. constructor; [now apply IH|].
    destruct Hh as [|b r' Hab]; constructor.
    inversion Nr as [|? ? Nb _]; subst.
    unfold Py.not_after, Py.lt_pair in Hab. simpl in Hab.
    destruct (top b =? top a) eqn:E.
    + apply FloatMore.eqb_leb. now rewrite FloatFacts.eqb_sym.
    + now apply FloatFacts.not_ltb_leb.
Qed.

(** X12. When the tops of the characters are numbers, the lines come out
    from the top of the page down: no character of a line has its top above
    the top of a character of an earlier line. *)
Theorem lines_top_to_bottom :
  forall cs,
    Forall (fun c => PrimFloat.is_nan (top c) = false) cs ->
    StronglySorted not_above (_group_chars_into_lines cs).
Proof.
  intros cs Hn. destruct (group_chars_structure cs) as (groups & -> & E & _).
  pose proof (sorted_by_top cs Hn) as S. rewrite <- E in S.
  apply StronglySorted_concat in S. clear E.
  induction S as [|g r Sr IH Hg]; simpl; [constructor|].
  constructor; [exact IH|].
  rewrite Forall_map. eapply Forall_impl; [|exact Hg].
  intros g' H a b Ha Hb. apply H.
  - exact (Permutation_in _ (SortFacts.sorted_perm PrimFloat.ltb x0 g) Ha).
  - exact (Permutation_in _ (SortFacts.sorted_perm PrimFloat.ltb x0 g') Hb).
Qed.

Lemma lines_top_to_bottom_witness :
  StronglySorted not_above
    (_group_chars_into_lines
       (typeset (Py.lit "b") (Some 12) 12 0 30
        ++ typeset (Py.lit "a") (Some 12) 12 0 0)).
Proof.
  apply lines_top_to_bottom. repeat constructor.
Defined.

(** ** Tables with rows that are empty *)

Lemma flat_map_filter_rows (rest : Grid) :
  flat_map (fun row : list (option Py.str) =>
              match row with
              | [] => []
              | _ :: _ => [row_md row]
              end) rest
  = map row_md (filter nonempty rest).
Proof.
  induction rest as [|row r IH]; simpl; [reflexivity|].
  destruct row; simpl; now rewrite IH.
Qed.

(** X13. For a grid of two rows or more, a header row without cells gives
    the empty string, whatever the other rows hold; otherwise the table has
    the header line, the separator line and one line for each data row that
    has cells, the rows without cells being skipped. *)
Theorem table_rendering_any_grid :
  (forall self rest,
      rest <> [] ->
      _convert_table_to_markdown self (table_of ([] :: rest)) = [])
  /\ (forall self headers rest,
         headers <> [] -> rest <> [] ->
         _convert_table_to_markdown self (table_of (headers :: rest))
         = Py.join Py.newline
             (row_md headers :: separator_md headers
              :: map row_md (filter nonempty rest))).
Proof.
  split.
  - intros self rest H. destruct rest; [congruence|reflexivity].
  - intros self headers rest Hh Hr.
    destruct rest as [|d r]; [congruence|]. destruct headers; [congruence|].
    unfold _convert_table_to_markdown, table_of, extract, table_lines.
    cbn [length Nat.ltb Nat.leb]. now rewrite flat_map_filter_rows.
Qed.

Lemma table_rendering_any_grid_witness :
  _convert_table_to_markdown init
    (table_of ([] :: [[Some (Py.lit "1")]])) = []
  /\ _convert_table_to_markdown init
       (table_of ([Some (Py.lit "A")] :: [[]; [Some (Py.lit "1")]]))
     = Py.join Py.newline
         [Py.lit "| A |"; Py.lit "| --- |"; Py.lit "| 1 |"].
Proof.
  split.
  - apply (proj1 table_rendering_any_grid). discriminate.
  - rewrite (proj2 table_rendering_any_grid); [reflexivity| |]; discriminate.
Defined.

(** ** The lines of a rendered block *)

Module TightFacts.
Import Py.

Lemma rstrip_last s :
  s <> [] -> isspace (last s 32%N) = false -> rstrip s = s.
Proof.
  induction s as [|x r IH]; intros H L; [congruence|].
  destruct r as [|y r].
  - simpl in *. now rewrite L.
  - change (rstrip (x :: y :: r)) with
      (match rstrip (y :: r) with
       | [] => if isspace x then [] else [x]
       | z :: l => x :: z :: l
       end).
    rewrite IH; [reflexivity|discriminate|exact L].
Qed.

Lemma rstrip_fixed_last s :
  rstrip s = s -> s <> [] -> isspace (last s 32%N) = false.
Proof.
  induction s as [|x r IH]; intros E H; [congruence|].
  destruct r as [|y r].
  - simpl in *. destruct (isspace x); [discriminate|reflexivity].
  - change (rstrip (x :: y :: r)) with
      (match rstrip (y :: r) with
       | [] => if isspace x then [] else [x]
       | z :: l => x :: z :: l
       end) in E.
    change (last (x :: y :: r) 32%N) with (last (y :: r) 32%N).
    apply IH; [|discriminate].
    destruct (rstrip (y :: r)) as [|z l].
    + destruct (isspace x); discriminate.
    + congruence.
Qed.

Lemma tight_normalized s : tight s -> normalized s.
Proof.
  intros (H0 & H1 & H2 & H3 & H4). repeat split; try assumption.
  unfold strip. destruct s as [|x r]; [congruence|].
  simpl in H1. simpl lstrip. rewrite H1. now apply rstrip_last.
Qed.

Lemma normalized_tight s : normalized s -> s <> [] -> tight s.
Proof.
  intros (H3 & H4 & E) H0.
  assert (L : lstrip s = s).
  { rewrite <- E. unfold strip.
    apply StrFacts.lstrip_rstrip, StrFacts.lstrip_idem. }
  assert (R : rstrip s = s).
  { rewrite <- E at 1. unfold strip. rewrite StrFacts.rstrip_idem. exact E. }
  repeat split; try assumption.
  - destruct s as [|x r]; [congruence|]. simpl.
    now apply (StrFacts.lstrip_fixed_head x r).
  - now apply rstrip_fixed_last.
Qed.

Lemma Sorted_app {A} (R : A -> A -> Prop) d l1 l2 :
  Sorted R l1 -> Sorted R l2 -> l1 <> [] -> l2 <> [] ->
  R (last l1 d) (hd d l2) ->
  Sorted R (l1 ++ l2).
Proof.
  intros S1 S2 H1 H2 HR. induction S1 as [|x r Sr IH Hh]; [congruence|].
  destruct r as [|y r].
  - simpl in *. constructor; [exact S2|].
    destruct l2; [congruence|]. now constructor.
  - simpl. constructor.
    + apply IH; [discriminate|exact HR].
    + inversion Hh; subst. now constructor.
Qed.

Lemma last_app_ne {A} (l1 l2 : list A) d :
  l2 <> [] -> last (l1 ++ l2) d = last l2 d.
Proof.
  intros H. induction l1 as [|x l1 IH]; [reflexivity|].
  simpl. rewrite IH. destruct (l1 ++ l2) eqn:E; [|reflexivity].
  apply app_eq_nil in E. destruct E; congruence.
Qed.

(** Two tight texts with a space between them make a tight text. *)
Lemma tight_join t u : tight t -> tight u -> tight (t ++ lit " " ++ u).
Proof.
  intros (T0 & T1 & T2 & T3 & T4) (U0 & U1 & U2 & U3 & U4).
  change (lit " " ++ u) with (32%N :: u).
  split; [|split; [|split; [|split]]].
  - destruct t; [congruence|discriminate].
  - destruct t; [congruence|exact T1].
  - rewrite last_app_ne by discriminate.
    destruct u as [|y u]; [congruence|exact U2].
  - apply Forall_app. split; [exact T3|]. now constructor.
  - apply (Sorted_app _ 32%N); try assumption; try discriminate.
    + constructor; [exact U4|]. destruct u as [|y u]; [congruence|].
      constructor. unfold not_both_space. simpl in U1. rewrite U1.
      apply andb_false_r.
    + unfold not_both_space. now rewrite T2.
Qed.

Lemma tight_join_list ts :
  ts <> [] -> Forall tight ts -> tight (join (lit " ") ts).
Proof.
  intros H F. induction F as [|t r Ht Hr IH]; [congruence|].
  destruct r as [|u r]; [exact Ht|].
  change (join (lit " ") (t :: u :: r))
    with (t ++ lit " " ++ join (lit " ") (u :: r)).
  apply tight_join; [exact Ht|]. apply IH. discriminate.
Qed.

(** A tight text after some '#' and a space is a tight text. *)
Lemma tight_heading d t : tight t -> tight (hashes (S d) ++ lit " " ++ t).
Proof.
  intros Ht.
  assert (Hh : tight (hashes (S d))).
  { induction d as [|d IH].
    - repeat split; try discriminate; try reflexivity; repeat constructor.
      discriminate.
    - destruct IH as (H0 & H1 & H2 & H3 & H4).
      change (hashes (S (S d))) with (35%N :: hashes (S d)).
      repeat split; try discriminate; try reflexivity.
      + exact H2.
      + constructor; [discriminate|exact H3].
      + constructor; [exact H4|]. now constructor. }
  now apply tight_join.
Qed.
End TightFacts.

Lemma line_md_tight self line : Forall tight (line_md self line).
Proof.
  destruct line as [|c q]; [constructor|]. unfold line_md.
  destruct (_process_line (c :: q)) as [line_text line_size].
  destruct (Py.truthy_str (_clean_text line_text)) eqn:E; [|constructor].
  assert (T : tight (_clean_text line_text)).
  { apply TightFacts.normalized_tight.
    - apply clean_text_normalized.
    - intros N. now rewrite N in E. }
  destruct (_is_heading self line_size (_clean_text line_text));
    (constructor; [|constructor]); [|exact T].
  destruct (format_depth self (_clean_text line_text) line_size)
    as (d & Hd & -> & _).
  destruct d as [|d]; [lia|]. now apply TightFacts.tight_heading.
Qed.

Lemma para_loop_tight items :
  Forall tight items ->
  forall st,
    Forall tight (final_block_content st) ->
    Forall tight (current_paragraph st) ->
    Forall tight (flush (fold_left para_step items st)).
Proof.
  assert (F : forall st,
             Forall tight (final_block_content st) ->
             Forall tight (current_paragraph st) ->
             Forall tight (flush st)).
  { intros st H1 H2. unfold flush.
    destruct (current_paragraph st) as [|t r] eqn:E; [exact H1|].
    apply Forall_app. split; [exact H1|]. constructor; [|constructor].
    rewrite <- E in *.
    apply TightFacts.tight_join_list; [now rewrite E|exact H2]. }
  induction 1 as [|it r Hit _ IH]; intros st H1 H2; simpl; [now apply F|].
  apply IH; unfold para_step; destruct (Py.startswith it (Py.lit "#")); simpl.
  - apply Forall_app. split; [now apply F|]. constructor; [exact Hit|constructor].
  - exact H1.
  - constructor.
  - apply Forall_app. split; [exact H2|]. constructor; [exact Hit|constructor].
Qed.

(** X14. The Markdown of a block of text is made of lines joined by single
    line breaks, each of them non-empty and in normal form: it starts and
    ends with a visible character and its whitespace is made of single
    spaces, so that it holds no line break. *)
Theorem process_text_block_lines :
  forall self block,
  exists items,
    _process_text_block self block = Py.join Py.newline items
    /\ Forall (fun it => it <> [] /\ normalized it /\ ~ In 10%N it) items.
Proof.
  intros self block. destruct block as [|l r]; [exists []; split; constructor|].
  unfold _process_text_block. eexists. split; [reflexivity|].
  eapply Forall_impl;
    [|apply para_loop_tight;
       [apply Forall_flat_map, Forall_forall; intros x _; apply line_md_tight
       |constructor|constructor]].
  intros it Ht. split; [apply Ht|]. split; [now apply TightFacts.tight_normalized|].
  destruct Ht as (_ & _ & _ & H & _). intros Hin.
  rewrite Forall_forall in H. specialize (H _ Hin eq_refl). discriminate.
Qed.

(** X15. When no line of a block has a normalized text that starts with
    '#', the lines of the block that are not headings are gathered, in
    order, into paragraphs joined by single spaces, a heading ends the
    paragraph before it and stands on a line of its own, and these lines are
    joined by line breaks. *)
Theorem block_rendering_without_hash_text :
  forall self block,
    Forall (fun line =>
              Py.startswith (_clean_text (fst (_process_line line)))
                (Py.lit "#") = false) block ->
    _process_text_block self block
    = Py.join Py.newline (paragraphs [] (flat_map (line_item self) block)).
Proof.
  intros self block H. apply process_text_block_paragraphs.
  apply Forall_flat_map. eapply Forall_impl; [|exact H].
  intros [|c q] Hl; [constructor|]. unfold line_item.
  destruct (Py.truthy_str _); [|constructor].
  destruct (_is_heading _ _ _); (constructor; [|constructor]); simpl.
  - discriminate.
  - intros _. exact Hl.
Qed.

Lemma block_rendering_without_hash_text_witness :
  _process_text_block (_analyze_document_structure init annual_report_pdf)
    [typeset (Py.lit "Annual Report") (Some 24) 24 0 0;
     typeset (Py.lit "Revenue grew") (Some 12) 12 0 30;
     typeset (Py.lit "in every quarter.") (Some 12) 12 0 44]
  = Py.join Py.newline
      [Py.lit "# Annual Report"; Py.lit "Revenue grew in every quarter."].
Proof.
  rewrite block_rendering_without_hash_text.
  - vm_compute. reflexivity.
  - repeat constructor.
Defined.

(** ** The simple conversion *)

Module SimpleFacts.
Import Py.

Lemma replace_newlines_none s : ~ In 10%N (replace_newlines s).
Proof.
  unfold replace_newlines. intros H. apply in_map_iff in H.
  destruct H as (c & E & _). destruct (c =? 10)%N eqn:Ec; [discriminate|].
  apply N.eqb_neq in Ec. congruence.
Qed.

Lemma replace_newlines_isspace c :
  isspace (if (c =? 10)%N then 32%N else c) = isspace c.
Proof.
  destruct (c =? 10)%N eqn:E; [|reflexivity].
  apply N.eqb_eq in E. now subst.
Qed.

Lemma replace_newlines_lstrip s :
  lstrip (replace_newlines s) = replace_newlines (lstrip s).
Proof.
  induction s as [|c r IH]; [reflexivity|]. simpl.
  rewrite replace_newlines_isspace. destruct (isspace c); [exact IH|reflexivity].
Qed.

Lemma replace_newlines_rstrip s :
  rstrip (replace_newlines s) = replace_newlines (rstrip s).
Proof.
  induction s as [|c r IH]; [reflexivity|]. simpl.
  fold (replace_newlines r). rewrite IH, replace_newlines_isspace.
  destruct (rstrip r); simpl; [destruct (isspace c)|]; reflexivity.
Qed.

(** Replacing the line breaks of a stripped text leaves it stripped. *)
Lemma replace_newlines_strip s :
  strip (replace_newlines (strip s)) = replace_newlines (strip s).
Proof.
  unfold strip at 1.
  rewrite replace_newlines_lstrip, replace_newlines_rstrip.
  fold (strip (strip s)). now rewrite StrFacts.strip_idem.
Qed.

Lemma cons_head_split c s : ~ (c = 10%N /\ hd 0%N s = 10%N /\ s <> []) ->
  split_blank (c :: s) = cons_head c (split_blank s).
Proof.
  intros H. destruct s as [|d r]; [reflexivity|]. simpl.
  destruct ((c =? 10) && (d =? 10))%N eqn:E; [|reflexivity].
  exfalso. apply H. apply andb_true_iff in E. destruct E as [E1 E2].
  apply N.eqb_eq in E1, E2. subst. repeat split. discriminate.
Qed.

(** A text without line break is in one piece. *)
Lemma split_blank_one p : ~ In 10%N p -> split_blank p = [p].
Proof.
  induction p as [|c r IH]; intros H; [reflexivity|].
  rewrite cons_head_split, IH; [reflexivity| |].
  - intros Hr. apply H. now right.
  - intros (E & _). apply H. now left.
Qed.

(** The pieces of a text without line break, two line breaks and a text are
    the former and the pieces of the latter. *)
Lemma split_blank_app p u :
  ~ In 10%N p ->
  split_blank (p ++ 10%N :: 10%N :: u) = p :: split_blank u.
Proof.
  induction p as [|c r IH]; intros H; [reflexivity|].
  change ((c :: r) ++ 10%N :: 10%N :: u) with (c :: (r ++ 10%N :: 10%N :: u)).
  rewrite cons_head_split, IH; [reflexivity| |].
  - intros Hr. apply H. now right.
  - intros (E & _). apply H. now left.
Qed.

Lemma split_blank_join items :
  items <> [] -> Forall (fun it => ~ In 10%N it) items ->
  split_blank (join (newline ++ newline) items) = items.
Proof.
  intros H F. induction F as [|p r Hp Hr IH]; [congruence|].
  destruct r as [|q r]; [now apply split_blank_one|].
  change (join (newline ++ newline) (p :: q :: r))
    with (p ++ 10%N :: 10%N :: join (newline ++ newline) (q :: r)).
  rewrite split_blank_app by exact Hp. f_equal. apply IH. discriminate.
Qed.
End SimpleFacts.

Lemma simple_paragraph_item para :
  Forall (simple_item (replace_newlines (Py.strip para)))
         (simple_paragraph para).
Proof.
  unfold simple_paragraph.
  set (p := replace_newlines (Py.strip para)).
  assert (S : Py.strip p = p) by apply SimpleFacts.replace_newlines_strip.
  assert (Nl : ~ In 10%N p) by apply SimpleFacts.replace_newlines_none.
  destruct p as [|c r] eqn:E; [constructor|]. rewrite <- E in *.
  assert (Hne : p <> []) by (rewrite E; discriminate).
  destruct (length p <? 80)%nat eqn:L; simpl.
  - apply Nat.ltb_lt in L.
    destruct (Py.endswith p (Py.lit ".")) eqn:E1; simpl.
    + constructor; [|constructor]. repeat split; auto.
    + destruct (Py.endswith p (Py.lit ",")) eqn:E2; simpl;
        (constructor; [|constructor]); repeat split; auto.
  - apply Nat.ltb_ge in L. constructor; [|constructor].
    repeat split; auto.
Qed.

(** X16. The simple conversion joins its items with blank lines. Every item
    comes from a paragraph [p] that is not empty, is stripped and holds no
    line break: it is "## " followed by [p] when [p] is shorter than 80
    characters and ends neither with a period nor with a comma, and [p]
    itself otherwise. *)
Theorem simple_conversion_items :
  forall page_texts,
  exists items,
    to_markdown_simple page_texts = Py.join (Py.newline ++ Py.newline) items
    /\ Forall (fun item => exists p, simple_item p item) items.
Proof.
  intros page_texts. eexists. split; [reflexivity|].
  apply Forall_flat_map, Forall_forall. intros text _. unfold simple_page.
  destruct (Py.truthy_str (Py.strip text)); [|constructor].
  apply Forall_flat_map, Forall_forall. intros para _.
  eapply Forall_impl; [|apply simple_paragraph_item].
  intros item H. eexists. exact H.
Qed.

Lemma simple_item_no_newline p item : simple_item p item -> ~ In 10%N item.
Proof.
  intros (_ & _ & Hn & [(-> & _)|(-> & _)]); [|exact Hn].
  intros [E|[E|[E|H]]]; try discriminate. now apply Hn.
Qed.

(** X17. Pages whose text is blank give the empty string; otherwise, when
    there is an item, splitting the result of the simple conversion at the
    blank lines gives back its items: no item holds a line break. *)
Theorem simple_conversion_round_trip :
  (forall page_texts,
      Forall (fun text => Py.strip text = []) page_texts ->
      to_markdown_simple page_texts = [])
  /\ (forall page_texts,
         flat_map simple_page page_texts <> [] ->
         split_blank (to_markdown_simple page_texts)
         = flat_map simple_page page_texts).
Proof.
  split.
  - intros page_texts H. unfold to_markdown_simple.
    assert (E : flat_map simple_page page_texts = []).
    { induction H as [|t r Ht _ IH]; [reflexivity|]. simpl.
      unfold simple_page at 1. now rewrite Ht, IH. }
    now rewrite E.
  - intros page_texts H. unfold to_markdown_simple.
    apply SimpleFacts.split_blank_join; [exact H|].
    apply Forall_flat_map, Forall_forall. intros text _.
    unfold simple_page. destruct (Py.truthy_str (Py.strip text)); [|constructor].
    apply Forall_flat_map, Forall_forall. intros para _.
    eapply Forall_impl; [|apply simple_paragraph_item].
    intros item. apply simple_item_no_newline.
Qed.

Lemma simple_conversion_round_trip_witness :
  to_markdown_simple [Py.lit " "; []] = []
  /\ split_blank (to_markdown_simple [Py.lit "Title" ++ Py.newline ++ Py.newline ++ Py.lit "Some text."])
     = [Py.lit "## Title"; Py.lit "Some text."].
Proof.
  split.
  - apply (proj1 simple_conversion_round_trip). repeat constructor.
  - rewrite (proj2 simple_conversion_round_trip); [reflexivity|discriminate].
Defined.

(** ** Lines and chunks of a text *)

Module LineFacts.
Import Py.
Local Close Scope float_scope.

Lemma splitlines_no_break s :
  Forall (Forall (fun c => is_linebreak c = false)) (splitlines s).
Proof.
  assert (G : forall n s, length s <= n ->
             Forall (Forall (fun c => is_linebreak c = false)) (splitlines s)).
  { induction n as [|n IH]; intros [|c r] H; simpl in *; try constructor;
      try lia.
    destruct (is_linebreak c) eqn:E.
    - constructor; [constructor|].
      destruct r as [|d r']; [constructor|].
      destruct ((c =? 13) && (d =? 10))%N; apply IH; simpl in *; lia.
    - assert (Hr : Forall (Forall (fun c => is_linebreak c = false))
                          (splitlines r)) by (apply IH; lia).
      change (Forall (Forall (fun c0 => is_linebreak c0 = false))
                (cons_line c (splitlines r))).
      destruct (splitlines r) as [|l ls]; simpl.
      + repeat constructor. exact E.
      + inversion Hr; subst. constructor; [now constructor|assumption]. }
  now apply (G (length s)).
Qed.

(** A text that is not empty and has no line end is one line. *)
Lemma splitlines_one s :
  s <> [] -> Forall (fun c => is_linebreak c = false) s -> splitlines s = [s].
Proof.
  intros H F. induction F as [|c r Hc Hr IH]; [congruence|].
  simpl. rewrite Hc. destruct r as [|d r']; [reflexivity|].
  rewrite IH by discriminate. reflexivity.
Qed.

Lemma join_no_break ls :
  Forall (Forall (fun c => is_linebreak c = false)) ls ->
  Forall (fun c => is_linebreak c = false) (join (lit " ") ls).
Proof.
  induction 1 as [|l r Hl Hr IH]; [constructor|].
  destruct r as [|l' r]; [exact Hl|].
  change (join (lit " ") (l :: l' :: r))
    with (l ++ 32%N :: join (lit " ") (l' :: r)).
  apply Forall_app. split; [exact Hl|]. constructor; [reflexivity|exact IH].
Qed.

Lemma join_app (sep : str) l1 l2 :
  l1 <> [] -> l2 <> [] ->
  join sep (l1 ++ l2) = join sep l1 ++ sep ++ join sep l2.
Proof.
  intros H1 H2. induction l1 as [|x l1 IH]; [congruence|].
  destruct l1 as [|y l1].
  - simpl. destruct l2; [congruence|reflexivity].
  - change (join sep ((x :: y :: l1) ++ l2))
      with (x ++ sep ++ join sep ((y :: l1) ++ l2)).
    rewrite IH by discriminate.
    change (join sep (x :: y :: l1)) with (x ++ sep ++ join sep (y :: l1)).
    now rewrite <- !app_assoc.
Qed.

(** Joining the joined groups is joining all the items. *)
Lemma join_groups (sep : str) groups :
  Forall (fun g => g <> []) groups ->
  join sep (map (join sep) groups) = join sep (concat groups).
Proof.
  induction 1 as [|g r Hg Hr IH]; [reflexivity|].
  destruct r as [|g' r]; [simpl; now rewrite app_nil_r|].
  change (join sep (map (join sep) (g :: g' :: r)))
    with (join sep g ++ sep ++ join sep (map (join sep) (g' :: r))).
  rewrite IH.
  change (concat (g :: g' :: r)) with (g ++ concat (g' :: r)).
  rewrite (join_app sep g (concat (g' :: r))); [reflexivity|exact Hg|].
  inversion Hr; subst. simpl. intros E. apply app_eq_nil in E. tauto.
Qed.

(** The slices that a range of step [k] cuts. *)
Lemma slices_cons {A} (l : list A) k m :
  map (fun i => slice l i (i + k)) (map (fun j => j * k) (seq 0 (S m)))
  = firstn k l
    :: map (fun i => slice (skipn k l) i (i + k))
         (map (fun j => j * k) (seq 0 m)).
Proof.
  rewrite <- cons_seq, <- seq_shift. cbn [map]. f_equal.
  - unfold slice. cbn [Nat.mul skipn]. f_equal. lia.
  - rewrite !map_map. apply map_ext. intros j. unfold slice.
    rewrite skipn_skipn. f_equal; [lia|]. f_equal. lia.
Qed.

Lemma slices_concat {A} k m :
  forall l : list A,
    length l <= m * k ->
    concat (map (fun i => slice l i (i + k)) (map (fun j => j * k) (seq 0 m)))
    = l.
Proof.
  induction m as [|m IH]; intros l H.
  - destruct l; [reflexivity|simpl in H; lia].
  - rewrite slices_cons. simpl concat. rewrite IH, firstn_skipn; [reflexivity|].
    rewrite length_skipn. simpl in H. lia.
Qed.

Lemma slices_not_nil {A} k m :
  forall l : list A,
    0 < k -> m * k < length l + k ->
    Forall (fun g => g <> [])
      (map (fun i => slice l i (i + k)) (map (fun j => j * k) (seq 0 m))).
Proof.
  induction m as [|m IH]; intros l Hk H; [constructor|].
  rewrite slices_cons. constructor.
  - destruct l as [|x l]; [simpl in H; lia|]. destruct k; [lia|discriminate].
  - apply IH; [exact Hk|]. rewrite length_skipn. simpl in H. lia.
Qed.

Lemma slice_In {A} (l : list A) i j x : In x (slice l i j) -> In x l.
Proof.
  unfold slice. intros H.
  rewrite <- (firstn_skipn i l). apply in_or_app. right.
  rewrite <- (firstn_skipn (j - i) (skipn i l)). apply in_or_app. now left.
Qed.

Lemma ceil_bounds n k :
  0 < k ->
  n <= (n + k - 1) / k * k /\ (n + k - 1) / k * k < n + k.
Proof.
  intros Hk. pose proof (Nat.div_mod_eq (n + k - 1) k) as E.
  pose proof (Nat.mod_upper_bound (n + k - 1) k) as U.
  split; nia.
Qed.
End LineFacts.

Lemma chunks_flat_map lines k :
  flat_map (add_chunk lines k) (range_step (length lines) k)
  = filter Py.truthy_str
      (map (Py.join (Py.lit " "))
         (map (fun i => slice lines i (i + k)%nat)
            (range_step (length lines) k))).
Proof.
  induction (range_step (length lines) k) as [|i r IH]; [reflexivity|].
  simpl. rewrite IH. unfold add_chunk.
  destruct (Py.truthy_str _); reflexivity.
Qed.

Lemma chunks_none text chunk_size :
  split_text_into_chunks text chunk_size = None <-> (chunk_size < 1)%Z.
Proof.
  unfold split_text_into_chunks. destruct (chunk_size <? 1)%Z eqn:E.
  - apply Z.ltb_lt in E. tauto.
  - apply Z.ltb_ge in E. split; [discriminate|lia].
Qed.

(** X18. Cutting a text into chunks raises exactly when the chunk size is
    below 1. Otherwise every chunk is a non-empty text without line end, a
    single line for [split_text_into_lines], and there are no more chunks
    than the number of lines divided by the chunk size, rounded up. *)
Theorem chunks_are_lines :
  (forall text chunk_size,
      split_text_into_chunks text chunk_size = None <-> (chunk_size < 1)%Z)
  /\ (forall text chunk_size chunks,
         split_text_into_chunks text chunk_size = Some chunks ->
         Forall (fun chunk => chunk <> []
                              /\ split_text_into_lines chunk = [chunk])
                chunks
         /\ (length chunks
             <= (length (split_text_into_lines text)
                 + Z.to_nat chunk_size - 1) / Z.to_nat chunk_size)%nat).
Proof.
  split.
  - apply chunks_none.
  - intros text chunk_size chunks H. unfold split_text_into_chunks in H.
    destruct (chunk_size <? 1)%Z; [discriminate|]. injection H as <-.
    rewrite chunks_flat_map. split.
    + apply Forall_forall. intros chunk Hc. apply filter_In in Hc.
      destruct Hc as [Hin Ht]. split; [now destruct chunk|].
      apply LineFacts.splitlines_one; [now destruct chunk|].
      apply in_map_iff in Hin. destruct Hin as (g & <- & Hg).
      apply LineFacts.join_no_break. apply in_map_iff in Hg.
      destruct Hg as (i & <- & _).
      pose proof (LineFacts.splitlines_no_break text) as F.
      unfold split_text_into_lines. rewrite Forall_forall in *.
      intros l Hl. apply F. now apply LineFacts.slice_In in Hl.
    + etransitivity; [apply filter_length_le|].
      rewrite !length_map. unfold range_step.
      now rewrite length_map, length_seq.
Qed.

Lemma chunks_are_lines_witness :
  Forall (fun chunk => chunk <> [] /\ split_text_into_lines chunk = [chunk])
         [Py.lit "a b"; Py.lit "c"]
  /\ (length [Py.lit "a b"; Py.lit "c"]
      <= (length (split_text_into_lines
                    (Py.lit "a" ++ Py.newline ++ Py.lit "b" ++ Py.newline
                     ++ Py.lit "c"))
          + Z.to_nat 2 - 1) / Z.to_nat 2)%nat.
Proof.
  apply (proj2 chunks_are_lines
           (Py.lit "a" ++ Py.newline ++ Py.lit "b" ++ Py.newline ++ Py.lit "c")
           2%Z).
  reflexivity.
Defined.

(** X19. When no line of the text is empty, no chunk is dropped: there are
    as many chunks as the number of lines divided by the chunk size, rounded
    up, and the chunks joined by spaces are the lines joined by spaces. *)
Theorem chunks_keep_text :
  forall text chunk_size,
    (1 <= chunk_size)%Z ->
    Forall (fun line => line <> []) (split_text_into_lines text) ->
    exists chunks,
      split_text_into_chunks text chunk_size = Some chunks
      /\ length chunks
         = ((length (split_text_into_lines text)
             + Z.to_nat chunk_size - 1) / Z.to_nat chunk_size)%nat
      /\ Py.join (Py.lit " ") chunks
         = Py.join (Py.lit " ") (split_text_into_lines text).
Proof.
  intros text chunk_size Hk Hl. unfold split_text_into_chunks.
  destruct (chunk_size <? 1)%Z eqn:E; [apply Z.ltb_lt in E; lia|].
  eexists. split; [reflexivity|].
  set (lines := split_text_into_lines text) in *.
  set (k := Z.to_nat chunk_size). assert (Hk' : (0 < k)%nat) by (unfold k; lia).
  rewrite chunks_flat_map. unfold range_step.
  set (m := ((length lines + k - 1) / k)%nat).
  destruct (LineFacts.ceil_bounds (length lines) k Hk') as [B1 B2].
  fold m in B1, B2.
  pose proof (LineFacts.slices_not_nil k m lines Hk' B2) as Hne.
  pose proof (LineFacts.slices_concat k m lines B1) as Hcat.
  set (groups := map (fun i => slice lines i (i + k)%nat)
                     (map (fun j => (j * k)%nat) (seq 0 m))) in *.
  assert (Hall : Forall (fun g => Forall (fun l : Py.str => l <> []) g) groups).
  { apply Forall_concat. now rewrite Hcat. }
  assert (Hkeep : filter Py.truthy_str (map (Py.join (Py.lit " ")) groups)
                  = map (Py.join (Py.lit " ")) groups).
  { clear Hcat. induction groups as [|g r IH]; [reflexivity|].
    inversion Hne as [|? ? Hg Hr]; subst.
    inversion Hall as [|? ? Ag Ar]; subst.
    simpl. rewrite (IH Hr Ar).
    destruct g as [|l g]; [congruence|]. inversion Ag as [|? ? Al _]; subst.
    destruct l as [|c l]; [congruence|].
    destruct g; reflexivity. }
  rewrite Hkeep. split.
  - unfold groups. now rewrite !length_map, length_seq.
  - now rewrite LineFacts.join_groups, Hcat.
Qed.

Lemma chunks_keep_text_witness :
  exists chunks,
    split_text_into_chunks
      (Py.lit "a" ++ Py.newline ++ Py.lit "b" ++ Py.newline ++ Py.lit "c") 2
    = Some chunks
    /\ length chunks
       = ((length (split_text_into_lines
                     (Py.lit "a" ++ Py.newline ++ Py.lit "b" ++ Py.newline
                      ++ Py.lit "c"))
           + Z.to_nat 2 - 1) / Z.to_nat 2)%nat
    /\ Py.join (Py.lit " ") chunks
       = Py.join (Py.lit " ")
           (split_text_into_lines
              (Py.lit "a" ++ Py.newline ++ Py.lit "b" ++ Py.newline
               ++ Py.lit "c")).
Proof.
  apply chunks_keep_text; [lia|]. repeat constructor; discriminate.
Defined.

(** ** Nodes for the chunks *)

Lemma append_chunks_spec uuid4 d lines :
  forall st,
    let st' :=
      fold_left
        (fun st line =>
           append_node uuid4 st (content d) (index d) (filename d)
             (Some (metadata d)) (Some line))
        lines st in
    map chunk_fields (fst st')
    = map chunk_fields (fst st)
      ++ map (fun line =>
                (content d, index d, filename d,
                 {| window := content d; meta_filename := filename d;
                    fileindex := index d |}, Some line)) lines
    /\ map uid (fst st')
       = map uid (fst st) ++ map uuid4 (seq (snd st) (length lines))
    /\ snd st' = (snd st + length lines)%nat.
Proof.
  induction lines as [|l r IH]; intros st; simpl.
  - rewrite !app_nil_r. repeat split; lia.
  - destruct (IH (append_node uuid4 st (content d) (index d) (filename d)
                    (Some (metadata d)) (Some l))) as (E1 & E2 & E3).
    simpl in *. rewrite E1, E2, E3, !map_app, <- !app_assoc. simpl.
    repeat split; lia.
Qed.

(** The loop of [chunk_for_embedding] from any state: it ends without
    error and appends the nodes of the chunks of each node. *)
Lemma chunk_loop_spec uuid4 doc_nodes :
  forall st,
  exists st',
    fold_opt (add_doc_chunks uuid4) doc_nodes st = Some st'
    /\ map chunk_fields (fst st')
       = map chunk_fields (fst st)
         ++ flat_map
              (fun d =>
                 map (fun line =>
                        (content d, index d, filename d,
                         {| window := content d;
                            meta_filename := filename d;
                            fileindex := index d |}, Some line))
                     (chunks_of d))
              doc_nodes
    /\ (exists n,
           map uid (fst st')
           = map uid (fst st) ++ map uuid4 (seq (snd st) n)
           /\ snd st' = (snd st + n)%nat
           /\ length (fst st') = (length (fst st) + n)%nat).
Proof.
  induction doc_nodes as [|d r IH]; intros st.
  - exists st. split; [reflexivity|]. split; [now rewrite app_nil_r|].
    exists 0%nat. simpl. rewrite app_nil_r. repeat split; lia.
  - rewrite fold_opt_cons. cbn [flat_map].
    unfold add_doc_chunks at 1, chunks_of at 1.
    destruct (split_text_into_chunks (content d) 2) as [lines|] eqn:E.
    2:{ apply chunks_none in E. lia. }
    destruct (append_chunks_spec uuid4 d lines st) as (E1 & E2 & E3).
    set (st1 := fold_left _ lines st) in *.
    destruct (IH st1) as (st' & F & F1 & n & F2 & F3 & F4).
    exists st'. split; [exact F|]. split.
    + rewrite F1, E1, <- app_assoc. reflexivity.
    + exists (length lines + n)%nat. rewrite F2, E2, F3, E3, F4.
      rewrite <- app_assoc, seq_app, map_app.
      assert (L : length (fst st1) = (length (fst st) + length lines)%nat).
      { rewrite <- (length_map uid), E2, length_app, !length_map, length_seq.
        reflexivity. }
      rewrite L. repeat split; lia.
Qed.

(** X20. [chunk_for_embedding] never raises. For each node, in order, and
    for each chunk of two lines of its content, it makes a node with the
    same content, index and filename and with that chunk; the metadata of
    the new node is rebuilt from these three fields, whatever metadata the
    given node carries; the identifiers of the new nodes are the next
    values of [uuid4], one for each node. *)
Theorem chunk_for_embedding_nodes :
  forall uuid4 calls doc_nodes,
  exists out,
    chunk_for_embedding uuid4 calls doc_nodes
    = Some (out, (calls + length out)%nat)
    /\ map chunk_fields out
       = flat_map
           (fun d =>
              map (fun line =>
                     (content d, index d, filename d,
                      {| window := content d; meta_filename := filename d;
                         fileindex := index d |}, Some line))
                  (chunks_of d))
           doc_nodes
    /\ map uid out = map uuid4 (seq calls (length out)).
Proof.
  intros uuid4 calls doc_nodes. unfold chunk_for_embedding.
  destruct (chunk_loop_spec uuid4 doc_nodes ([], calls))
    as (st' & E & E1 & n & E2 & E3 & E4).
  simpl in *. destruct st' as [out k]. simpl in *. subst k.
  exists out. rewrite E. replace (length out) with n by lia.
  repeat split; assumption.
Qed.

(** ** Splitting Markdown by heading *)

Module ScanFacts.

Section Scan.

Context {A : Type} (match_at : Py.str -> option (A * nat)).

Lemma line_start_at_cons flag c r i :
  line_start_at flag (c :: r) (S i) = line_start_at (c =? 10)%N r i.
Proof. destruct i; reflexivity. Qed.

Lemma skipn_cons_eq {B} (s0 : list B) pos c r :
  skipn pos s0 = c :: r -> skipn (S pos) s0 = r /\ (pos < length s0)%nat.
Proof.
  revert s0. induction pos as [|n IH]; intros [|d s0] E; simpl in E;
    try discriminate.
  - injection E as -> ->. simpl. split; [reflexivity|lia].
  - destruct (IH _ E) as [E1 E2]. split; [exact E1|simpl; lia].
Qed.

(** The matches found are matches, each after the one before. *)
Lemma scan_chain s0 :
  forall s flag skip pos,
    skipn pos s0 = s ->
    chain match_at s0 (pos + skip) (Re.scan match_at flag skip pos s).
Proof.
  induction s as [|c r IH]; intros flag skip pos E; simpl; [exact I|].
  destruct (skipn_cons_eq _ _ _ _ E) as [E1 L].
  destruct skip as [|n].
  - destruct (if flag then match_at (c :: r) else None) as [[a len]|] eqn:M.
    + simpl. repeat split; try lia. exists len. split.
      * rewrite E. destruct flag; [exact M|discriminate].
      * replace (S (pos + (len - 1)))%nat with (S pos + (len - 1))%nat by lia.
        now apply IH.
    + replace (pos + 0)%nat with pos by lia.
      specialize (IH (c =? 10)%N 0%nat (S pos) E1).
      revert IH. generalize (Re.scan match_at (c =? 10)%N 0 (S pos) r).
      intros [|[p a] l]; simpl; [easy|].
      intros (H1 & H2 & len & H3 & H4). repeat split; try lia.
      now exists len.
  - replace (pos + S n)%nat with (S pos + n)%nat by lia. now apply IH.
Qed.

(** Every match found starts at a start of line. *)
Lemma scan_in s :
  forall flag skip pos p a,
    In (p, a) (Re.scan match_at flag skip pos s) ->
    exists i len,
      p = (pos + i)%nat /\ line_start_at flag s i = true
      /\ match_at (skipn i s) = Some (a, len).
Proof.
  induction s as [|c r IH]; intros flag skip pos p a H; simpl in H; [easy|].
  assert (G : In (p, a) (Re.scan match_at (c =? 10)%N
                           (match skip with
                            | S n => n
                            | O => match (if flag then match_at (c :: r)
                                          else None) with
                                   | Some (_, len) => (len - 1)%nat
                                   | None => 0%nat
                                   end
                            end) (S pos) r) ->
              exists i len,
                p = (pos + i)%nat /\ line_start_at flag (c :: r) i = true
                /\ match_at (skipn i (c :: r)) = Some (a, len)).
  { intros G. destruct (IH _ _ _ _ _ G) as (i & len & -> & H1 & H2).
    exists (S i), len. rewrite line_start_at_cons. repeat split; trivial.
    lia. }
  destruct skip as [|n]; [|now apply G].
  destruct (if flag then match_at (c :: r) else None) as [[b len]|] eqn:M;
    [|now apply G].
  destruct H as [H|H]; [|now apply G].
  injection H as <- <-. exists 0%nat, len. simpl.
  destruct flag; [|discriminate]. repeat split; trivial.
Qed.

(** No match at a start of line is passed over, but inside a match. *)
Lemma scan_nil s :
  forall flag skip pos,
    Re.scan match_at flag skip pos s = [] ->
    forall i,
      (skip <= i)%nat -> (i < length s)%nat ->
      line_start_at flag s i = true ->
      match_at (skipn i s) = None.
Proof.
  induction s as [|c r IH]; intros flag skip pos H i H1 H2 H3; simpl in *;
    [lia|].
  destruct skip as [|n].
  - destruct (if flag then match_at (c :: r) else None) as [[b len]|] eqn:M;
      [discriminate|].
    destruct i as [|i].
    + simpl in H3. subst flag. exact M.
    + rewrite line_start_at_cons in H3.
      apply (IH _ _ _ H i); [lia|lia|exact H3].
  - destruct i as [|i]; [lia|]. rewrite line_start_at_cons in H3.
    apply (IH _ _ _ H i); [lia|lia|exact H3].
Qed.

(** The starts of the matches of a chain go up and lie in the string. *)
Lemma chain_starts s :
  forall l lo,
    chain match_at s lo l ->
    StronglySorted lt (map fst l)
    /\ Forall (fun p => (lo <= p < length s)%nat) (map fst l).
Proof.
  induction l as [|[p a] l IH]; intros lo H; simpl in *.
  - split; constructor.
  - destruct H as (H1 & H2 & len & H3 & H4).
    destruct (IH _ H4) as [S1 S2]. split.
    + constructor; [exact S1|].
      revert S2. apply Forall_impl. intros q. lia.
    + constructor; [lia|]. revert S2. apply Forall_impl. intros q. lia.
Qed.

End Scan.

(** *** The two patterns *)

Lemma hashes_leading s : Re.hash_plus s = leading_hashes s.
Proof.
  induction s as [|c r IH]; [reflexivity|]. simpl.
  destruct (N.eqb_spec c 35) as [->|Hc]; [now rewrite IH|].
  destruct c as [|p]; [reflexivity|].
  do 6 (destruct p as [p|p|]; try reflexivity). now destruct Hc.
Qed.

Lemma hashes_le s : (Re.hash_plus s <= length s)%nat.
Proof.
  induction s as [|c r IH]; simpl; [lia|].
  destruct (c =? 35)%N; simpl; lia.
Qed.

Lemma hashes_startswith s :
  forall m, (m <= Re.hash_plus s)%nat ->
            Py.startswith s (repeat 35%N m) = true.
Proof.
  induction s as [|c r IH]; intros [|m] H; simpl in *; try reflexivity;
    [lia|].
  destruct (N.eqb_spec c 35) as [->|Hc]; [|lia].
  simpl. apply IH. lia.
Qed.

Lemma startswith_app s p :
  Py.startswith s p = true -> s = p ++ skipn (length p) s.
Proof.
  revert s. induction p as [|a p IH]; intros s H; [reflexivity|].
  destruct s as [|b s]; [discriminate|]. simpl in H.
  apply andb_prop in H. destruct H as [H1 H2]. apply N.eqb_eq in H1.
  subst b. simpl. f_equal. now apply IH.
Qed.

Lemma dot_star_le s : (Re.dot_star s <= length s)%nat.
Proof.
  induction s as [|c r IH]; simpl; [lia|].
  destruct (c =? 10)%N; simpl; lia.
Qed.

(** A heading of level [m] is a match of the pattern for the level [m]. *)
Lemma heading_target s g len :
  Re.heading s = Some (g, len) ->
  Re.target (length g) s = Some (tt, len) /\ (1 <= length g)%nat.
Proof.
  unfold Re.heading, Re.target. destruct (Re.hash_plus s) as [|k] eqn:E;
    [discriminate|].
  destruct (Re.space_dot_star (skipn (S k) s)) as [n|] eqn:F;
    [|discriminate].
  intros H.
  assert (Eg : g = firstn (S k) s) by congruence.
  assert (El : len = (S k + n)%nat) by congruence.
  clear H. subst g len.
  assert (L : length (firstn (S k) s) = S k).
  { rewrite length_firstn. pose proof (hashes_le s). lia. }
  rewrite L, hashes_startswith by lia. rewrite F. split; [reflexivity|lia].
Qed.

(** What a match of the pattern for the level [m] starts with. *)
Lemma target_shape m s len :
  Re.target m s = Some (tt, len) ->
  exists c r,
    s = repeat 35%N m ++ c :: r /\ Py.isspace c = true
    /\ (m + 1 <= len <= length s)%nat.
Proof.
  unfold Re.target. destruct (Py.startswith s (repeat 35%N m)) eqn:E;
    [|discriminate].
  apply startswith_app in E. rewrite repeat_length in E.
  unfold Re.space_dot_star. destruct (skipn m s) as [|c r] eqn:F;
    [discriminate|].
  destruct (Py.isspace c) eqn:Hc; [|discriminate].
  intros H. injection H as <-. exists c, r. split; [exact E|].
  split; [exact Hc|]. rewrite E.
  rewrite length_app, repeat_length. simpl.
  pose proof (dot_star_le r). lia.
Qed.

(** *** The least level *)

Lemma min_level_spec (l : list Py.str) :
  forall init m,
    fold_left
      (fun min_heading_level match_ =>
         let level := length match_ in
         if (level <? min_heading_level)%nat
         then level else min_heading_level)
      l init = m ->
    (m <= init)%nat /\ (m = init \/ exists g, In g l /\ length g = m).
Proof.
  induction l as [|g l IH]; intros init m E; simpl in E.
  - subst m. split; [lia|now left].
  - destruct (Nat.ltb_spec (length g) init) as [H|H].
    + destruct (IH _ _ E) as [H1 [H2|(g' & H2 & H3)]].
      * split; [lia|]. right. exists g. split; [now left|now symmetry].
      * split; [lia|]. right. exists g'. split; [now right|exact H3].
    + destruct (IH _ _ E) as [H1 [H2|(g' & H2 & H3)]].
      * split; [lia|now left].
      * split; [lia|]. right. exists g'. split; [now right|exact H3].
Qed.

End ScanFacts.

Module SplitFacts.

Import ScanFacts.

(** *** The loops *)

Lemma fold_left_map {S A B} (f : S -> B -> S) (g : A -> B) l :
  forall st, fold_left f (map g l) st = fold_left (fun st x => f st (g x)) l st.
Proof. induction l as [|x l IH]; intros st; simpl; [reflexivity|apply IH]. Qed.

Lemma pieces_loop s starts :
  map (fun i =>
         slice s (nth i starts 0%nat)
           (if (i + 1 <? length starts)%nat
            then nth (i + 1) starts 0%nat else length s))
      (seq 0 (length starts))
  = pieces s starts.
Proof.
  induction starts as [|a rest IH]; [reflexivity|].
  cbn [length seq map pieces]. f_equal.
  - destruct rest; reflexivity.
  - rewrite <- seq_shift, map_map, <- IH. apply map_ext. intros i.
    replace (S i + 1)%nat with (S (i + 1)) by lia. reflexivity.
Qed.

Lemma add_documents_spec uuid4 fn docs :
  forall nodes calls i,
    fold_left (add_document uuid4 fn) docs ((nodes, calls), i)
    = ((nodes ++ nodes_of uuid4 fn calls i (filter Py.truthy_str docs),
        (calls + length (filter Py.truthy_str docs))%nat),
       (i + Z.of_nat (length (filter Py.truthy_str docs)))%Z).
Proof.
  induction docs as [|d docs IH]; intros nodes calls i; simpl.
  - now rewrite app_nil_r, Nat.add_0_r, Z.add_0_r.
  - unfold add_document at 2. destruct (Py.truthy_str d) eqn:E; simpl.
    + unfold append_node. simpl. rewrite IH, <- app_assoc. simpl.
      rewrite Nat.add_succ_r, Zpos_P_of_succ_nat.
      replace (i + 1 + Z.of_nat (length (filter Py.truthy_str docs)))%Z
        with (i + Z.succ (Z.of_nat (length (filter Py.truthy_str docs))))%Z
        by lia.
      reflexivity.
    + apply IH.
Qed.

Lemma single_document_spec uuid4 calls s fn :
  single_document uuid4 calls s fn
  = (nodes_of uuid4 fn calls 0 (filter Py.truthy_str [Py.strip s]),
     (calls + length (filter Py.truthy_str [Py.strip s]))%nat).
Proof.
  unfold single_document. simpl.
  destruct (Py.truthy_str (Py.strip s)); simpl;
    [|now rewrite Nat.add_0_r].
  unfold append_node. simpl. now rewrite Nat.add_1_r.
Qed.

(** The nodes returned are those of the documents that are not empty. *)
Lemma split_spec uuid4 calls s fn :
  split_markdown_by_heading uuid4 calls s fn
  = (nodes_of uuid4 fn calls 0 (filter Py.truthy_str (documents s)),
     (calls + length (filter Py.truthy_str (documents s)))%nat).
Proof.
  unfold split_markdown_by_heading, documents.
  destruct (min_heading_level s =? 7)%nat; [apply single_document_spec|].
  destruct (target_heading_matches s) as [|first rest] eqn:E;
    [apply single_document_spec|].
  rewrite <- (fold_left_map (add_document uuid4 fn)
                (fun i => Py.strip (slice s (nth i (first :: rest) 0%nat)
                   (if (i + 1 <? length (first :: rest))%nat
                    then nth (i + 1) (first :: rest) 0%nat else length s)))).
  rewrite <- (map_map _ Py.strip), pieces_loop.
  change (fold_left (add_document uuid4 fn)
            (map Py.strip (pieces s (first :: rest)))
            (add_document uuid4 fn ([], calls, 0%Z)
               (Py.strip (slice s 0 first))))
    with (fold_left (add_document uuid4 fn)
            (cut_documents s (first :: rest)) ([], calls, 0%Z)).
  rewrite add_documents_spec. reflexivity.
Qed.

(** *** The nodes of a list of documents *)

Lemma nodes_of_fields uuid4 fn contents :
  forall calls i,
    let nodes := nodes_of uuid4 fn calls i contents in
    map content nodes = contents
    /\ map uid nodes = map uuid4 (seq calls (length contents))
    /\ map index nodes
       = map (fun j => (i + Z.of_nat j)%Z) (seq 0 (length contents))
    /\ Forall (fun d =>
                 filename d = fn /\ chunk d = None
                 /\ metadata d
                    = {| window := content d; meta_filename := fn;
                         fileindex := index d |}) nodes.
Proof.
  induction contents as [|c r IH]; intros calls i; simpl.
  - repeat split; constructor.
  - destruct (IH (S calls) (i + 1)%Z) as (H1 & H2 & H3 & H4).
    rewrite H1, H2, H3. repeat split.
    + f_equal; [f_equal; lia|].
      rewrite <- seq_shift, map_map. apply map_ext. intros j. lia.
    + constructor; [now repeat split|exact H4].
Qed.

(** *** The documents *)

Lemma slice_cut {A} (s : list A) a b :
  (a <= b)%nat -> slice s a b ++ skipn b s = skipn a s.
Proof.
  intros H. unfold slice.
  replace (skipn b s) with (skipn (b - a) (skipn a s)).
  - apply firstn_skipn.
  - rewrite skipn_skipn. f_equal. lia.
Qed.

Lemma pieces_concat s :
  forall starts a,
    StronglySorted lt (a :: starts) ->
    concat (pieces s (a :: starts)) = skipn a s.
Proof.
  induction starts as [|b r IH]; intros a H.
  - simpl. rewrite app_nil_r. unfold slice. apply firstn_all2.
    rewrite length_skipn. lia.
  - inversion H as [|? ? H1 H2]; subst. inversion H2; subst.
    change (slice s a b ++ concat (pieces s (b :: r)) = skipn a s).
    rewrite (IH b H1). apply slice_cut. lia.
Qed.

Lemma cut_documents_concat s first rest :
  StronglySorted lt (first :: rest) ->
  concat (slice s 0 first :: pieces s (first :: rest)) = s.
Proof.
  intros H. change (slice s 0 first ++ concat (pieces s (first :: rest)) = s).
  rewrite (pieces_concat s rest first H).
  rewrite (slice_cut s 0 first) by lia. reflexivity.
Qed.

Lemma visible_app a b : visible (a ++ b) = visible a ++ visible b.
Proof. apply filter_app. Qed.

Lemma visible_documents l :
  visible (concat (filter Py.truthy_str (map Py.strip l)))
  = visible (concat l).
Proof.
  induction l as [|x l IH]; [reflexivity|]. simpl.
  rewrite visible_app, <- IH, <- (CleanFacts.visible_strip x).
  destruct (Py.strip x); [reflexivity|].
  simpl Py.truthy_str. cbn [concat]. now rewrite visible_app.
Qed.

Lemma target_starts_sorted s :
  StronglySorted lt (target_heading_matches s).
Proof.
  unfold target_heading_matches, Re.finditer.
  apply (chain_starts (Re.target (min_heading_level s)) s _ (0 + 0)%nat).
  now apply scan_chain.
Qed.

Lemma documents_visible s :
  visible (concat (filter Py.truthy_str (documents s))) = visible s.
Proof.
  unfold documents.
  assert (G : visible (concat (filter Py.truthy_str [Py.strip s]))
              = visible s).
  { change [Py.strip s] with (map Py.strip [s]).
    rewrite (visible_documents [s]). simpl. now rewrite app_nil_r. }
  destruct (min_heading_level s =? 7)%nat; [exact G|].
  pose proof (target_starts_sorted s) as H.
  destruct (target_heading_matches s) as [|first rest]; [exact G|].
  unfold cut_documents. simpl hd.
  change (Py.strip (slice s 0 first)
          :: map Py.strip (pieces s (first :: rest)))
    with (map Py.strip (slice s 0 first :: pieces s (first :: rest))).
  rewrite (visible_documents (slice s 0 first :: pieces s (first :: rest))).
  now rewrite cut_documents_concat.
Qed.

Lemma documents_stripped s :
  Forall (fun c => Py.strip c = c) (documents s).
Proof.
  unfold documents, cut_documents.
  destruct (min_heading_level s =? 7)%nat.
  - constructor; [apply StrFacts.strip_idem|constructor].
  - destruct (target_heading_matches s) as [|first rest].
    + constructor; [apply StrFacts.strip_idem|constructor].
    + constructor; [apply StrFacts.strip_idem|].
      apply Forall_map. apply Forall_forall. intros x _.
      apply StrFacts.strip_idem.
Qed.

End SplitFacts.

Module HeadingFacts.

Import ScanFacts SplitFacts.

Lemma space_not_hash c : Py.isspace c = true -> (c =? 35)%N = false.
Proof.
  intros H. destruct (N.eqb_spec c 35) as [->|]; [discriminate|reflexivity].
Qed.

Lemma rstrip_hashes k c t :
  Py.isspace c = true ->
  leading_hashes (Py.rstrip (repeat 35%N (S k) ++ c :: t)) = S k.
Proof.
  intros Hc. induction k as [|k IH].
  - change (leading_hashes
              (match Py.rstrip (c :: t) with
               | [] => [35%N]
               | r' => 35%N :: r'
               end) = 1%nat).
    destruct (CleanFacts.rstrip_prefix (c :: t)) as (q & E & _).
    destruct (Py.rstrip (c :: t)) as [|d r']; [reflexivity|].
    injection E as <- _. rewrite <- hashes_leading. simpl.
    now rewrite (space_not_hash c Hc).
  - change (leading_hashes
              (match Py.rstrip (repeat 35%N (S k) ++ c :: t) with
               | [] => [35%N]
               | r' => 35%N :: r'
               end) = S (S k)).
    destruct (Py.rstrip (repeat 35%N (S k) ++ c :: t)) as [|d r'];
      [discriminate|].
    change (S (leading_hashes (d :: r')) = S (S k)). now rewrite IH.
Qed.

Lemma strip_hashes k c t :
  Py.isspace c = true ->
  leading_hashes (Py.strip (repeat 35%N (S k) ++ c :: t)) = S k.
Proof.
  intros Hc. unfold Py.strip.
  change (Py.lstrip (repeat 35%N (S k) ++ c :: t))
    with (repeat 35%N (S k) ++ c :: t).
  now apply rstrip_hashes.
Qed.

Lemma firstn_hashes m c (r : Py.str) n :
  (m + 1 <= n)%nat ->
  firstn n (repeat 35%N m ++ c :: r)
  = repeat 35%N m ++ c :: firstn (n - m - 1) r.
Proof.
  intros H. rewrite firstn_app, repeat_length.
  rewrite firstn_all2 by (rewrite repeat_length; lia).
  f_equal. destruct (n - m)%nat as [|k] eqn:E; [lia|].
  simpl. now rewrite Nat.sub_0_r.
Qed.

(** The documents cut at the headings of the level [m] start with [m]
    '#'. *)
Lemma pieces_headed m s :
  (1 <= m)%nat ->
  forall l lo,
    chain (Re.target m) s lo l ->
    Forall (fun c => leading_hashes c = m)
           (map Py.strip (pieces s (map fst l))).
Proof.
  intros Hm. induction l as [|[p []] l IH]; intros lo H; [constructor|].
  simpl in H. destruct H as (H1 & H2 & len & H3 & H4).
  cbn [map fst pieces]. constructor; [|exact (IH _ H4)].
  destruct (target_shape _ _ _ H3) as (c & r & E & Hc & L).
  rewrite length_skipn in L.
  assert (B : (p + len <= match map fst l with
                          | b :: _ => b
                          | [] => length s
                          end)%nat).
  { destruct l as [|[q a] l]; simpl; [lia|].
    simpl in H4. lia. }
  unfold slice. rewrite E, firstn_hashes by lia.
  destruct m as [|k]; [lia|]. now apply strip_hashes.
Qed.

(** When a heading is found, the pattern of the least level has a match. *)
Lemma target_found s :
  min_heading_level s <> 7%nat ->
  (1 <= min_heading_level s <= 6)%nat
  /\ target_heading_matches s <> [].
Proof.
  intros H.
  destruct (min_level_spec (heading_matches s) 7%nat (min_heading_level s)
              eq_refl) as [H1 [H2|(g & H2 & H3)]]; [contradiction|].
  unfold heading_matches in H2. apply in_map_iff in H2.
  destruct H2 as ([p g'] & E & H2). simpl in E. subst g'.
  destruct (scan_in _ _ _ _ _ _ _ H2) as (i & len & _ & H4 & H5).
  destruct (heading_target _ _ _ H5) as [H6 H7]. rewrite H3 in H6, H7.
  split; [lia|]. intros E. unfold target_heading_matches in E.
  apply map_eq_nil in E.
  assert (L : (i < length s)%nat).
  { destruct (Nat.lt_ge_cases i (length s)) as [L|L]; [exact L|].
    rewrite skipn_all2 in H5 by exact L. discriminate. }
  rewrite (scan_nil _ _ _ _ _ E i) in H6; [discriminate|lia|exact L|exact H4].
Qed.

(** The documents when a heading is found. *)
Lemma documents_headed s :
  min_heading_level s <> 7%nat ->
  exists first rest,
    target_heading_matches s = first :: rest
    /\ filter Py.truthy_str (documents s)
       = filter Py.truthy_str [Py.strip (slice s 0 first)]
         ++ map Py.strip (pieces s (first :: rest))
    /\ Forall (fun c => leading_hashes c = min_heading_level s)
              (map Py.strip (pieces s (first :: rest))).
Proof.
  intros H. destruct (target_found s H) as [Hm Ht].
  assert (G : Forall (fun c => leading_hashes c = min_heading_level s)
                (map Py.strip (pieces s (target_heading_matches s)))).
  { unfold target_heading_matches, Re.finditer.
    apply (pieces_headed _ s (proj1 Hm) _ (0 + 0)%nat).
    now apply scan_chain. }
  unfold documents. destruct (Nat.eqb_spec (min_heading_level s) 7) as [E|_];
    [contradiction|].
  destruct (target_heading_matches s) as [|first rest]; [contradiction|].
  exists first, rest. split; [reflexivity|]. split; [|exact G].
  unfold cut_documents. simpl hd.
  change (Py.strip (slice s 0 first)
          :: map Py.strip (pieces s (first :: rest)))
    with ([Py.strip (slice s 0 first)]
          ++ map Py.strip (pieces s (first :: rest))).
  rewrite filter_app. f_equal.
  apply forallb_filter_id. apply forallb_forall. intros c Hc.
  rewrite Forall_forall in G. specialize (G c Hc).
  destruct c; [simpl in G; lia|reflexivity].
Qed.

(** A text without '#' has no heading. *)
Lemma no_hash_no_heading s :
  Forall (fun c => c <> 35%N) s -> min_heading_level s = 7%nat.
Proof.
  intros H. unfold min_heading_level, heading_matches, Re.finditer.
  destruct (Re.scan Re.heading true 0 0 s) as [|[p g] l] eqn:E;
    [reflexivity|].
  assert (I : In (p, g) (Re.scan Re.heading true 0 0 s))
    by (rewrite E; now left).
  destruct (scan_in _ _ _ _ _ _ _ I) as (i & len & _ & _ & H1).
  unfold Re.heading in H1.
  destruct (skipn i s) as [|c r] eqn:F; [discriminate|].
  assert (Hc : c <> 35%N).
  { rewrite Forall_forall in H. apply H.
    rewrite <- (firstn_skipn i s), F. apply in_or_app. right. now left. }
  simpl in H1. destruct (N.eqb_spec c 35); [contradiction|discriminate].
Qed.

End HeadingFacts.

(** X21. [split_markdown_by_heading] numbers the nodes it returns from 0
    on, in order, and gives them the next identifiers of [uuid4]. Each node
    has a content that is not empty and has no whitespace at its ends, the
    file name given, no chunk, and the metadata made of its content, file
    name and index. *)
Theorem split_markdown_nodes :
  forall uuid4 calls markdown_content fn,
  exists nodes,
    split_markdown_by_heading uuid4 calls markdown_content fn
    = (nodes, (calls + length nodes)%nat)
    /\ map index nodes = map Z.of_nat (seq 0 (length nodes))
    /\ map uid nodes = map uuid4 (seq calls (length nodes))
    /\ Forall (fun d =>
                 content d <> [] /\ Py.strip (content d) = content d
                 /\ filename d = fn /\ chunk d = None
                 /\ metadata d
                    = {| window := content d; meta_filename := fn;
                         fileindex := index d |}) nodes.
Proof.
  intros uuid4 calls s fn. rewrite SplitFacts.split_spec.
  set (contents := filter Py.truthy_str (documents s)).
  destruct (SplitFacts.nodes_of_fields uuid4 fn contents calls 0%Z)
    as (H1 & H2 & H3 & H4).
  assert (L : length (nodes_of uuid4 fn calls 0 contents) = length contents)
    by now rewrite <- H1 at 2; rewrite length_map.
  exists (nodes_of uuid4 fn calls 0 contents). rewrite L.
  split; [reflexivity|]. split; [exact H3|]. split; [exact H2|].
  assert (G : Forall (fun c => c <> [] /\ Py.strip c = c)
                (map content (nodes_of uuid4 fn calls 0 contents))).
  { rewrite H1. apply Forall_forall. intros c Hc. apply filter_In in Hc.
    destruct Hc as [Hc Ht]. split; [now destruct c|].
    pose proof (SplitFacts.documents_stripped s) as D.
    rewrite Forall_forall in D. now apply D. }
  rewrite Forall_map in G. rewrite Forall_forall in G, H4.
  apply Forall_forall. intros d Hd.
  destruct (G d Hd) as [G1 G2]. destruct (H4 d Hd) as (G3 & G4 & G5).
  repeat split; assumption.
Qed.

(** X22. [split_markdown_by_heading] loses and adds nothing but
    whitespace: the characters of the contents of the nodes that are not
    whitespace are, in order, those of the text. *)
Theorem split_markdown_keeps_text :
  forall uuid4 calls markdown_content fn,
    visible
      (concat
         (map content
            (fst (split_markdown_by_heading uuid4 calls markdown_content
                    fn))))
    = visible markdown_content.
Proof.
  intros uuid4 calls s fn. rewrite SplitFacts.split_spec. simpl fst.
  destruct (SplitFacts.nodes_of_fields uuid4 fn
              (filter Py.truthy_str (documents s)) calls 0%Z) as (H1 & _).
  rewrite H1. apply SplitFacts.documents_visible.
Qed.

(** X23. A text in which no '#' occurs is not split: it gives one node,
    whose content is the text without the whitespace at its ends, or no
    node when the text is blank. *)
Theorem split_markdown_without_heading :
  forall uuid4 calls markdown_content fn,
    Forall (fun c => c <> 35%N) markdown_content ->
    map content
      (fst (split_markdown_by_heading uuid4 calls markdown_content fn))
    = if Py.truthy_str (Py.strip markdown_content)
      then [Py.strip markdown_content] else [].
Proof.
  intros uuid4 calls s fn H. rewrite SplitFacts.split_spec. simpl fst.
  destruct (SplitFacts.nodes_of_fields uuid4 fn
              (filter Py.truthy_str (documents s)) calls 0%Z) as (H1 & _).
  rewrite H1. unfold documents.
  now rewrite (HeadingFacts.no_hash_no_heading s H).
Qed.

Lemma split_markdown_without_heading_witness :
  map content
    (fst (split_markdown_by_heading (fun _ => []) 0
            (Py.lit " plain text ") (Py.lit "a.pdf")))
  = [Py.lit "plain text"].
Proof.
  apply (split_markdown_without_heading (fun _ => []) 0%nat
           (Py.lit " plain text ") (Py.lit "a.pdf")).
  repeat (constructor; [discriminate|]). constructor.
Defined.

(** X24. When a heading is found, with [m] the least level found, the
    text is cut at the headings of the level [m]: every node starts with
    exactly [m] '#', but the first one when there is text before the first
    heading of that level; there is a node for each such heading, and [m]
    lies between 1 and 6. *)
Theorem split_markdown_top_headings :
  forall uuid4 calls markdown_content fn,
    min_heading_level markdown_content <> 7%nat ->
    exists before headed,
      map content
        (fst (split_markdown_by_heading uuid4 calls markdown_content fn))
      = before ++ headed
      /\ (length before <= 1)%nat
      /\ length headed = length (target_heading_matches markdown_content)
      /\ headed <> []
      /\ Forall (fun c =>
                   leading_hashes c = min_heading_level markdown_content)
                headed
      /\ (1 <= min_heading_level markdown_content <= 6)%nat.
Proof.
  intros uuid4 calls s fn H. rewrite SplitFacts.split_spec. simpl fst.
  destruct (SplitFacts.nodes_of_fields uuid4 fn
              (filter Py.truthy_str (documents s)) calls 0%Z) as (H1 & _).
  rewrite H1.
  destruct (HeadingFacts.documents_headed s H) as (first & rest & E & F & G).
  destruct (HeadingFacts.target_found s H) as [Hm _].
  exists (filter Py.truthy_str [Py.strip (slice s 0 first)]),
         (map Py.strip (pieces s (first :: rest))).
  split; [exact F|]. split.
  { simpl. destruct (Py.truthy_str _); simpl; lia. }
  split.
  { rewrite E, length_map. clear. generalize (first :: rest).
    induction l as [|a l IH]; simpl; [reflexivity|now rewrite IH]. }
  split; [discriminate|]. split; [exact G|exact Hm].
Qed.

Lemma split_markdown_top_headings_witness :
  exists before headed,
    map content
      (fst (split_markdown_by_heading (fun _ => []) 0
              (Py.lit "intro" ++ Py.newline ++ Py.lit "## A" ++ Py.newline
               ++ Py.lit "### B" ++ Py.newline ++ Py.lit "## C")
              (Py.lit "a.pdf")))
    = before ++ headed
    /\ (length before <= 1)%nat
    /\ length headed
       = length (target_heading_matches
                   (Py.lit "intro" ++ Py.newline ++ Py.lit "## A"
                    ++ Py.newline ++ Py.lit "### B" ++ Py.newline
                    ++ Py.lit "## C"))
    /\ headed <> []
    /\ Forall (fun c =>
                 leading_hashes c
                 = min_heading_level
                     (Py.lit "intro" ++ Py.newline ++ Py.lit "## A"
                      ++ Py.newline ++ Py.lit "### B" ++ Py.newline
                      ++ Py.lit "## C"))
              headed
    /\ (1 <= min_heading_level
               (Py.lit "intro" ++ Py.newline ++ Py.lit "## A"
                ++ Py.newline ++ Py.lit "### B" ++ Py.newline
                ++ Py.lit "## C") <= 6)%nat.
Proof.
  apply (split_markdown_top_headings (fun _ => []) 0%nat
           (Py.lit "intro" ++ Py.newline ++ Py.lit "## A" ++ Py.newline
            ++ Py.lit "### B" ++ Py.newline ++ Py.lit "## C")
           (Py.lit "a.pdf")).
  vm_compute. lia.
Defined.

(** X25. The last branch of [split_markdown_by_heading], for a level found
    whose pattern has no match, is never taken: when the least level is not
    7, the pattern of that level has a match. *)
Theorem split_markdown_target_found :
  forall markdown_content,
    min_heading_level markdown_content = 7%nat
    \/ exists first rest,
         target_heading_matches markdown_content = first :: rest.
Proof.
  intros s. destruct (Nat.eq_dec (min_heading_level s) 7) as [E|E];
    [now left|right].
  destruct (HeadingFacts.target_found s E) as [_ H].
  destruct (target_heading_matches s) as [|first rest]; [contradiction|].
  now exists first, rest.
Qed.

(** ** From the Markdown to the chunks *)

Module VisibleFacts.

Import SplitFacts.

Lemma linebreak_isspace c : is_linebreak c = true -> Py.isspace c = true.
Proof.
  unfold is_linebreak, Py.isspace. intros H.
  repeat (apply orb_true_iff in H; destruct H as [H|H]);
    try (apply andb_true_iff in H; destruct H as [H1 H2];
         apply N.leb_le in H1, H2);
    try apply N.eqb_eq in H;
    repeat (apply orb_true_iff;
            first [ right; apply N.eqb_eq; lia
                  | right; apply andb_true_iff; split; apply N.leb_le; lia
                  | left ]);
    apply andb_true_iff; split; apply N.leb_le; lia.
Qed.

Lemma visible_space c s : Py.isspace c = true -> visible (c :: s) = visible s.
Proof. intros H. unfold visible. simpl. now rewrite H. Qed.

Lemma concat_cons_line c ls : concat (cons_line c ls) = c :: concat ls.
Proof. destruct ls; reflexivity. Qed.

(** The lines of a text hold its visible characters. *)
Lemma splitlines_visible s : visible (concat (splitlines s)) = visible s.
Proof.
  assert (G : forall n s, (length s <= n)%nat ->
                          visible (concat (splitlines s)) = visible s).
  { clear s. induction n as [|n IH]; intros [|c r] H; try reflexivity;
      [simpl in H; lia|].
    simpl in H. cbn [splitlines]. destruct (is_linebreak c) eqn:E.
    - rewrite (visible_space c r) by now apply linebreak_isspace.
      cbn [concat app]. destruct r as [|d r']; [reflexivity|].
      destruct ((c =? 13) && (d =? 10))%N eqn:F.
      + apply andb_prop in F. destruct F as [_ F]. apply N.eqb_eq in F.
        subst d. rewrite (visible_space 10%N r') by reflexivity.
        apply IH. simpl in H. lia.
      + apply IH. lia.
    - rewrite concat_cons_line. unfold visible in *. simpl.
      rewrite (IH r) by lia. reflexivity. }
  now apply (G (length s)).
Qed.

(** Joining with spaces adds no visible character. *)
Lemma join_visible ls :
  visible (Py.join (Py.lit " ") ls) = visible (concat ls).
Proof.
  induction ls as [|l r IH]; [reflexivity|].
  destruct r as [|l' r]; [simpl; now rewrite app_nil_r|].
  change (Py.join (Py.lit " ") (l :: l' :: r))
    with (l ++ 32%N :: Py.join (Py.lit " ") (l' :: r)).
  change (concat (l :: l' :: r)) with (l ++ concat (l' :: r)).
  rewrite !visible_app, (visible_space 32%N) by reflexivity.
  now rewrite IH.
Qed.

Lemma concat_truthy (l : list Py.str) :
  concat (filter Py.truthy_str l) = concat l.
Proof.
  induction l as [|x l IH]; [reflexivity|]. simpl.
  destruct x; simpl; [exact IH|now rewrite IH].
Qed.

Lemma joined_visible (groups : list (list Py.str)) :
  visible (concat (map (Py.join (Py.lit " ")) groups))
  = visible (concat (concat groups)).
Proof.
  induction groups as [|g r IH]; [reflexivity|]. simpl.
  rewrite concat_app, !visible_app, IH, join_visible. reflexivity.
Qed.

(** The chunks of a text hold its visible characters. *)
Lemma chunks_visible text k :
  (0 < k)%nat ->
  visible
    (concat
       (flat_map (add_chunk (split_text_into_lines text) k)
          (range_step (length (split_text_into_lines text)) k)))
  = visible text.
Proof.
  intros Hk. rewrite chunks_flat_map, concat_truthy, joined_visible.
  unfold range_step. rewrite LineFacts.slices_concat.
  - apply splitlines_visible.
  - apply (LineFacts.ceil_bounds _ k Hk).
Qed.

Lemma chunks_of_visible d : visible (concat (chunks_of d)) = visible (content d).
Proof.
  unfold chunks_of, split_text_into_chunks. simpl.
  apply chunks_visible. simpl. lia.
Qed.

End VisibleFacts.

(** X26. Cutting a text into chunks of one line or more loses and adds
    nothing but whitespace: the characters of the chunks that are not
    whitespace are, in order, those of the text. *)
Theorem chunks_keep_visible :
  forall text chunk_size,
    (1 <= chunk_size)%Z ->
    exists chunks,
      split_text_into_chunks text chunk_size = Some chunks
      /\ visible (concat chunks) = visible text.
Proof.
  intros text chunk_size H. unfold split_text_into_chunks.
  destruct (chunk_size <? 1)%Z eqn:E; [apply Z.ltb_lt in E; lia|].
  eexists. split; [reflexivity|]. apply VisibleFacts.chunks_visible. lia.
Qed.

Lemma chunks_keep_visible_witness :
  exists chunks,
    split_text_into_chunks
      (Py.lit "a b" ++ Py.newline ++ Py.newline ++ Py.lit " c") 2
    = Some chunks
    /\ visible (concat chunks)
       = visible (Py.lit "a b" ++ Py.newline ++ Py.newline ++ Py.lit " c").
Proof.
  apply (chunks_keep_visible
           (Py.lit "a b" ++ Py.newline ++ Py.newline ++ Py.lit " c") 2%Z).
  lia.
Defined.

(** X27. Splitting a Markdown text by heading and cutting the nodes into
    chunks never raises, and the chunks of the nodes returned hold, in
    order, the characters of the text that are not whitespace. *)
Theorem markdown_chunks_keep_text :
  forall uuid4 calls markdown_content fn,
  exists nodes calls' chunked calls'' chunks,
    split_markdown_by_heading uuid4 calls markdown_content fn
    = (nodes, calls')
    /\ chunk_for_embedding uuid4 calls' nodes = Some (chunked, calls'')
    /\ map chunk chunked = map Some chunks
    /\ visible (concat chunks) = visible markdown_content.
Proof.
  intros uuid4 calls s fn. rewrite SplitFacts.split_spec.
  set (nodes := nodes_of uuid4 fn calls 0
                  (filter Py.truthy_str (documents s))).
  set (calls' := (calls + _)%nat).
  destruct (chunk_loop_spec uuid4 nodes ([], calls'))
    as ([chunked calls''] & E & E1 & _).
  simpl in E1.
  exists nodes, calls', chunked, calls'', (flat_map chunks_of nodes).
  split; [reflexivity|]. split; [exact E|]. split.
  - transitivity (map (fun f : Py.str * Z * Py.str * Metadata * option Py.str
                       => snd f) (map chunk_fields chunked)).
    { rewrite map_map. reflexivity. }
    rewrite E1. clear. induction nodes as [|d r IH]; [reflexivity|].
    simpl. rewrite !map_app, IH, !map_map. reflexivity.
  - transitivity (visible (concat (map content nodes))).
    + clear. induction nodes as [|d r IH]; [reflexivity|]. simpl.
      rewrite concat_app, !SplitFacts.visible_app, IH.
      now rewrite VisibleFacts.chunks_of_visible.
    + destruct (SplitFacts.nodes_of_fields uuid4 fn
                  (filter Py.truthy_str (documents s)) calls 0%Z)
        as (H1 & _).
      unfold nodes. rewrite H1. apply SplitFacts.documents_visible.
Qed.
